(** * job-backend: the cross-entity referential workflow, embedded in Rocq

    The Express handlers of [src/controllers] are written here as functions
    from a request and a database to a response and a database.  A database
    is one list of documents per Mongoose model, in insertion order.  Every
    handler body runs inside the [try]/[catch] of the source: an exception
    raised by the driver (a cast error, a validation error, a duplicate
    key) leaves through the [catch] branch and answers 500.

    What lies outside the repository is modelled as follows.
    - A string is a sequence of bytes, and [validator.escape],
      [String.prototype.trim] and [toLowerCase] act on the ASCII plane:
      the model is that of the code on ASCII text.  Beyond it JavaScript
      trims more (U+00A0, U+FEFF and the other Unicode spaces) and
      lower-cases more.
    - A number is given by an integer literal and is the double that
      [JSON.parse] reads from it; [String] of it is Number::toString.
    - [ObjectId.isValid] and the casts of Mongoose follow the bson and
      mongoose packages on JSON scalars ([null], booleans, numbers and
      strings); see [ObjectId_isValid], [castObjectId] and [castString].
      An array or an object in the place of a scalar is a cast error
      here, whereas the driver reads some of them (an array as an [$in]
      list or through [toString], an object through its [_id] or as an
      operator document): the properties speak of scalars in these
      places.
    - The identifier of an inserted document is an argument of the handler
      that inserts it.
    - The upload to the object storage, the password hash, the schema of
      the [profile] sub-document and the Job schema (models/job.model.js is
      not among the sources) are parameters. *)

From Stdlib Require Import String Ascii List ZArith Bool Arith Lia.
From Stdlib Require Import DecimalString FinFun.
Import ListNotations.
Open Scope string_scope.
Open Scope list_scope.

(** ** JSON values, as [express.json()] hands them to a handler *)

#[warnings="-register-all"]
Inductive JsVal : Type :=
| JUndefined
| JNull
| JBool (b : bool)
| JNum (n : Z)
| JStr (s : string)
| JArr (items : list JsVal)
| JObj (fields : list (string * JsVal)).

(** JavaScript's [!x] is [negb (truthy x)].  A number is given by an
    integer literal, so the only falsy number is zero. *)
Definition truthy (v : JsVal) : bool :=
  match v with
  | JUndefined | JNull => false
  | JBool b => b
  | JNum n => negb (Z.eqb n 0)
  | JStr s => negb (String.eqb s "")
  | JArr _ | JObj _ => true
  end.

(** [typeof v === 'string'] *)
Definition is_string (v : JsVal) : bool :=
  match v with JStr _ => true | _ => false end.

(** Property access [o.k] on a value; keys of a parsed object are unique. *)
Fixpoint assoc_get {A : Type} (k : string) (l : list (string * A)) : option A :=
  match l with
  | [] => None
  | (k', v) :: rest => if String.eqb k k' then Some v else assoc_get k rest
  end.

Definition js_get (k : string) (v : JsVal) : JsVal :=
  match v with
  | JObj fields => match assoc_get k fields with Some x => x | None => JUndefined end
  | _ => JUndefined
  end.

(** [v.length] for the values that have one. *)
Definition js_length (v : JsVal) : JsVal :=
  match v with
  | JArr items => JNum (Z.of_nat (List.length items))
  | JStr s => JNum (Z.of_nat (String.length s))
  | JObj _ => js_get "length" v
  | _ => JUndefined
  end.

(** [n !== v] for a number [n]. *)
Definition num_strict_neq (n : nat) (v : JsVal) : bool :=
  match v with
  | JNum m => negb (Z.eqb (Z.of_nat n) m)
  | _ => true
  end.

(** ** Characters and strings *)

Definition code (c : ascii) : nat := nat_of_ascii c.

Definition in_range (lo hi : ascii) (c : ascii) : bool :=
  (code lo <=? code c)%nat && (code c <=? code hi)%nat.

(** White space removed by [String.prototype.trim], on the ASCII plane:
    TAB, LF, VT, FF, CR and SPACE. *)
Definition is_space (c : ascii) : bool :=
  ((9 <=? code c)%nat && (code c <=? 13)%nat) || (code c =? 32)%nat.

Fixpoint trim_start (s : string) : string :=
  match s with
  | EmptyString => EmptyString
  | String c rest => if is_space c then trim_start rest else s
  end.

Fixpoint string_rev_onto (s acc : string) : string :=
  match s with
  | EmptyString => acc
  | String c rest => string_rev_onto rest (String c acc)
  end.

Definition string_rev (s : string) : string := string_rev_onto s EmptyString.

Definition trim (s : string) : string :=
  string_rev (trim_start (string_rev (trim_start s))).

(** [String.prototype.toLowerCase] on the ASCII plane. *)
Definition lower_char (c : ascii) : ascii :=
  if in_range "A" "Z" c then ascii_of_nat (code c + 32) else c.

Fixpoint toLowerCase (s : string) : string :=
  match s with
  | EmptyString => EmptyString
  | String c rest => String (lower_char c) (toLowerCase rest)
  end.

Fixpoint string_forallb (p : ascii -> bool) (s : string) : bool :=
  match s with
  | EmptyString => true
  | String c rest => p c && string_forallb p rest
  end.

(** The [validator] package's [escape]: eight chained [replace] calls, the
    ampersand first.  No replacement text contains a character that a later
    call replaces, so the chain rewrites each character once. *)
Definition escape_char (c : ascii) : string :=
  match code c with
  | 38 => "&amp;"
  | 34 => "&quot;"
  | 39 => "&#x27;"
  | 60 => "&lt;"
  | 62 => "&gt;"
  | 47 => "&#x2F;"
  | 92 => "&#x5C;"
  | 96 => "&#96;"
  | _ => String c EmptyString
  end.

Fixpoint validator_escape (s : string) : string :=
  match s with
  | EmptyString => EmptyString
  | String c rest => escape_char c ++ validator_escape rest
  end.

(** ** utils/SanitizeInput.js *)

Definition sanitizeInput (input : JsVal) : JsVal :=
  match input with
  | JStr s => JStr (validator_escape (trim s))
  | _ => input
  end.

(** The boundary as section 2 of the specification words it: string leaves
    trimmed and escaped, other leaves unchanged, applied recursively to
    array and object shapes.  It is kept apart from [sanitizeInput] so that
    the two can be compared. *)
Fixpoint sanitizeDeep (input : JsVal) : JsVal :=
  match input with
  | JStr s => JStr (validator_escape (trim s))
  | JArr items => JArr (map sanitizeDeep items)
  | JObj fields => JObj (map (fun kv => (fst kv, sanitizeDeep (snd kv))) fields)
  | _ => input
  end.

(** ** Numbers as text

    [JNum n] is the number that [JSON.parse] reads from the integer
    literal [n]: the double nearest to [n].  [String(x)] of a double is
    the decimal with the fewest significant digits that reads back as [x]
    (ECMAScript, Number::toString), written in full up to 21 digits and
    with an exponent beyond: [String(1e21)] is ["1e+21"], and
    [String(2 ** 60)] is ["1152921504606847000"]. *)
Definition decimal (n : Z) : string := NilZero.string_of_int (Z.to_int n).

(** The double nearest to a natural number, ties to the even mantissa; a
    result of [2 ^ 1024] or more stands for [Infinity]. *)
Definition round_double (n : Z) : Z :=
  let b := Z.log2 n in
  if (b <? 53)%Z then n
  else
    let s := (b - 52)%Z in
    let q := Z.shiftr n s in
    let r := (n - Z.shiftl q s)%Z in
    let half := Z.shiftl 1 (s - 1) in
    let q' := if (half <? r)%Z || ((r =? half)%Z && Z.odd q)
              then (q + 1)%Z else q in
    Z.shiftl q' s.

Definition digits (n : Z) : Z := Z.of_nat (String.length (decimal n)).

(** The shortest decimal that reads back as the double [x], looked for
    with [k], [k + 1], ... significant digits: the two multiples of
    [10 ^ (digits x - k)] around [x] are tried; of two that fit, the nearer
    one is taken, and on a tie the one whose last digit is even.
    Seventeen digits always tell a double. *)
Fixpoint shortest_from (fuel : nat) (k : Z) (x : Z) : Z :=
  match fuel with
  | O => x
  | S fuel' =>
      let e := (digits x - k)%Z in
      if (e <=? 0)%Z then x
      else
        let p := (10 ^ e)%Z in
        let lo := (x / p * p)%Z in
        let hi := (lo + p)%Z in
        match (round_double lo =? x)%Z, (round_double hi =? x)%Z with
        | true, true =>
            if (x - lo <? hi - x)%Z then lo
            else if (hi - x <? x - lo)%Z then hi
            else if Z.even (x / p) then lo else hi
        | true, false => lo
        | false, true => hi
        | false, false => shortest_from fuel' (k + 1)%Z x
        end
  end.

Definition shortest (x : Z) : Z := shortest_from 17 1 x.

Fixpoint strip_zeros (s : string) : string :=
  match s with
  | EmptyString => EmptyString
  | String c rest =>
      match strip_zeros rest with
      | EmptyString =>
          if Ascii.eqb c "0" then EmptyString else String c EmptyString
      | t => String c t
      end
  end.

Definition natural_toString (n : Z) : string :=
  let x := round_double n in
  if (2 ^ 1024 <=? x)%Z then "Infinity"
  else
    let c := shortest x in
    if (digits c <=? 21)%Z then decimal c
    else
      let e := ("e+" ++ decimal (digits c - 1))%string in
      match strip_zeros (decimal c) with
      | String d EmptyString => String d e
      | String d rest => String d ("." ++ rest ++ e)%string
      | EmptyString => e
      end.

(** [String(n)] for a number *)
Definition number_toString (n : Z) : string :=
  if (n <? 0)%Z then ("-" ++ natural_toString (- n))%string
  else natural_toString n.

(** [String(v)], as a template literal applies it. *)
Fixpoint js_toString (v : JsVal) : string :=
  match v with
  | JUndefined => "undefined"
  | JNull => "null"
  | JBool true => "true"
  | JBool false => "false"
  | JNum n => number_toString n
  | JStr s => s
  | JArr items =>
      (fix join (l : list JsVal) : string :=
         match l with
         | [] => ""
         | x :: rest =>
             let sx := match x with
                       | JUndefined | JNull => ""
                       | _ => js_toString x
                       end in
             match rest with
             | [] => sx
             | _ => (sx ++ "," ++ join rest)%string
             end
         end) items
  | JObj _ => "[object Object]"
  end.

(** ** ObjectIds

    An ObjectId is kept as its canonical text: 24 lower-case hexadecimal
    digits.  [ObjectId_isValid] is [mongoose.Types.ObjectId.isValid] of the
    bson package: it answers whether [new ObjectId(v)] would succeed.  The
    constructor reads an object that carries an [id] property through that
    property, a string as 24 hexadecimal digits, and generates an id from a
    number. *)

Definition ObjectId := string.

Definition oid_eqb (a b : ObjectId) : bool := String.eqb a b.

Definition is_hex_digit (c : ascii) : bool :=
  in_range "0" "9" c || in_range "a" "f" c || in_range "A" "F" c.

Definition is_hex24 (s : string) : bool :=
  (String.length s =? 24)%nat && string_forallb is_hex_digit s.

Definition ObjectId_isValid (v : JsVal) : bool :=
  match v with
  | JUndefined | JNull => false
  | JNum _ => true
  | JStr s => is_hex24 s
  | JObj fields =>
      match assoc_get "id" fields with
      | Some (JStr s) => is_hex24 s
      | _ => false
      end
  | JBool _ | JArr _ => false
  end.

(** ** Schema casting

    Mongoose casts every value it writes and every value of a filter to the
    type its schema declares, and throws a CastError when it cannot.  For an
    ObjectId path [null] stays [null], a string must be 24 hexadecimal
    digits, and a boolean or a number is cast through [String], which
    never gives 24 hexadecimal digits.  For a String path a boolean or a
    number becomes its text.  Arrays and sub-documents in the place of a
    plain value (the driver reads them as [$in] lists, through [toString]
    or [_id], as operator documents or as populated documents) are not
    part of the model: they are cast errors here. *)

Inductive CastResult (A : Type) : Type :=
| Casted (a : A)
| CastFailed.
Arguments Casted {A} a.
Arguments CastFailed {A}.

Definition castObjectId (v : JsVal) : CastResult (option ObjectId) :=
  match v with
  | JUndefined | JNull => Casted None
  | JStr s => if is_hex24 s then Casted (Some (toLowerCase s)) else CastFailed
  | _ => CastFailed
  end.

Definition castString (v : JsVal) : CastResult (option string) :=
  match v with
  | JUndefined | JNull => Casted None
  | JStr s => Casted (Some s)
  | JNum n => Casted (Some (number_toString n))
  | JBool true => Casted (Some "true")
  | JBool false => Casted (Some "false")
  | JArr _ | JObj _ => CastFailed
  end.

(** The [$in] handler of a filter: a value that is not an array stands for
    the one-element array, and every element is cast. *)
Fixpoint castObjectIds (l : list JsVal) : CastResult (list (option ObjectId)) :=
  match l with
  | [] => Casted []
  | v :: rest =>
      match castObjectId v, castObjectIds rest with
      | Casted o, Casted os => Casted (o :: os)
      | _, _ => CastFailed
      end
  end.

Definition cast_in (v : JsVal) : CastResult (list (option ObjectId)) :=
  match v with
  | JArr items => castObjectIds items
  | _ => castObjectIds [v]
  end.

Definition mem_oid (o : ObjectId) (l : list (option ObjectId)) : bool :=
  existsb (fun x => match x with Some o' => oid_eqb o o' | None => false end) l.

(** ** Documents

    One record per model of [src/models], with the fields the handlers
    read or write.  [createdAt], [updatedAt] and [__v] are left out (the
    schemas set [timestamps: true]): the driver gives a document a new
    [updatedAt] whenever it rewrites it, so a rewritten document agrees
    with its earlier state on the fields kept here, and a statement about
    a state after a write is a statement about these fields. *)

Module Company.
(** models/company.model.js *)
Record doc : Type := mk {
  _id : ObjectId;
  name : string;
  description : option string;
  website : option string;
  location : option string;
  logo : option string;
  jobs : list ObjectId;
  userId : list ObjectId
}.
End Company.

Module JobCategory.
(** models/job_categories.model.js *)
Record doc : Type := mk {
  _id : ObjectId;
  name : string;
  jobs : list ObjectId
}.
End JobCategory.

Module Application.
(** models/application.model.js *)
Record doc : Type := mk {
  _id : ObjectId;
  job : ObjectId;
  applicant : ObjectId;
  resume : string;
  status : string;
  coverLetter : option string
}.
End Application.

Module Job.
(** Modelled from the spec: the Job schema; models/job.model.js is not
    among the sources.  Section 3 of the specification gives a Job the
    attributes title, description, location, experience, salary,
    jobOpenings, requirements and jobType, the references [company],
    [categories] and [postedBy], and the list [applicants].  The eight
    attributes are kept as the object the handler passed to [Job.create];
    which of them the schema accepts is a parameter of the handlers. *)
Record doc : Type := mk {
  _id : ObjectId;
  attributes : JsVal;
  company : ObjectId;
  categories : list ObjectId;
  postedBy : ObjectId;
  applicants : list ObjectId
}.
End Job.

Module User.
(** models/user.model.js; [profile] is the sub-document in the shape
    [profileSchema] cast it to. *)
Record doc : Type := mk {
  _id : ObjectId;
  name : string;
  email : string;
  phone : string;
  password : string;
  role : string;
  profile : JsVal
}.
End User.

(** The database: the five collections. *)
Record DB : Type := mkDB {
  users : list User.doc;
  companies : list Company.doc;
  jobCategories : list JobCategory.doc;
  jobs : list Job.doc;
  applications : list Application.doc
}.

(** ** Responses and exceptions *)

Inductive Exn : Type :=
| CastError (path : string)
| ValidationError (path : string)
| DuplicateKey (path : string)
| UploadError.

Inductive Payload : Type :=
| NoData
| CompanyData (c : Company.doc)
| CategoryData (c : JobCategory.doc)
| JobData (j : Job.doc)
| ApplicationData (a : Application.doc)
| UserData (u : User.doc)
| ErrorData (e : Exn).

(** [res.status(status).json({ success, message, ... })] *)
Record Response : Type := mkResponse {
  status : nat;
  success : bool;
  message : string;
  payload : Payload
}.

(** ** The handler monad

    A statement of a handler body either falls through with a value, ends
    the handler with [return res...json(...)], or throws.  The database is
    threaded through. *)

Inductive Step (A : Type) : Type :=
| Continue (a : A)
| Respond (r : Response)
| Throw (e : Exn).
Arguments Continue {A} a.
Arguments Respond {A} r.
Arguments Throw {A} e.

Definition Handler (A : Type) : Type := DB -> Step A * DB.

Definition ret {A : Type} (a : A) : Handler A := fun db => (Continue a, db).

Definition bind {A B : Type} (m : Handler A) (k : A -> Handler B) : Handler B :=
  fun db =>
    match m db with
    | (Continue a, db') => k a db'
    | (Respond r, db') => (Respond r, db')
    | (Throw e, db') => (Throw e, db')
    end.

Notation "x <- m ;; k" := (bind m (fun x => k))
  (at level 61, m at next level, right associativity).
Notation "m ;;; k" := (bind m (fun _ => k))
  (at level 61, right associativity).

Definition respond {A : Type} (r : Response) : Handler A :=
  fun db => (Respond r, db).

Definition throw {A : Type} (e : Exn) : Handler A :=
  fun db => (Throw e, db).

(** [if (c) { return res...json(r) }] *)
Definition return_if (c : bool) (r : Response) : Handler unit :=
  if c then respond r else ret tt.

Definition of_cast {A : Type} (path : string) (c : CastResult A) : Handler A :=
  match c with
  | Casted a => ret a
  | CastFailed => throw (CastError path)
  end.

Definition get_db : Handler DB := fun db => (Continue db, db).
Definition put_db (db' : DB) : Handler unit := fun _ => (Continue tt, db').

(** [try { body } catch (error) { return res.status(500).json(...) }]:
    the response of the body, or the one the [catch] branch builds. *)
Definition try_catch (body : Handler Response) (handler : Exn -> Response)
  : DB -> Response * DB :=
  fun db =>
    match body db with
    | (Continue r, db') => (r, db')
    | (Respond r, db') => (r, db')
    | (Throw e, db') => (handler e, db')
    end.

Definition json (status : nat) (success : bool) (message : string)
  (payload : Payload) : Response :=
  mkResponse status success message payload.

Definition internal_error (message : string) (e : Exn) : Response :=
  json 500 false message (ErrorData e).

(** ** Collections

    The queries the handlers use, on a list of documents. *)

Section Collection.
Context {D : Type}.
Variable id_of : D -> ObjectId.

(** [Model.findOne(filter)]: the first match in insertion order. *)
Definition findOne (matches : D -> bool) (l : list D) : option D :=
  find matches l.

(** [Model.find(filter)] *)
Definition findAll (matches : D -> bool) (l : list D) : list D :=
  filter matches l.

Definition has_id (o : ObjectId) (d : D) : bool := oid_eqb (id_of d) o.

(** [Model.updateMany(filter, update)] *)
Definition updateMany (matches : D -> bool) (update : D -> D) (l : list D)
  : list D :=
  map (fun d => if matches d then update d else d) l.

(** [Model.findOneAndUpdate(filter, update)]: only the first match is
    rewritten. *)
Fixpoint updateOne (matches : D -> bool) (update : D -> D) (l : list D)
  : list D :=
  match l with
  | [] => []
  | d :: rest =>
      if matches d then update d :: rest
      else d :: updateOne matches update rest
  end.

(** [Model.findOneAndDelete(filter)] *)
Fixpoint deleteOne (matches : D -> bool) (l : list D) : list D :=
  match l with
  | [] => []
  | d :: rest => if matches d then rest else d :: deleteOne matches rest
  end.
(** An element of a cast [$in] list resolves when it is the identifier of
    a stored document. *)
Definition resolves (docs : list D) (x : option ObjectId) : bool :=
  match x with
  | Some o => existsb (oid_eqb o) (map id_of docs)
  | None => false
  end.
End Collection.

(** [$push] and [$pull] on an array of ObjectIds. *)
Definition push (o : ObjectId) (l : list ObjectId) : list ObjectId := l ++ [o].

Definition pull (o : ObjectId) (l : list ObjectId) : list ObjectId :=
  filter (fun x => negb (oid_eqb x o)) l.

Definition contains (o : ObjectId) (l : list ObjectId) : bool :=
  existsb (oid_eqb o) l.

Definition is_some {A : Type} (o : option A) : bool :=
  match o with Some _ => true | None => false end.

Definition is_none {A : Type} (o : option A) : bool := negb (is_some o).

Definition set_users (l : list User.doc) (db : DB) : DB :=
  mkDB l (companies db) (jobCategories db) (jobs db) (applications db).
Definition set_companies (l : list Company.doc) (db : DB) : DB :=
  mkDB (users db) l (jobCategories db) (jobs db) (applications db).
Definition set_jobCategories (l : list JobCategory.doc) (db : DB) : DB :=
  mkDB (users db) (companies db) l (jobs db) (applications db).
Definition set_jobs (l : list Job.doc) (db : DB) : DB :=
  mkDB (users db) (companies db) (jobCategories db) l (applications db).
Definition set_applications (l : list Application.doc) (db : DB) : DB :=
  mkDB (users db) (companies db) (jobCategories db) (jobs db) l.

(** A request body is the parsed JSON object; [const { k } = req.body]
    reads [field k body]. *)
Definition Body : Type := list (string * JsVal).

Definition field (k : string) (body : Body) : JsVal := js_get k (JObj body).

(** A schema path marked [required]: a cast error or an absent value fails
    validation. *)
Definition required {A : Type} (path : string) (c : CastResult (option A))
  : Handler A :=
  match c with
  | Casted (Some a) => ret a
  | _ => throw (ValidationError path)
  end.

Definition optional {A : Type} (path : string) (c : CastResult (option A))
  : Handler (option A) :=
  match c with
  | Casted o => ret o
  | CastFailed => throw (ValidationError path)
  end.

Definition required_string (path : string) (v : JsVal) : Handler string :=
  s <- required path (castString v) ;;
  if String.eqb s "" then throw (ValidationError path) else ret s.

(** An array path of ObjectIds: a value that is not an array is wrapped,
    an absent one is the empty array. *)
Fixpoint all_some {A : Type} (l : list (option A)) : option (list A) :=
  match l with
  | [] => Some []
  | Some a :: rest =>
      match all_some rest with Some r => Some (a :: r) | None => None end
  | None :: _ => None
  end.

Definition castObjectIdArray (v : JsVal) : CastResult (list (option ObjectId)) :=
  match v with
  | JUndefined => Casted []
  | JArr items => castObjectIds items
  | _ => castObjectIds [v]
  end.

Definition required_ids (path : string) (v : JsVal) : Handler (list ObjectId) :=
  match castObjectIdArray v with
  | Casted l =>
      match all_some l with
      | Some ids => ret ids
      | None => throw (ValidationError path)
      end
  | CastFailed => throw (ValidationError path)
  end.

(** ** The Company model *)

Definition Company_findById (id : JsVal) : Handler (option Company.doc) :=
  o <- of_cast "_id" (castObjectId id) ;;
  db <- get_db ;;
  ret match o with
      | Some o => findOne (has_id Company._id o) (companies db)
      | None => None
      end.

(** [Company.findOne({ name })] *)
Definition Company_findOne_name (name : JsVal) : Handler (option Company.doc) :=
  n <- of_cast "name" (castString name) ;;
  db <- get_db ;;
  ret match n with
      | Some n => findOne (fun c => String.eqb (Company.name c) n) (companies db)
      | None => None
      end.

(** [Company.create(input)], for the input the handler builds: the keys
    name, description, website, location and userId.  [jobs] takes its
    default, [logo] stays unset; [website] has the [trim] setter. *)
Definition Company_create (input : JsVal) (newId : ObjectId)
  : Handler Company.doc :=
  name <- required_string "name" (js_get "name" input) ;;
  description <- optional "description" (castString (js_get "description" input)) ;;
  website <- optional "website" (castString (js_get "website" input)) ;;
  location <- optional "location" (castString (js_get "location" input)) ;;
  userId <- required_ids "userId" (js_get "userId" input) ;;
  let company :=
    Company.mk newId name description (option_map trim website) location None
      [] userId in
  db <- get_db ;;
  put_db (set_companies (companies db ++ [company]) db) ;;;
  ret company.

(** [Company.findByIdAndUpdate(id, { $push: { jobs: job } })] *)
Definition Company_push_job (id : JsVal) (job : ObjectId) : Handler unit :=
  o <- of_cast "_id" (castObjectId id) ;;
  db <- get_db ;;
  match o with
  | Some o =>
      put_db (set_companies
                (updateOne (has_id Company._id o)
                   (fun c => Company.mk (Company._id c) (Company.name c)
                               (Company.description c) (Company.website c)
                               (Company.location c) (Company.logo c)
                               (push job (Company.jobs c)) (Company.userId c))
                   (companies db)) db)
  | None => ret tt
  end.

(** [Company.updateMany({ jobs: id }, { $pull: { jobs: id } })] *)
Definition Company_pull_job (id : JsVal) : Handler unit :=
  o <- of_cast "jobs" (castObjectId id) ;;
  db <- get_db ;;
  match o with
  | Some o =>
      put_db (set_companies
                (updateMany (fun c => contains o (Company.jobs c))
                   (fun c => Company.mk (Company._id c) (Company.name c)
                               (Company.description c) (Company.website c)
                               (Company.location c) (Company.logo c)
                               (pull o (Company.jobs c)) (Company.userId c))
                   (companies db)) db)
  | None => ret tt
  end.

(** ** controllers/company.controller.js *)

Definition server_error : string :=
  "Internal Server Error. Please try again later.".

(** [createCompany]: [user] is [req.user._id], [newId] the identifier the
    driver gives the inserted document. *)
Definition createCompany (user : string) (body : Body) (newId : ObjectId)
  : DB -> Response * DB :=
  try_catch
    (let name := field "name" body in
     let description := field "description" body in
     let website := field "website" body in
     let location := field "location" body in
     let userId := field "userId" body in
     return_if (negb (truthy name) || negb (truthy description)
                || negb (truthy website) || negb (truthy location)
                || negb (truthy userId))
       (json 400 false "All fields are required" NoData) ;;;
     let sanitizedInputs :=
       sanitizeInput (JObj [("name", name); ("description", description);
                            ("website", website); ("location", location);
                            ("userId", JStr user)]) in
     existingCompany <- Company_findOne_name (js_get "name" sanitizedInputs) ;;
     return_if (is_some existingCompany)
       (json 400 false
          ("Company with name " ++ js_toString name ++ " already exists.")
          NoData) ;;;
     company <- Company_create sanitizedInputs newId ;;
     ret (json 201 true "Company created successfully" (CompanyData company)))
    (internal_error server_error).

(** [getCompanyById]: [id] is [req.params.id]; the validity test is applied
    to the object [{ id }]. *)
Definition getCompanyById (id : string) : DB -> Response * DB :=
  try_catch
    (return_if (negb (ObjectId_isValid (JObj [("id", JStr id)])))
       (json 400 false "Invalid Company ID" NoData) ;;;
     company <- Company_findById (JStr id) ;;
     match company with
     | None => respond (json 404 false "Company not found" NoData)
     | Some company =>
         ret (json 200 true "Company found successfully" (CompanyData company))
     end)
    (internal_error server_error).

(** ** The JobCategory model *)

(** [JobCategory.find({ _id: { $in: ids } })] *)
Definition JobCategory_find_in (ids : JsVal) : Handler (list JobCategory.doc) :=
  os <- of_cast "_id" (cast_in ids) ;;
  db <- get_db ;;
  ret (findAll (fun c => mem_oid (JobCategory._id c) os) (jobCategories db)).

(** [JobCategory.updateMany({ _id: { $in: ids } }, { $push: { jobs: job } })] *)
Definition JobCategory_push_in (ids : JsVal) (job : ObjectId) : Handler unit :=
  os <- of_cast "_id" (cast_in ids) ;;
  db <- get_db ;;
  put_db (set_jobCategories
            (updateMany (fun c => mem_oid (JobCategory._id c) os)
               (fun c => JobCategory.mk (JobCategory._id c) (JobCategory.name c)
                           (push job (JobCategory.jobs c)))
               (jobCategories db)) db).

(** [JobCategory.updateMany({ jobs: id }, { $pull: { jobs: id } })] *)
Definition JobCategory_pull_job (id : JsVal) : Handler unit :=
  o <- of_cast "jobs" (castObjectId id) ;;
  db <- get_db ;;
  match o with
  | Some o =>
      put_db (set_jobCategories
                (updateMany (fun c => contains o (JobCategory.jobs c))
                   (fun c => JobCategory.mk (JobCategory._id c)
                               (JobCategory.name c)
                               (pull o (JobCategory.jobs c)))
                   (jobCategories db)) db)
  | None => ret tt
  end.

(** [JobCategory.findOne({ name })] *)
Definition JobCategory_findOne_name (name : JsVal)
  : Handler (option JobCategory.doc) :=
  n <- of_cast "name" (castString name) ;;
  db <- get_db ;;
  ret match n with
      | Some n =>
          findOne (fun c => String.eqb (JobCategory.name c) n) (jobCategories db)
      | None => None
      end.

(** [JobCategory.create(input)], for the one key [name]. *)
Definition JobCategory_create (input : JsVal) (newId : ObjectId)
  : Handler JobCategory.doc :=
  name <- required_string "name" (js_get "name" input) ;;
  let category := JobCategory.mk newId name [] in
  db <- get_db ;;
  put_db (set_jobCategories (jobCategories db ++ [category]) db) ;;;
  ret category.

(** ** controllers/job_categories.controller.js *)

Definition dquote : string := String "034"%char EmptyString.

Definition createJobCategory (body : Body) (newId : ObjectId)
  : DB -> Response * DB :=
  try_catch
    (let name := field "name" body in
     return_if (negb (truthy name))
       (json 400 false "Category name is required" NoData) ;;;
     let sanitizedInputs := sanitizeInput (JObj [("name", name)]) in
     existingCategory <- JobCategory_findOne_name (js_get "name" sanitizedInputs) ;;
     return_if (is_some existingCategory)
       (json 409 false
          ("Category with name " ++ dquote ++ js_toString name ++ dquote
           ++ " already exists.") NoData) ;;;
     newJobCategory <- JobCategory_create sanitizedInputs newId ;;
     ret (json 201 true "Job category created successfully"
            (CategoryData newJobCategory)))
    (internal_error "Internal Server Error. Please, try again later.").

(** ** The Job model and controllers/job.controller.js *)

Definition Job_findById (id : JsVal) : Handler (option Job.doc) :=
  o <- of_cast "_id" (castObjectId id) ;;
  db <- get_db ;;
  ret match o with
      | Some o => findOne (has_id Job._id o) (jobs db)
      | None => None
      end.

(** [Job.findByIdAndDelete(id)] *)
Definition Job_findByIdAndDelete (id : JsVal) : Handler (option Job.doc) :=
  o <- of_cast "_id" (castObjectId id) ;;
  db <- get_db ;;
  match o with
  | Some o =>
      match findOne (has_id Job._id o) (jobs db) with
      | Some job =>
          put_db (set_jobs (deleteOne (has_id Job._id o) (jobs db)) db) ;;;
          ret (Some job)
      | None => ret None
      end
  | None => ret None
  end.

(** [Job.findByIdAndUpdate(id, { $push: { applicants: a } }, ...)] *)
Definition Job_push_applicant (id : JsVal) (a : ObjectId) : Handler unit :=
  o <- of_cast "_id" (castObjectId id) ;;
  db <- get_db ;;
  match o with
  | Some o =>
      put_db (set_jobs
                (updateOne (has_id Job._id o)
                   (fun j => Job.mk (Job._id j) (Job.attributes j)
                               (Job.company j) (Job.categories j)
                               (Job.postedBy j) (push a (Job.applicants j)))
                   (jobs db)) db)
  | None => ret tt
  end.

Section JobBoard.

(** Modelled from the spec: what the Job schema of the absent
    models/job.model.js accepts for the eight attributes of the object
    given to [Job.create] (their types and validators).  The handlers are
    stated for every such schema. *)
Variable Job_attributes_valid : JsVal -> bool.

(** [Job.create(input)]: the three references are cast, the attributes
    validated, and the document is inserted with an empty [applicants]. *)
Definition Job_create (input : JsVal) (newId : ObjectId) : Handler Job.doc :=
  company <- required "company" (castObjectId (js_get "company" input)) ;;
  categories <- required_ids "categories" (js_get "categories" input) ;;
  postedBy <- required "postedBy" (castObjectId (js_get "postedBy" input)) ;;
  if Job_attributes_valid input then
    let job := Job.mk newId input company categories postedBy [] in
    db <- get_db ;;
    put_db (set_jobs (jobs db ++ [job]) db) ;;;
    ret job
  else throw (ValidationError "attributes").

(** [postJob]: [user] is [req.user._id]. *)
Definition postJob (user : string) (body : Body) (newId : ObjectId)
  : DB -> Response * DB :=
  try_catch
    (let userId := JStr user in
     let title := field "title" body in
     let description := field "description" body in
     let company := field "company" body in
     let location := field "location" body in
     let experience := field "experience" body in
     let salary := field "salary" body in
     let jobOpenings := field "jobOpenings" body in
     let requirements := field "requirements" body in
     let jobType := field "jobType" body in
     let categories := field "categories" body in
     return_if (negb (truthy title) || negb (truthy description)
                || negb (truthy company) || negb (truthy experience)
                || negb (truthy location) || negb (truthy jobOpenings)
                || negb (truthy jobType) || negb (truthy categories)
                || negb (truthy userId))
       (json 400 false "All required fields must be provided" NoData) ;;;
     let sanitizedInputs :=
       sanitizeInput
         (JObj [("title", title); ("description", description);
                ("company", company); ("location", location);
                ("experience", experience); ("salary", salary);
                ("jobOpenings", jobOpenings); ("requirements", requirements);
                ("jobType", jobType); ("categories", categories);
                ("postedBy", userId)]) in
     validCompany <- Company_findById (js_get "company" sanitizedInputs) ;;
     return_if (is_none validCompany)
       (json 400 false "Invalid company ID" NoData) ;;;
     validCategories <-
       JobCategory_find_in (js_get "categories" sanitizedInputs) ;;
     return_if (num_strict_neq (List.length validCategories)
                  (js_length (js_get "categories" sanitizedInputs)))
       (json 400 false "One or more job categories are invalid" NoData) ;;;
     newJob <- Job_create sanitizedInputs newId ;;
     JobCategory_push_in (js_get "categories" sanitizedInputs)
       (Job._id newJob) ;;;
     Company_push_job (js_get "company" sanitizedInputs) (Job._id newJob) ;;;
     ret (json 201 true "Job created successfully" (JobData newJob)))
    (internal_error server_error).

End JobBoard.

(** [deleteJob]: [id] is [req.params.id]. *)
Definition deleteJob (id : string) : DB -> Response * DB :=
  try_catch
    (return_if (negb (ObjectId_isValid (JStr id)))
       (json 400 false "Invalid Job ID" NoData) ;;;
     job <- Job_findByIdAndDelete (JStr id) ;;
     return_if (is_none job) (json 404 false "Job not found" NoData) ;;;
     JobCategory_pull_job (JStr id) ;;;
     Company_pull_job (JStr id) ;;;
     ret (json 200 true "Job deleted successfully" NoData))
    (internal_error server_error).

(** ** The Application model and controllers/application.controller.js *)

Definition validStatuses : list string :=
  ["Applied"; "Reviewed"; "Interview"; "Offered"; "Rejected"].

(** [list.includes(v)] on a list of strings *)
Definition includes (l : list string) (v : JsVal) : bool :=
  match v with
  | JStr s => existsb (String.eqb s) l
  | _ => false
  end.

(** [Application.findOne({ applicant, job })] *)
Definition Application_findOne_pair (applicant job : JsVal)
  : Handler (option Application.doc) :=
  a <- of_cast "applicant" (castObjectId applicant) ;;
  j <- of_cast "job" (castObjectId job) ;;
  db <- get_db ;;
  ret match a, j with
      | Some a, Some j =>
          findOne (fun d => oid_eqb (Application.applicant d) a
                            && oid_eqb (Application.job d) j)
            (applications db)
      | _, _ => None
      end.

(** [Application.create(input)], for the keys resume, coverLetter, job and
    applicant; [status] takes its default, [coverLetter] is trimmed. *)
Definition Application_create (input : JsVal) (newId : ObjectId)
  : Handler Application.doc :=
  job <- required "job" (castObjectId (js_get "job" input)) ;;
  applicant <- required "applicant" (castObjectId (js_get "applicant" input)) ;;
  resume <- required_string "resume" (js_get "resume" input) ;;
  coverLetter <- optional "coverLetter" (castString (js_get "coverLetter" input)) ;;
  let application :=
    Application.mk newId job applicant resume "Applied"
      (option_map trim coverLetter) in
  db <- get_db ;;
  put_db (set_applications (applications db ++ [application]) db) ;;;
  ret application.

Definition with_status (s : string) (d : Application.doc) : Application.doc :=
  Application.mk (Application._id d) (Application.job d)
    (Application.applicant d) (Application.resume d) s
    (Application.coverLetter d).

(** [Application.findByIdAndUpdate(id, { status }, { new: true,
    runValidators: true })]: the updated document, or [null]. *)
Definition Application_update_status (id status : JsVal)
  : Handler (option Application.doc) :=
  o <- of_cast "_id" (castObjectId id) ;;
  s <- of_cast "status" (castString status) ;;
  match o, s with
  | Some o, Some s =>
      if existsb (String.eqb s) validStatuses then
        db <- get_db ;;
        match findOne (has_id Application._id o) (applications db) with
        | Some application =>
            put_db (set_applications
                      (updateOne (has_id Application._id o) (with_status s)
                         (applications db)) db) ;;;
            ret (Some (with_status s application))
        | None => ret None
        end
      else throw (ValidationError "status")
  | Some o, None =>
      db <- get_db ;;
      ret (findOne (has_id Application._id o) (applications db))
  | None, _ => ret None
  end.

(** [applyJob]: [user] is [req.user._id], [jobId] is [req.params.jobId]. *)
Definition applyJob (user jobId : string) (body : Body) (newId : ObjectId)
  : DB -> Response * DB :=
  try_catch
    (let userId := JStr user in
     let jobId := JStr jobId in
     job <- Job_findById jobId ;;
     return_if (is_none job) (json 404 false "Job not found." NoData) ;;;
     existingApplication <- Application_findOne_pair userId jobId ;;
     return_if (is_some existingApplication)
       (json 400 false "You have already applied for this job." NoData) ;;;
     let resume := field "resume" body in
     let coverLetter := field "coverLetter" body in
     return_if (negb (truthy resume))
       (json 400 false "Resume is required." NoData) ;;;
     let sanitizedInputs :=
       sanitizeInput (JObj [("resume", resume); ("coverLetter", coverLetter);
                            ("job", jobId); ("applicant", userId)]) in
     newApplication <- Application_create sanitizedInputs newId ;;
     Job_push_applicant jobId (Application._id newApplication) ;;;
     ret (json 201 true "Application submitted successfully."
            (ApplicationData newApplication)))
    (internal_error server_error).

(** [updateApplicationStatus]: [applicationId] is
    [req.params.applicationId]. *)
Definition updateApplicationStatus (applicationId : string) (body : Body)
  : DB -> Response * DB :=
  try_catch
    (let status := field "status" body in
     return_if (negb (ObjectId_isValid (JStr applicationId)))
       (json 400 false "Invalid application ID." NoData) ;;;
     return_if (negb (truthy status))
       (json 400 false "Status is required." NoData) ;;;
     return_if (negb (includes validStatuses status))
       (json 400 false "Invalid status value." NoData) ;;;
     application <- Application_update_status (JStr applicationId) status ;;
     match application with
     | None => respond (json 404 false "Application not found." NoData)
     | Some application =>
         ret (json 200 true "Application status updated successfully."
                (ApplicationData application))
     end)
    (internal_error server_error).

(** ** Regular expressions of the schema validators

    The [match] validators of the user schema are anchored patterns over
    character classes; they are run here by derivatives. *)

Inductive Re : Type :=
| Void
| Eps
| Chr (p : ascii -> bool)
| Seq (a b : Re)
| Alt (a b : Re)
| Star (a : Re).

Fixpoint nullable (r : Re) : bool :=
  match r with
  | Void => false
  | Eps => true
  | Chr _ => false
  | Seq a b => nullable a && nullable b
  | Alt a b => nullable a || nullable b
  | Star _ => true
  end.

Fixpoint deriv (c : ascii) (r : Re) : Re :=
  match r with
  | Void => Void
  | Eps => Void
  | Chr p => if p c then Eps else Void
  | Seq a b =>
      if nullable a then Alt (Seq (deriv c a) b) (deriv c b)
      else Seq (deriv c a) b
  | Alt a b => Alt (deriv c a) (deriv c b)
  | Star a => Seq (deriv c a) (Star a)
  end.

(** [/^r$/.test(s)] *)
Fixpoint re_test (r : Re) (s : string) : bool :=
  match s with
  | EmptyString => nullable r
  | String c rest => re_test (deriv c r) rest
  end.

Definition Plus (a : Re) : Re := Seq a (Star a).
Definition Opt (a : Re) : Re := Alt Eps a.
Definition Lit (c : ascii) : Re := Chr (Ascii.eqb c).

(** [\w] and [\d] *)
Definition word_char (c : ascii) : bool :=
  in_range "a" "z" c || in_range "A" "Z" c || in_range "0" "9" c
  || Ascii.eqb c "_".
Definition digit_char (c : ascii) : bool := in_range "0" "9" c.

Definition w : Re := Chr word_char.
Definition dot_or_dash : Re := Chr (fun c => Ascii.eqb c "." || Ascii.eqb c "-").

(** [/^\w+([.-]?\w+)*@\w+([.-]?\w+)*(\.\w{2,3})+$/] *)
Definition email_pattern : Re :=
  let words := Seq (Plus w) (Star (Seq (Opt dot_or_dash) (Plus w))) in
  Seq words
    (Seq (Lit "@")
       (Seq words (Plus (Seq (Lit ".") (Seq w (Seq w (Opt w))))))).

(** [/^\d{10}$/] *)
Definition phone_pattern : Re :=
  let d := Chr digit_char in
  Seq d (Seq d (Seq d (Seq d (Seq d (Seq d (Seq d (Seq d (Seq d d)))))))).

(** ** The User model and controllers/user.controller.js *)

(** The setters of the [email] path: [lowercase] and [trim].  Mongoose
    applies them to a value it stores and to a value of a filter alike. *)
Definition email_setters (s : string) : string := trim (toLowerCase s).

(** [User.findOne({ email })] *)
Definition User_findOne_email (email : JsVal) : Handler (option User.doc) :=
  e <- of_cast "email" (castString email) ;;
  db <- get_db ;;
  ret match e with
      | Some e =>
          findOne (fun u => String.eqb (User.email u) (email_setters e))
            (users db)
      | None => None
      end.

(** An uploaded file, as [multer] leaves it in [req.file]. *)
Record File : Type := mkFile {
  originalname : string;
  mimetype : string;
  buffer : string
}.

(** [{ k: v, ...rest }] writes key [k] again when [rest] carries it. *)
Fixpoint obj_set (k : string) (v : JsVal) (fields : list (string * JsVal))
  : list (string * JsVal) :=
  match fields with
  | [] => [(k, v)]
  | (k', v') :: rest =>
      if String.eqb k k' then (k, v) :: rest else (k', v') :: obj_set k v rest
  end.

Fixpoint indexed (i : nat) (l : list JsVal) : list (string * JsVal) :=
  match l with
  | [] => []
  | x :: rest => (decimal (Z.of_nat i), x) :: indexed (S i) rest
  end.

Fixpoint chars (s : string) : list JsVal :=
  match s with
  | EmptyString => []
  | String c rest => JStr (String c EmptyString) :: chars rest
  end.

(** The own enumerable properties that [...v] copies. *)
Definition spread (v : JsVal) : list (string * JsVal) :=
  match v with
  | JObj fields => fields
  | JArr items => indexed 0 items
  | JStr s => indexed 0 (chars s)
  | _ => []
  end.

Definition obj_assign (target source : list (string * JsVal))
  : list (string * JsVal) :=
  fold_left (fun acc kv => obj_set (fst kv) (snd kv) acc) source target.

Section UserDirectory.

(** [cloudinary.uploader.upload(getDataUri(file).content, ...)]: the
    [secure_url] of the stored file, or nothing when the upload throws. *)
Variable cloudinary_upload : File -> option string.

(** [bcrypt.hash(password, salt)] *)
Variable bcrypt_hash : string -> string -> string.

(** The cast and validation of the [profile] sub-document by
    [profileSchema]. *)
Variable profile_cast : JsVal -> CastResult JsVal.

(** [User.create(input)]: setters, validators, the [pre("save")] hook
    that hashes the password, and the unique index on [email]. *)
Definition User_create (input : JsVal) (salt : string) (newId : ObjectId)
  : Handler User.doc :=
  name <- required "name" (castString (js_get "name" input)) ;;
  let name := trim name in
  (if String.eqb name "" then throw (ValidationError "name") else ret tt) ;;;
  email <- required "email" (castString (js_get "email" input)) ;;
  let email := email_setters email in
  (if String.eqb email "" || negb (re_test email_pattern email)
   then throw (ValidationError "email") else ret tt) ;;;
  phone <- required_string "phone" (js_get "phone" input) ;;
  (if re_test phone_pattern phone then ret tt
   else throw (ValidationError "phone")) ;;;
  password <- required_string "password" (js_get "password" input) ;;
  (if (String.length password <? 6)%nat
   then throw (ValidationError "password") else ret tt) ;;;
  role <- required_string "role" (js_get "role" input) ;;
  (if existsb (String.eqb role) ["user"; "recruiter"] then ret tt
   else throw (ValidationError "role")) ;;;
  profile <- of_cast "profile" (profile_cast (js_get "profile" input)) ;;
  let user :=
    User.mk newId name email phone (bcrypt_hash password salt) role profile in
  db <- get_db ;;
  (if existsb (fun u => String.eqb (User.email u) email) (users db)
   then throw (DuplicateKey "email") else ret tt) ;;;
  put_db (set_users (users db ++ [user]) db) ;;;
  ret user.

(** [createUser]: [file] is [req.file]. *)
Definition createUser (body : Body) (file : option File) (salt : string)
  (newId : ObjectId) : DB -> Response * DB :=
  try_catch
    (let name := field "name" body in
     let email := field "email" body in
     let phone := field "phone" body in
     let password := field "password" body in
     let role := field "role" body in
     let profile := field "profile" body in
     return_if (negb (truthy name) || negb (truthy email)
                || negb (truthy phone) || negb (truthy password)
                || negb (truthy role))
       (json 400 false "All fields are required" NoData) ;;;
     existingUser <- User_findOne_email email ;;
     return_if (is_some existingUser)
       (json 400 false "User with this email already exists" NoData) ;;;
     cloudResponse <-
       match file with
       | Some file =>
           match cloudinary_upload file with
           | Some secure_url => ret (Some secure_url)
           | None => throw UploadError
           end
       | None => ret None
       end ;;
     user <-
       User_create
         (JObj [("name", name); ("email", email); ("phone", phone);
                ("password", password); ("role", role);
                ("profile",
                 JObj (obj_assign
                         [("profileImage",
                           JStr match cloudResponse with
                                | Some secure_url => secure_url
                                | None => ""
                                end)]
                         (spread profile)))])
         salt newId ;;
     (* [if (!user)]: a created document is never falsy *)
     ret (json 200 true "User created successfully" (UserData user)))
    (fun e => json 500 false "Internal Server Error" (ErrorData e)).

End UserDirectory.

(** ** Answers of the listing handlers

    A handler that answers with an array carries it in a [Listing]; the
    key under which the source sends the array ([data], [jobs]) and the
    count ([totalCompanies], [totalJobs]) are the fields [list_data] and
    [list_total].  [Failed] is an answer whose [error] key holds a text
    that is not the message of a driver exception. *)

Record Listing (A : Type) : Type := mkListing {
  list_status : nat;
  list_success : bool;
  list_message : option string;
  list_total : option nat;
  list_data : list A
}.
Arguments mkListing {A}.
Arguments list_status {A}.
Arguments list_success {A}.
Arguments list_message {A}.
Arguments list_total {A}.
Arguments list_data {A}.

Inductive Answer (A : Type) : Type :=
| Plain (r : Response)
| Listed (l : Listing A)
| Failed (status : nat) (message error : string).
Arguments Plain {A} r.
Arguments Listed {A} l.
Arguments Failed {A} status message error.

Definition answer_status {A : Type} (a : Answer A) : nat :=
  match a with
  | Plain r => status r
  | Listed l => list_status l
  | Failed s _ _ => s
  end.

Definition try_catch_answer {A : Type} (body : Handler (Answer A))
  (handler : Exn -> Response) : DB -> Answer A * DB :=
  fun db =>
    match body db with
    | (Continue a, db') => (a, db')
    | (Respond r, db') => (Plain r, db')
    | (Throw e, db') => (Plain (handler e), db')
    end.

(** ** The rest of controllers/company.controller.js *)

(** [Company.find({ userId })]: the documents whose [userId] array holds
    the id. *)
Definition Company_find_userId (userId : JsVal) : Handler (list Company.doc) :=
  o <- of_cast "userId" (castObjectId userId) ;;
  db <- get_db ;;
  ret match o with
      | Some o => findAll (fun c => contains o (Company.userId c)) (companies db)
      | None => []
      end.

(** [Company.findByIdAndDelete(id)] *)
Definition Company_findByIdAndDelete (id : JsVal) : Handler (option Company.doc) :=
  o <- of_cast "_id" (castObjectId id) ;;
  db <- get_db ;;
  match o with
  | Some o =>
      match findOne (has_id Company._id o) (companies db) with
      | Some company =>
          put_db (set_companies
                    (deleteOne (has_id Company._id o) (companies db)) db) ;;;
          ret (Some company)
      | None => ret None
      end
  | None => ret None
  end.

(** [getCompanyByUserId]: [user] is [req.user._id].  The test
    [if (!companies)] is on an array, which is never falsy. *)
Definition getCompanyByUserId (user : string) : DB -> Answer Company.doc * DB :=
  try_catch_answer
    (companies <- Company_find_userId (JStr user) ;;
     return_if (negb true)
       (json 404 false "No companies found for this user" NoData) ;;;
     let totalCompanies := List.length companies in
     ret (Listed (mkListing 200 true (Some "Company found successfully")
                    (Some totalCompanies) companies)))
    (internal_error server_error).

(** [getCompanies] *)
Definition getCompanies : DB -> Answer Company.doc * DB :=
  try_catch_answer
    (db <- get_db ;;
     let companies := findAll (fun _ => true) (companies db) in
     return_if (List.length companies =? 0)%nat
       (json 404 false "Companies not found" NoData) ;;;
     let totalCompanies := List.length companies in
     ret (Listed (mkListing 200 true (Some "Companies found successfully")
                    (Some totalCompanies) companies)))
    (internal_error server_error).

(** [deleteCompany]: [id] is [req.params.id].  In the branch of a
    malformed id the object literal reads [error.message], and no [error]
    is in scope there: the evaluation throws a ReferenceError, which the
    [catch] answers. *)
Definition deleteCompany (id : string) : DB -> Answer Company.doc * DB :=
  try_catch_answer
    (if negb (ObjectId_isValid (JStr id)) then
       ret (Failed 500 server_error "error is not defined")
     else
       deletedCompany <- Company_findByIdAndDelete (JStr id) ;;
       match deletedCompany with
       | None => respond (json 404 false "Company not found" NoData)
       | Some deletedCompany =>
           ret (Plain (json 200 true
                         (Company.name deletedCompany ++ " deleted successfully")
                         NoData))
       end)
    (internal_error server_error).

(** ** The rest of controllers/job_categories.controller.js *)

Definition JobCategory_findById (id : JsVal) : Handler (option JobCategory.doc) :=
  o <- of_cast "_id" (castObjectId id) ;;
  db <- get_db ;;
  ret match o with
      | Some o => findOne (has_id JobCategory._id o) (jobCategories db)
      | None => None
      end.

(** [JobCategory.findByIdAndDelete(id)] *)
Definition JobCategory_findByIdAndDelete (id : JsVal)
  : Handler (option JobCategory.doc) :=
  o <- of_cast "_id" (castObjectId id) ;;
  db <- get_db ;;
  match o with
  | Some o =>
      match findOne (has_id JobCategory._id o) (jobCategories db) with
      | Some category =>
          put_db (set_jobCategories
                    (deleteOne (has_id JobCategory._id o) (jobCategories db))
                    db) ;;;
          ret (Some category)
      | None => ret None
      end
  | None => ret None
  end.

(** [getAllCategories]; its answer has no [message]. *)
Definition getAllCategories : DB -> Answer JobCategory.doc * DB :=
  try_catch_answer
    (db <- get_db ;;
     let allCategories := findAll (fun _ => true) (jobCategories db) in
     return_if (negb true || (List.length allCategories =? 0)%nat)
       (json 404 false "No categories found" NoData) ;;;
     ret (Listed (mkListing 200 true None None allCategories)))
    (internal_error server_error).

Definition getJobCategoryById (id : string) : DB -> Response * DB :=
  try_catch
    (return_if (negb (ObjectId_isValid (JStr id)))
       (json 400 false "Invalid category ID" NoData) ;;;
     jobCategory <- JobCategory_findById (JStr id) ;;
     match jobCategory with
     | None => respond (json 404 false "Job category not found" NoData)
     | Some jobCategory =>
         ret (json 200 true "Job category found successfully"
                (CategoryData jobCategory))
     end)
    (internal_error server_error).

Definition deleteJobCategory (id : string) : DB -> Response * DB :=
  try_catch
    (return_if (negb (ObjectId_isValid (JStr id)))
       (json 400 false "Invalid category ID" NoData) ;;;
     deletedJobCategory <- JobCategory_findByIdAndDelete (JStr id) ;;
     match deletedJobCategory with
     | None => respond (json 404 false "Job category not found" NoData)
     | Some deletedJobCategory =>
         ret (json 200 true
                (JobCategory.name deletedJobCategory ++ " deleted successfully.")
                NoData)
     end)
    (internal_error server_error).

(** ** The rest of controllers/job.controller.js *)

(** [Job.find({ postedBy })] *)
Definition Job_find_postedBy (userId : JsVal) : Handler (list Job.doc) :=
  o <- of_cast "postedBy" (castObjectId userId) ;;
  db <- get_db ;;
  ret match o with
      | Some o => findAll (fun j => oid_eqb (Job.postedBy j) o) (jobs db)
      | None => []
      end.

(** [jobById]: [id] is [req.params.id]. *)
Definition jobById (id : string) : DB -> Response * DB :=
  try_catch
    (return_if (negb (ObjectId_isValid (JStr id)))
       (json 400 false "Invalid Job ID" NoData) ;;;
     job <- Job_findById (JStr id) ;;
     match job with
     | None => respond (json 404 false "Job not found" NoData)
     | Some job => ret (json 200 true "Job found successfully" (JobData job))
     end)
    (internal_error server_error).

(** [getJobsByUserID]: [user] is [req.user._id]. *)
Definition getJobsByUserID (user : string) : DB -> Answer Job.doc * DB :=
  try_catch_answer
    (let userId := JStr user in
     return_if (negb (ObjectId_isValid userId))
       (json 400 false "Invalid User ID" NoData) ;;;
     jobs <- Job_find_postedBy userId ;;
     return_if (List.length jobs =? 0)%nat
       (json 404 false "No jobs found for the user" NoData) ;;;
     ret (Listed (mkListing 200 true (Some "Jobs found successfully.")
                    (Some (List.length jobs)) jobs)))
    (internal_error server_error).

(** ** The update handlers

    [Model.findByIdAndUpdate(id, updates, { new: true, runValidators:
    true })] first casts and validates the update document against the
    schema, which throws or yields the rewriting of a stored document, and
    then rewrites the document of that id.  The cast of an update document
    is the driver's; it is a parameter here. *)

Section Updates.

Context {D : Type}.
Variable cast_update : JsVal -> CastResult (D -> D).

Definition findByIdAndUpdate (id_of : D -> ObjectId) (docs : DB -> list D)
  (set_docs : list D -> DB -> DB) (path : string) (id updates : JsVal)
  : Handler (option D) :=
  o <- of_cast "_id" (castObjectId id) ;;
  update <- of_cast path (cast_update updates) ;;
  db <- get_db ;;
  match o with
  | Some o =>
      match findOne (has_id id_of o) (docs db) with
      | Some d =>
          put_db (set_docs (updateOne (has_id id_of o) update (docs db)) db) ;;;
          ret (Some (update d))
      | None => ret None
      end
  | None => ret None
  end.

End Updates.

Section UpdateHandlers.

Variable Company_cast_update : JsVal -> CastResult (Company.doc -> Company.doc).
Variable JobCategory_cast_update
  : JsVal -> CastResult (JobCategory.doc -> JobCategory.doc).
Variable Job_cast_update : JsVal -> CastResult (Job.doc -> Job.doc).

(** [updateCompany]: a malformed id is answered 401; [req.file] is read
    and not used. *)
Definition updateCompany (id : string) (body : Body) : DB -> Response * DB :=
  try_catch
    (return_if (negb (ObjectId_isValid (JStr id)))
       (json 401 false "Invalid Company ID" NoData) ;;;
     let updates := sanitizeInput (JObj body) in
     updatedCompany <-
       findByIdAndUpdate Company_cast_update Company._id companies
         set_companies "company" (JStr id) updates ;;
     match updatedCompany with
     | None => respond (json 404 false "Company not found" NoData)
     | Some updatedCompany =>
         ret (json 200 true "Company updated successfully"
                (CompanyData updatedCompany))
     end)
    (internal_error server_error).

Definition updateJobCategory (id : string) (body : Body) : DB -> Response * DB :=
  try_catch
    (return_if (negb (ObjectId_isValid (JStr id)))
       (json 400 false "Invalid category ID" NoData) ;;;
     let sanitizedInputs := sanitizeInput (JObj body) in
     updatedJobCategory <-
       findByIdAndUpdate JobCategory_cast_update JobCategory._id jobCategories
         set_jobCategories "category" (JStr id) sanitizedInputs ;;
     match updatedJobCategory with
     | None => respond (json 404 false "Job category not found" NoData)
     | Some updatedJobCategory =>
         ret (json 200 true "Job category updated successfully"
                (CategoryData updatedJobCategory))
     end)
    (internal_error server_error).

Definition updateJob (id : string) (body : Body) : DB -> Response * DB :=
  try_catch
    (return_if (negb (ObjectId_isValid (JStr id)))
       (json 400 false "Invalid Job ID" NoData) ;;;
     let updates := sanitizeInput (JObj body) in
     updatedJob <-
       findByIdAndUpdate Job_cast_update Job._id jobs set_jobs "job"
         (JStr id) updates ;;
     match updatedJob with
     | None => respond (json 404 false "Job not found" NoData)
     | Some updatedJob =>
         ret (json 200 true "Job updated successfully" (JobData updatedJob))
     end)
    (internal_error server_error).

End UpdateHandlers.

(** ** The rest of controllers/application.controller.js

    [populate] replaces a reference by the document it resolves to, or by
    [null] when no document has the id.  [sort({ createdAt: -1 })] puts the
    latest document first; a collection is kept in the order of creation,
    so the sorted result is the reversed one. *)

Record PopulatedJob : Type := mkPopulatedJob {
  populated_job : Job.doc;
  populated_company : option Company.doc
}.

Record AppliedJob : Type := mkAppliedJob {
  applied_application : Application.doc;
  applied_job : option PopulatedJob
}.

Module Applicant.
(** A user as [select: "-password -__v"] leaves it. *)
Record doc : Type := mk {
  _id : ObjectId;
  name : string;
  email : string;
  phone : string;
  role : string;
  profile : JsVal
}.
End Applicant.

Definition without_password (u : User.doc) : Applicant.doc :=
  Applicant.mk (User._id u) (User.name u) (User.email u) (User.phone u)
    (User.role u) (User.profile u).

Record ApplicantEntry : Type := mkApplicantEntry {
  entry_application : Application.doc;
  entry_applicant : option Applicant.doc
}.

Definition sort_latest_first {A : Type} (l : list A) : list A := rev l.

Definition populate_job (db : DB) (a : Application.doc) : AppliedJob :=
  mkAppliedJob a
    (option_map
       (fun j => mkPopulatedJob j
                   (findOne (has_id Company._id (Job.company j)) (companies db)))
       (findOne (has_id Job._id (Application.job a)) (jobs db))).

Definition populate_applicant (db : DB) (a : Application.doc) : ApplicantEntry :=
  mkApplicantEntry a
    (option_map without_password
       (findOne (has_id User._id (Application.applicant a)) (users db))).

(** [Application.find({ applicant })] and [Application.find({ job })] *)
Definition Application_find_by (ref : Application.doc -> ObjectId)
  (path : string) (id : JsVal) : Handler (list Application.doc) :=
  o <- of_cast path (castObjectId id) ;;
  db <- get_db ;;
  ret match o with
      | Some o => findAll (fun a => oid_eqb (ref a) o) (applications db)
      | None => []
      end.

(** [getAppliedJobs]: [user] is [req.user._id]. *)
Definition getAppliedJobs (user : string) : DB -> Answer AppliedJob * DB :=
  try_catch_answer
    (let userId := JStr user in
     found <- Application_find_by Application.applicant "applicant" userId ;;
     db <- get_db ;;
     let applications := map (populate_job db) (sort_latest_first found) in
     return_if (negb true || (List.length applications =? 0)%nat)
       (json 404 false "No applications found." NoData) ;;;
     ret (Listed (mkListing 200 true (Some "Applications fetched successfully.")
                    None applications)))
    (internal_error server_error).

(** [getAllApplicants]: [jobId] is [req.params.jobId]. *)
Definition getAllApplicants (jobId : string) : DB -> Answer ApplicantEntry * DB :=
  try_catch_answer
    (return_if (negb (ObjectId_isValid (JStr jobId)))
       (json 400 false "Invalid Job ID." NoData) ;;;
     found <- Application_find_by Application.job "job" (JStr jobId) ;;
     db <- get_db ;;
     let applications := map (populate_applicant db) (sort_latest_first found) in
     return_if (negb true || (List.length applications =? 0)%nat)
       (json 404 false "No applications found for this job." NoData) ;;;
     ret (Listed (mkListing 200 true (Some "Applications fetched successfully.")
                    None applications)))
    (internal_error server_error).

(** ** loginUser of controllers/user.controller.js *)

(** [typeof v] *)
Definition js_typeof (v : JsVal) : string :=
  match v with
  | JUndefined => "undefined"
  | JNull | JArr _ | JObj _ => "object"
  | JBool _ => "boolean"
  | JNum _ => "number"
  | JStr _ => "string"
  end.

(** [role !== stored] for a stored string *)
Definition str_strict_neq (v : JsVal) (stored : string) : bool :=
  match v with
  | JStr s => negb (String.eqb s stored)
  | _ => true
  end.

(** [res.cookie("token", value, { expires, httpOnly, sameSite })] *)
Record Cookie : Type := mkCookie {
  cookie_name : string;
  cookie_value : string;
  cookie_expires : N;
  cookie_httpOnly : bool;
  cookie_sameSite : string
}.

Record LoginAnswer : Type := mkLoginAnswer {
  login_reply : Response;
  login_cookie : option Cookie
}.

Section Login.

(** [bcrypt.compare(password, hash)] on two strings *)
Variable bcrypt_compare : string -> string -> bool.

(** [jwt.sign({ _id }, process.env.JWT_SECRET, { expiresIn: "1d" })] at the
    time [issued] *)
Variable jwt_sign : ObjectId -> N -> string.

(** [error.message] of a driver exception *)
Variable error_message : Exn -> string.

(** The [catch] of [loginUser] answers 400 with the message of the
    exception. *)
Definition try_catch_login (body : Handler LoginAnswer) : DB -> LoginAnswer * DB :=
  fun db =>
    match body db with
    | (Continue a, db') => (a, db')
    | (Respond r, db') => (mkLoginAnswer r None, db')
    | (Throw e, db') =>
        (mkLoginAnswer (json 400 false (error_message e) NoData) None, db')
    end.

(** [loginUser]: [issued] and [now] are the clock readings of [jwt.sign]
    and of [Date.now()].  [bcrypt.compare] refuses an argument that is not
    a string with an [Error] whose message names the two types; the
    [catch] turns it into the 400 written here. *)
Definition loginUser (body : Body) (issued now : N) : DB -> LoginAnswer * DB :=
  try_catch_login
    (let email := field "email" body in
     let password := field "password" body in
     let role := field "role" body in
     return_if (negb (truthy email) || negb (truthy password)
                || negb (truthy role))
       (json 400 false "All fields are required" NoData) ;;;
     user <- User_findOne_email email ;;
     match user with
     | None => respond (json 400 false "User not found" NoData)
     | Some user =>
         isMatch <-
           match password with
           | JStr password => ret (bcrypt_compare password (User.password user))
           | _ =>
               respond (json 400 false
                          ("Illegal arguments: " ++ js_typeof password
                           ++ ", string") NoData)
           end ;;
         return_if (negb isMatch)
           (json 400 false "Invalid Credentials" NoData) ;;;
         return_if (str_strict_neq role (User.role user))
           (json 400 false "Role does not match" NoData) ;;;
         let token := jwt_sign (User._id user) issued in
         ret (mkLoginAnswer
                (json 200 true ("Welcome, " ++ User.name user) (UserData user))
                (Some (mkCookie "token" token (now + 24 * 60 * 60 * 1000)%N
                         true "strict")))
     end).

End Login.

(** ** Vocabulary of the properties *)

Definition checked_fields : list string :=
  ["title"; "description"; "company"; "experience"; "location";
   "jobOpenings"; "jobType"; "categories"].

(** The object [postJob] gives to [sanitizeInput] and, unchanged, to the
    queries and to [Job.create]. *)
Definition job_inputs (user : string) (body : Body) : JsVal :=
  JObj [("title", field "title" body);
        ("description", field "description" body);
        ("company", field "company" body);
        ("location", field "location" body);
        ("experience", field "experience" body);
        ("salary", field "salary" body);
        ("jobOpenings", field "jobOpenings" body);
        ("requirements", field "requirements" body);
        ("jobType", field "jobType" body);
        ("categories", field "categories" body);
        ("postedBy", JStr user)].

Definition fields_missing (user : string) (body : Body) : bool :=
  negb (truthy (field "title" body)) || negb (truthy (field "description" body))
  || negb (truthy (field "company" body)) || negb (truthy (field "experience" body))
  || negb (truthy (field "location" body)) || negb (truthy (field "jobOpenings" body))
  || negb (truthy (field "jobType" body)) || negb (truthy (field "categories" body))
  || negb (truthy (JStr user)).

Definition link_job (co : ObjectId) (os : list (option ObjectId))
  (job : ObjectId) (db : DB) : DB :=
  let db1 :=
    set_jobCategories
      (updateMany (fun c => mem_oid (JobCategory._id c) os)
         (fun c => JobCategory.mk (JobCategory._id c) (JobCategory.name c)
                     (push job (JobCategory.jobs c)))
         (jobCategories db)) db in
  set_companies
    (updateOne (has_id Company._id co)
       (fun c => Company.mk (Company._id c) (Company.name c)
                   (Company.description c) (Company.website c)
                   (Company.location c) (Company.logo c)
                   (push job (Company.jobs c)) (Company.userId c))
       (companies db1)) db1.

(** The JSON scalars: [null], the booleans, the numbers and the strings.
    On them [castObjectId] is the cast of the driver. *)
Definition scalar (v : JsVal) : bool :=
  match v with
  | JArr _ | JObj _ => false
  | _ => true
  end.

(** An entry of the request's category list is unresolved when it is a
    scalar that does not cast to the identifier of a stored JobCategory:
    [null], a boolean, a number, a string that is no ObjectId, or the
    well-formed id of no stored category.  An array or an object in the
    place of an id, which the driver reads through [toString] or [_id], is
    not covered. *)
Definition unresolved (db : DB) (v : JsVal) : Prop :=
  scalar v = true
  /\ forall o, castObjectId v = Casted (Some o) ->
               ~ In o (map JobCategory._id (jobCategories db)).

(** The request names a stored company by its id. *)
Definition company_stored (db : DB) (v : JsVal) : Prop :=
  exists o c, castObjectId v = Casted (Some o)
              /\ findOne (has_id Company._id o) (companies db) = Some c.

Definition unlink_job (o : ObjectId) (db : DB) : DB :=
  let db1 :=
    set_jobCategories
      (updateMany (fun c => contains o (JobCategory.jobs c))
         (fun c => JobCategory.mk (JobCategory._id c) (JobCategory.name c)
                     (pull o (JobCategory.jobs c)))
         (jobCategories db)) db in
  set_companies
    (updateMany (fun c => contains o (Company.jobs c))
       (fun c => Company.mk (Company._id c) (Company.name c)
                   (Company.description c) (Company.website c)
                   (Company.location c) (Company.logo c)
                   (pull o (Company.jobs c)) (Company.userId c))
       (companies db1)) db1.

Definition company_inputs (user : string) (body : Body) : JsVal :=
  JObj [("name", field "name" body); ("description", field "description" body);
        ("website", field "website" body); ("location", field "location" body);
        ("userId", JStr user)].

Definition company_fields_missing (body : Body) : bool :=
  negb (truthy (field "name" body)) || negb (truthy (field "description" body))
  || negb (truthy (field "website" body)) || negb (truthy (field "location" body))
  || negb (truthy (field "userId" body)).

(** [Application.countDocuments({ applicant, job })] *)
Definition pair_count (applicant job : ObjectId) (db : DB) : nat :=
  List.length
    (findAll (fun d => oid_eqb (Application.applicant d) applicant
                       && oid_eqb (Application.job d) job)
       (applications db)).

(** Every stored email went through the setters of its path. *)
Definition emails_normalised (db : DB) : Prop :=
  forall u, In u (users db) -> User.email u = email_setters (User.email u).

Definition user_fields_present (body : Body) : Prop :=
  truthy (field "name" body) = true /\ truthy (field "email" body) = true
  /\ truthy (field "phone" body) = true
  /\ truthy (field "password" body) = true
  /\ truthy (field "role" body) = true.

(** A string is clean at its start when it does not begin with white
    space. *)
Definition starts_clean (s : string) : Prop :=
  match s with
  | EmptyString => True
  | String c _ => is_space c = false
  end.

(** The characters [validator.escape] writes as entities, the ampersand
    apart: the quotes, the angle brackets, the slashes and the backtick. *)
Definition markup_char (c : ascii) : bool :=
  existsb (Nat.eqb (code c)) [34; 39; 60; 62; 47; 92; 96]%nat.

(** A canonical identifier is the text the driver prints for an ObjectId. *)
Definition canonical_id (o : ObjectId) : Prop :=
  is_hex24 o = true /\ toLowerCase o = o.

(** The back references of a database: for every company and for every
    category, in the order of the collection, its id and its [jobs]
    list. *)
Definition job_links (db : DB)
  : list (ObjectId * list ObjectId) * list (ObjectId * list ObjectId) :=
  (map (fun c => (Company._id c, Company.jobs c)) (companies db),
   map (fun k => (JobCategory._id k, JobCategory.jobs k)) (jobCategories db)).

(** ** Sample documents and requests *)

(** Modelled from the spec: a Job schema that marks the eight attributes
    of section 3 as required, in the way a [required] path refuses
    [undefined], [null] and the empty string.  models/job.model.js is not
    among the sources; the examples below run the handlers with this
    schema. *)
Definition Job_attributes_required (input : JsVal) : bool :=
  forallb
    (fun k => match js_get k input with
              | JUndefined | JNull => false
              | JStr s => negb (String.eqb s "")
              | _ => true
              end)
    ["title"; "description"; "location"; "experience"; "salary";
     "jobOpenings"; "requirements"; "jobType"].

Definition ann_id : ObjectId := "64b7f0c2a1d3e4f5a6b7c801".
Definition acme_id : ObjectId := "64b7f0c2a1d3e4f5a6b7c8c1".
Definition engineering_id : ObjectId := "64b7f0c2a1d3e4f5a6b7c8e1".
Definition design_id : ObjectId := "64b7f0c2a1d3e4f5a6b7c8e2".
Definition job_id : ObjectId := "64b7f0c2a1d3e4f5a6b7c8f1".
Definition application_id : ObjectId := "64b7f0c2a1d3e4f5a6b7c8a1".
Definition absent_id : ObjectId := "64b7f0c2a1d3e4f5a6b7c8ff".

Definition ann : User.doc :=
  User.mk ann_id "Ann" "ann@example.com" "0123456789" "$2a$10$Zk1" "recruiter"
    (JObj [("profileImage", JStr "")]).

Definition acme : Company.doc :=
  Company.mk acme_id "Acme" (Some "Tools") (Some "https://acme.example")
    (Some "Pune") None [] [ann_id].

Definition engineering : JobCategory.doc :=
  JobCategory.mk engineering_id "Engineering" [].

Definition design : JobCategory.doc := JobCategory.mk design_id "Design" [].

Definition db_seed : DB := mkDB [ann] [acme] [engineering; design] [] [].

Definition job_body_with (categories : JsVal) : Body :=
  [("title", JStr "Backend engineer"); ("description", JStr "APIs");
   ("company", JStr acme_id); ("location", JStr "Pune");
   ("experience", JStr "2 years"); ("salary", JNum 100000);
   ("jobOpenings", JNum 2); ("requirements", JStr "Node");
   ("jobType", JStr "Full-time"); ("categories", categories)].

Definition job_body : Body :=
  job_body_with (JArr [JStr engineering_id; JStr design_id]).

(** The same request without [salary] and [requirements]. *)
Definition job_body_without_salary : Body :=
  [("title", JStr "Backend engineer"); ("description", JStr "APIs");
   ("company", JStr acme_id); ("location", JStr "Pune");
   ("experience", JStr "2 years"); ("jobOpenings", JNum 2);
   ("jobType", JStr "Full-time");
   ("categories", JArr [JStr engineering_id; JStr design_id])].

Definition job_body_without_title : Body :=
  [("description", JStr "APIs"); ("company", JStr acme_id);
   ("location", JStr "Pune"); ("experience", JStr "2 years");
   ("salary", JNum 100000); ("jobOpenings", JNum 2);
   ("requirements", JStr "Node"); ("jobType", JStr "Full-time");
   ("categories", JArr [JStr engineering_id; JStr design_id])].

Definition db_posted : DB :=
  snd (postJob Job_attributes_required ann_id job_body job_id db_seed).

Definition application_body : Body :=
  [("resume", JStr "https://files.example/ann.pdf")].

Definition db_applied : DB :=
  snd (applyJob ann_id job_id application_body application_id db_posted).

Definition registration_body : Body :=
  [("name", JStr "Anna"); ("email", JStr "ANN@Example.com");
   ("phone", JStr "9876543210"); ("password", JStr "hunter22");
   ("role", JStr "user")].

Definition company_body : Body :=
  [("name", JStr "Globex"); ("description", JStr "Energy");
   ("website", JStr "https://globex.example"); ("location", JStr "Goa");
   ("userId", JStr "someone-else")].

(** Stand-ins for the external collaborators of [createUser]. *)
Definition upload_ok (file : File) : option string :=
  Some ("https://res.example/" ++ originalname file)%string.
Definition hash_tagged (password salt : string) : string :=
  ("$2a$10$" ++ salt ++ password)%string.
Definition profile_as_given (v : JsVal) : CastResult JsVal := Casted v.

(** Further sample requests and states. *)
Definition research_id : ObjectId := "64b7f0c2a1d3e4f5a6b7c8e3".
Definition bob_id : ObjectId := "64b7f0c2a1d3e4f5a6b7c802".

Definition job_body_repeated : Body :=
  job_body_with (JArr [JStr engineering_id; JStr engineering_id]).

Definition category_body : Body := [("name", JStr "Research")].

(** A category named by a number, and by the text of that number. *)
Definition category_number_body : Body := [("name", JNum 42)].
Definition category_text_body : Body := [("name", JStr "42")].

(** The number [1e21], and its digits as a string. *)
Definition category_1e21_body : Body :=
  [("name", JNum 1000000000000000000000)].
Definition category_digits_body : Body :=
  [("name", JStr "1000000000000000000000")].

Definition bob_body : Body :=
  [("name", JStr " Bob "); ("email", JStr "Bob@Example.com");
   ("phone", JStr "9876543210"); ("password", JStr "hunter22");
   ("role", JStr "user")].


Definition ann_login_as_user : Body :=
  [("email", JStr "ann@example.com"); ("password", JStr "Zk1");
   ("role", JStr "user")].

Definition db_deleted : DB := snd (deleteJob job_id db_applied).

(** Stand-ins for the external collaborators of [loginUser]: a hash made
    by [hash_tagged] ends with its password. *)
Definition compare_tagged (password hash : string) : bool :=
  String.prefix (string_rev password) (string_rev hash).
Definition sign_tagged (id : ObjectId) (issued : N) : string :=
  ("jwt." ++ id)%string.
Definition message_of (e : Exn) : string :=
  match e with
  | CastError path => ("Cast failed at path " ++ path)%string
  | ValidationError path => ("Validation failed: " ++ path)%string
  | DuplicateKey path => ("E11000 duplicate key: " ++ path)%string
  | UploadError => "upload failed"
  end.

(** A stand-in for the cast of a company patch: it sets [description]
    when the patch carries one. *)
Definition set_description (updates : JsVal)
  : CastResult (Company.doc -> Company.doc) :=
  match castString (js_get "description" updates) with
  | Casted d =>
      Casted (fun c =>
        Company.mk (Company._id c) (Company.name c)
          (match d with Some _ => d | None => Company.description c end)
          (Company.website c) (Company.location c) (Company.logo c)
          (Company.jobs c) (Company.userId c))
  | CastFailed => CastFailed
  end.

Definition description_body : Body := [("description", JStr "Hand tools")].

(** * Properties *)

(** ** Running a handler body *)

Lemma bind_continue {A B : Type} (m : Handler A) (k : A -> Handler B)
  (db db' : DB) (a : A) :
  m db = (Continue a, db') -> bind m k db = k a db'.
Proof. intros H. unfold bind. now rewrite H. Qed.

Lemma bind_respond {A B : Type} (m : Handler A) (k : A -> Handler B)
  (db db' : DB) (r : Response) :
  m db = (Respond r, db') -> bind m k db = (Respond r, db').
Proof. intros H. unfold bind. now rewrite H. Qed.

Lemma bind_throw {A B : Type} (m : Handler A) (k : A -> Handler B)
  (db db' : DB) (e : Exn) :
  m db = (Throw e, db') -> bind m k db = (Throw e, db').
Proof. intros H. unfold bind. now rewrite H. Qed.

Lemma return_if_true {B : Type} (r : Response) (k : unit -> Handler B) (db : DB) :
  bind (return_if true r) k db = (Respond r, db).
Proof. reflexivity. Qed.

Lemma return_if_false {B : Type} (r : Response) (k : unit -> Handler B) (db : DB) :
  bind (return_if false r) k db = k tt db.
Proof. reflexivity. Qed.

(** Unfold the sequencing of a handler body down to its tests. *)
Ltac run :=
  cbv beta iota
      delta [bind ret get_db put_db respond throw return_if negb is_none is_some].

Ltac run_in H :=
  cbv beta iota
      delta [bind ret get_db put_db respond throw return_if negb is_none is_some]
    in H.

(** The object a handler builds is not a string: [sanitizeInput] hands it
    back as it is. *)
Lemma sanitizeInput_object (fields : list (string * JsVal)) :
  sanitizeInput (JObj fields) = JObj fields.
Proof. reflexivity. Qed.


(** ** Lists, casts and counts *)

Lemma oid_eqb_eq (a b : ObjectId) : oid_eqb a b = true <-> a = b.
Proof. unfold oid_eqb. apply String.eqb_eq. Qed.

Lemma oid_eqb_refl (a : ObjectId) : oid_eqb a a = true.
Proof. now apply oid_eqb_eq. Qed.

Lemma mem_oid_In (o : ObjectId) (os : list (option ObjectId)) :
  mem_oid o os = true <-> In (Some o) os.
Proof.
  unfold mem_oid. rewrite existsb_exists. split.
  - intros [[o' |] [Hin Heq]]; [| discriminate].
    apply oid_eqb_eq in Heq. now subst.
  - intros Hin. exists (Some o). split; [assumption | apply oid_eqb_refl].
Qed.

Lemma contains_In (o : ObjectId) (l : list ObjectId) :
  contains o l = true <-> In o l.
Proof.
  unfold contains. rewrite existsb_exists. split.
  - intros [x [Hin Heq]]. apply oid_eqb_eq in Heq. now subst.
  - intros Hin. exists o. split; [assumption | apply oid_eqb_refl].
Qed.

Lemma pull_not_In (o : ObjectId) (l : list ObjectId) : ~ In o (pull o l).
Proof.
  unfold pull. intros Hin. apply filter_In in Hin. destruct Hin as [_ Hneq].
  now rewrite oid_eqb_refl in Hneq.
Qed.

Lemma push_In (o : ObjectId) (l : list ObjectId) : In o (push o l).
Proof. unfold push. apply in_or_app. right. now left. Qed.

Lemma castObjectIds_length (l : list JsVal) (os : list (option ObjectId)) :
  castObjectIds l = Casted os -> List.length os = List.length l.
Proof.
  revert os. induction l as [| v l IH]; intros os H; simpl in H.
  - now inversion H.
  - destruct (castObjectId v) as [o |]; [| discriminate].
    destruct (castObjectIds l) as [os' |]; [| discriminate].
    inversion H; subst. simpl. f_equal. now apply IH.
Qed.

Lemma castObjectIds_In (l : list JsVal) (os : list (option ObjectId)) (v : JsVal) :
  castObjectIds l = Casted os -> In v l ->
  exists o, castObjectId v = Casted o /\ In o os.
Proof.
  revert os. induction l as [| x l IH]; intros os H Hin; simpl in H.
  - contradiction.
  - destruct (castObjectId x) as [o |] eqn:Hx; [| discriminate].
    destruct (castObjectIds l) as [os' |]; [| discriminate].
    inversion H; subst. destruct Hin as [-> | Hin].
    + exists o. split; [assumption | now left].
    + destruct (IH os' eq_refl Hin) as [o' [Hc Ho]].
      exists o'. split; [assumption | now right].
Qed.

Lemma NoDup_snoc {A : Type} (l : list A) (a : A) :
  NoDup l -> ~ In a l -> NoDup (l ++ [a]).
Proof.
  induction l as [| x l IH]; intros Hnd Hin; simpl.
  - constructor; [intros [] | constructor].
  - inversion Hnd; subst. constructor.
    + intros Hx. apply in_app_or in Hx. destruct Hx as [Hx | [-> | []]].
      * contradiction.
      * apply Hin. now left.
    + apply IH; [assumption |]. intros Ha. apply Hin. now right.
Qed.

Lemma filter_length_lt {A : Type} (p : A -> bool) (l : list A) (x : A) :
  In x l -> p x = false -> (List.length (filter p l) < List.length l)%nat.
Proof.
  induction l as [| y l IH]; intros Hin Hp; simpl.
  - contradiction.
  - pose proof (filter_length_le p l) as Hle.
    destruct Hin as [-> | Hin].
    + rewrite Hp. lia.
    + specialize (IH Hin Hp). destruct (p y); simpl; lia.
Qed.

Lemma filter_length_all {A : Type} (p : A -> bool) (l : list A) :
  (List.length l <= List.length (filter p l))%nat ->
  forall x, In x l -> p x = true.
Proof.
  intros Hlen x Hin. destruct (p x) eqn:Hp; [reflexivity |].
  pose proof (filter_length_lt p l x Hin Hp). lia.
Qed.

Section Counting.
Context {D : Type}.
Variable id_of : D -> ObjectId.

Lemma resolves_In (docs : list D) (o : ObjectId) :
  resolves id_of docs (Some o) = true <-> In o (map id_of docs).
Proof. apply contains_In. Qed.

(** With unique identifiers a [$in] query returns at most one document
    per element of its list that resolves. *)
Lemma find_in_count (docs : list D) (os : list (option ObjectId)) :
  NoDup (map id_of docs) ->
  (List.length (findAll (fun d => mem_oid (id_of d) os) docs)
   <= List.length (filter (resolves id_of docs) os))%nat.
Proof.
  intros Hnd. unfold findAll.
  set (found := filter (fun d => mem_oid (id_of d) os) docs).
  rewrite <- (length_map (fun d => Some (id_of d)) found).
  apply NoDup_incl_length.
  - rewrite <- (map_map id_of Some).
    apply Injective_map_NoDup; [intros a b H; now inversion H |].
    subst found. clear -Hnd. induction docs as [| d docs IH]; simpl.
    + constructor.
    + inversion Hnd; subst.
      destruct (mem_oid (id_of d) os); simpl; [| now apply IH].
      constructor; [| now apply IH].
      intros Hin. apply in_map_iff in Hin. destruct Hin as [d' [Heq Hin]].
      apply filter_In in Hin. destruct Hin as [Hin _].
      apply H1. rewrite <- Heq. now apply in_map.
  - intros x Hin. apply in_map_iff in Hin. destruct Hin as [d [<- Hin]].
    subst found. apply filter_In in Hin. destruct Hin as [Hin Hmem].
    apply filter_In. split.
    + now apply mem_oid_In.
    + apply resolves_In. now apply in_map.
Qed.

Lemma updateMany_In (matches : D -> bool) (update : D -> D) (docs : list D)
  (d : D) :
  In d docs -> matches d = true ->
  In (update d) (updateMany matches update docs).
Proof.
  intros Hin Hm. unfold updateMany. apply in_map_iff.
  exists d. split; [now rewrite Hm | assumption].
Qed.

Lemma updateMany_inv (matches : D -> bool) (update : D -> D) (docs : list D)
  (d' : D) :
  In d' (updateMany matches update docs) ->
  exists d, In d docs /\ d' = (if matches d then update d else d).
Proof.
  unfold updateMany. intros Hin. apply in_map_iff in Hin.
  destruct Hin as [d [Heq Hin]]. exists d. now split.
Qed.

Lemma updateOne_In (o : ObjectId) (update : D -> D) (docs : list D) (d : D) :
  (forall x, id_of (update x) = id_of x) ->
  findOne (has_id id_of o) docs = Some d ->
  In (update d) (updateOne (has_id id_of o) update docs)
  /\ findOne (has_id id_of o) (updateOne (has_id id_of o) update docs)
     = Some (update d).
Proof.
  intros Hid. unfold findOne.
  induction docs as [| x docs IH]; simpl; intros Hf; [discriminate |].
  destruct (has_id id_of o x) eqn:Hx.
  - inversion Hf; subst. split; [now left |].
    simpl. unfold has_id in *. now rewrite Hid, Hx.
  - destruct (IH Hf) as [Hin Hfind]. split; [now right |].
    simpl. now rewrite Hx.
Qed.

Lemma findOne_Some (matches : D -> bool) (docs : list D) (d : D) :
  findOne matches docs = Some d -> In d docs /\ matches d = true.
Proof. apply find_some. Qed.

Lemma findOne_None (matches : D -> bool) (docs : list D) :
  findOne matches docs = None -> forall d, In d docs -> matches d = false.
Proof. apply find_none. Qed.

(** With unique identifiers [findById] returns the document that
    carries the id. *)
Lemma findOne_unique (docs : list D) (d : D) :
  NoDup (map id_of docs) -> In d docs ->
  findOne (has_id id_of (id_of d)) docs = Some d.
Proof.
  unfold findOne, has_id.
  induction docs as [| x docs IH]; intros Hnd Hin; [contradiction |].
  inversion Hnd; subst. simpl.
  destruct Hin as [-> | Hin]; [now rewrite oid_eqb_refl |].
  destruct (oid_eqb (id_of x) (id_of d)) eqn:E; [| now apply IH].
  apply oid_eqb_eq in E. exfalso. apply H1. rewrite E. now apply in_map.
Qed.

Lemma findOne_exists (matches : D -> bool) (docs : list D) (d : D) :
  In d docs -> matches d = true -> exists d', findOne matches docs = Some d'.
Proof.
  intros Hin Hm. destruct (findOne matches docs) as [d' |] eqn:Hf.
  - now exists d'.
  - pose proof (findOne_None _ _ Hf d Hin). congruence.
Qed.
End Counting.

Lemma updateMany_ids {D : Type} (id_of : D -> ObjectId) (matches : D -> bool)
  (update : D -> D) (docs : list D) :
  (forall d, id_of (update d) = id_of d) ->
  map id_of (updateMany matches update docs) = map id_of docs.
Proof.
  intros Hid. unfold updateMany. rewrite map_map. apply map_ext.
  intros d. now destruct (matches d).
Qed.

Lemma updateOne_ids {D : Type} (id_of : D -> ObjectId) (matches : D -> bool)
  (update : D -> D) (docs : list D) :
  (forall d, id_of (update d) = id_of d) ->
  map id_of (updateOne matches update docs) = map id_of docs.
Proof.
  intros Hid. induction docs as [| d docs IH]; simpl; [reflexivity |].
  destruct (matches d); simpl; [now rewrite Hid | now rewrite IH].
Qed.

(** ** postJob, step by step *)

Section JobBoardProperties.
Variable Job_attributes_valid : JsVal -> bool.

Lemma postJob_steps (user : string) (body : Body) (newId : ObjectId) (db : DB) :
  postJob Job_attributes_valid user body newId db =
  if fields_missing user body then
    (json 400 false "All required fields must be provided" NoData, db)
  else
    match castObjectId (field "company" body) with
    | CastFailed => (internal_error server_error (CastError "_id"), db)
    | Casted None => (json 400 false "Invalid company ID" NoData, db)
    | Casted (Some co) =>
        match findOne (has_id Company._id co) (companies db) with
        | None => (json 400 false "Invalid company ID" NoData, db)
        | Some _ =>
            match cast_in (field "categories" body) with
            | CastFailed => (internal_error server_error (CastError "_id"), db)
            | Casted os =>
                if num_strict_neq
                     (List.length
                        (findAll (fun c => mem_oid (JobCategory._id c) os)
                           (jobCategories db)))
                     (js_length (field "categories" body))
                then (json 400 false "One or more job categories are invalid"
                        NoData, db)
                else
                  match Job_create Job_attributes_valid (job_inputs user body)
                          newId db with
                  | (Continue job, db1) =>
                      (json 201 true "Job created successfully" (JobData job),
                       link_job co os (Job._id job) db1)
                  | (Respond r, db1) => (r, db1)
                  | (Throw e, db1) => (internal_error server_error e, db1)
                  end
            end
        end
    end.
Proof.
  unfold postJob, try_catch. cbv zeta. rewrite sanitizeInput_object.
  fold (job_inputs user body). fold (fields_missing user body).
  destruct (fields_missing user body); [reflexivity |].
  rewrite return_if_false.
  change (js_get "company" (job_inputs user body)) with (field "company" body).
  change (js_get "categories" (job_inputs user body)) with (field "categories" body).
  unfold Company_findById, JobCategory_find_in, JobCategory_push_in,
    Company_push_job, of_cast.
  destruct (castObjectId (field "company" body)) as [[co |] |]; try reflexivity.
  cbn [bind ret get_db fst snd throw respond return_if is_none is_some negb].
  destruct (findOne (has_id Company._id co) (companies db)); [| reflexivity].
  cbn [bind ret get_db fst snd throw respond return_if is_none is_some negb].
  destruct (cast_in (field "categories" body)) as [os |]; [| reflexivity].
  cbn [bind ret get_db fst snd throw respond return_if is_none is_some negb].
  destruct (num_strict_neq _ _); [reflexivity |].
  cbn [bind ret get_db fst snd throw respond return_if is_none is_some negb].
  unfold bind at 1.
  destruct (Job_create Job_attributes_valid (job_inputs user body) newId db)
    as [[job | r | e] db1]; reflexivity.
Qed.

Lemma Job_create_outcome (input : JsVal) (newId : ObjectId) (db : DB) :
  (exists job, Job_create Job_attributes_valid input newId db
               = (Continue job, set_jobs (jobs db ++ [job]) db)
               /\ Job._id job = newId)
  \/ (exists e, Job_create Job_attributes_valid input newId db = (Throw e, db)).
Proof.
  unfold Job_create, required, required_ids.
  destruct (castObjectId (js_get "company" input)) as [[co |] |];
    try (right; eexists; reflexivity).
  cbn [bind ret throw].
  destruct (castObjectIdArray (js_get "categories" input)) as [l |];
    try (right; eexists; reflexivity).
  destruct (all_some l) as [cats |]; try (right; eexists; reflexivity).
  cbn [bind ret throw].
  destruct (castObjectId (js_get "postedBy" input)) as [[p |] |];
    try (right; eexists; reflexivity).
  cbn [bind ret throw].
  destruct (Job_attributes_valid input); [| right; eexists; reflexivity].
  left. eexists. split; reflexivity.
Qed.

Lemma is_hex24_length (s : string) : is_hex24 s = true -> String.length s = 24%nat.
Proof.
  unfold is_hex24. intros H. apply andb_true_iff in H. destruct H as [H _].
  now apply Nat.eqb_eq in H.
Qed.

(** A request that passed the count test carries its categories as an
    array. *)
Lemma counted_categories_array (categories : JsVal) (docs : list JobCategory.doc)
  (os : list (option ObjectId)) :
  NoDup (map JobCategory._id docs) ->
  cast_in categories = Casted os ->
  num_strict_neq
    (List.length (findAll (fun c => mem_oid (JobCategory._id c) os) docs))
    (js_length categories) = false ->
  exists items, categories = JArr items.
Proof.
  intros Hnd Hcast Hlen.
  pose proof (find_in_count JobCategory._id docs os Hnd) as Hcount.
  pose proof (filter_length_le (resolves JobCategory._id docs) os) as Hle.
  destruct categories as [| | b | n | s | items | fields];
    try discriminate; try (simpl in Hcast; discriminate).
  - simpl in Hcast. destruct (is_hex24 s) eqn:Hhex; [| discriminate].
    inversion Hcast; subst os. unfold js_length, num_strict_neq in Hlen.
    apply negb_false_iff, Z.eqb_eq in Hlen.
    rewrite (is_hex24_length s Hhex) in Hlen.
    change (List.length [Some (toLowerCase s)]) with 1%nat in Hle. lia.
  - now exists items.
Qed.

(** C6, as amended: a request in which one of the eight fields the guard
    names (title, description, company, experience, location, jobOpenings,
    jobType, categories) is missing or falsy is answered 400 and leaves
    the database as it was. *)
Theorem postJob_rejects_missing_checked_field (user : string) (body : Body)
  (newId : ObjectId) (db : DB) (k : string) :
  In k checked_fields -> truthy (field k body) = false ->
  postJob Job_attributes_valid user body newId db
  = (json 400 false "All required fields must be provided" NoData, db).
Proof.
  intros Hk Hf. rewrite postJob_steps.
  assert (Hm : fields_missing user body = true).
  { unfold fields_missing, checked_fields in *. simpl in Hk.
    repeat (destruct Hk as [<- | Hk];
            [rewrite Hf; simpl; now rewrite ?orb_true_r |]).
    contradiction. }
  now rewrite Hm.
Qed.

(** C1: a category list with an unresolved entry never creates a job:
    the request fails and the database is as before.  Once the guard and
    the company lookup have passed, the answer is the 400 of the count
    test when every entry of the list is a well-formed id or [null]; it is
    the 500 of the [catch] when an entry is a scalar that is no ObjectId,
    because [JobCategory.find] casts its filter, and throws, before the
    count is taken. *)
Theorem postJob_unresolved_category (user : string) (body : Body)
  (newId : ObjectId) (db : DB) (items : list JsVal) (v : JsVal) :
  NoDup (map JobCategory._id (jobCategories db)) ->
  field "categories" body = JArr items ->
  In v items ->
  unresolved db v ->
  let (r, db') := postJob Job_attributes_valid user body newId db in
  db' = db /\ success r = false
  /\ (status r = 400 \/ status r = 500)
  /\ (fields_missing user body = false ->
      company_stored db (field "company" body) ->
      (forall os, castObjectIds items = Casted os ->
         r = json 400 false "One or more job categories are invalid" NoData)
      /\ (forall w, In w items -> scalar w = true ->
            castObjectId w = CastFailed ->
            r = internal_error server_error (CastError "_id"))).
Proof.
  intros Hnd Hcat Hin [_ Hun]. rewrite postJob_steps.
  destruct (fields_missing user body).
  { simpl. intuition discriminate. }
  unfold company_stored.
  destruct (castObjectId (field "company" body)) as [[co |] |] eqn:Hco.
  - destruct (findOne (has_id Company._id co) (companies db)) eqn:Hc.
    + rewrite Hcat. unfold cast_in.
      destruct (castObjectIds items) as [os |] eqn:Hcast.
      * assert (Hneq : num_strict_neq
                         (List.length
                            (findAll (fun c => mem_oid (JobCategory._id c) os)
                               (jobCategories db)))
                         (js_length (JArr items)) = true).
        { unfold js_length, num_strict_neq.
          apply negb_true_iff, Z.eqb_neq.
          pose proof (find_in_count JobCategory._id _ os Hnd) as Hcount.
          destruct (castObjectIds_In _ _ _ Hcast Hin) as [o [Hv Ho]].
          assert (Hres : resolves JobCategory._id (jobCategories db) o = false).
          { destruct o as [x |]; [| reflexivity].
            destruct (resolves JobCategory._id (jobCategories db) (Some x))
              eqn:E; [| reflexivity].
            apply resolves_In in E. now apply Hun in Hv. }
          pose proof (filter_length_lt _ _ _ Ho Hres) as Hlt.
          rewrite (castObjectIds_length _ _ Hcast) in Hlt. lia. }
        rewrite Hneq. simpl.
        split; [reflexivity |]. split; [reflexivity |]. split; [now left |].
        intros _ _. split; [reflexivity |].
        intros w Hw _ Hfail.
        destruct (castObjectIds_In _ _ _ Hcast Hw) as [o [Hcw _]]. congruence.
      * simpl.
        split; [reflexivity |]. split; [reflexivity |]. split; [now right |].
        intros _ _. split; [discriminate | reflexivity].
    + simpl.
      split; [reflexivity |]. split; [reflexivity |]. split; [now left |].
      intros _ [o [c [Ho Hf]]]. inversion Ho; subst o. congruence.
  - simpl.
    split; [reflexivity |]. split; [reflexivity |]. split; [now left |].
    intros _ [o [c [Ho Hf]]]. discriminate.
  - simpl.
    split; [reflexivity |]. split; [reflexivity |]. split; [now right |].
    intros _ [o [c [Ho Hf]]]. discriminate.
Qed.

(** C3: after a job is created (201) its id is in the [jobs] list of the
    company the request names and of every category of the request's
    list.  Identifiers are unique within the JobCategory collection. *)
Theorem postJob_links_company_and_categories (user : string) (body : Body)
  (newId : ObjectId) (db db' : DB) (r : Response) :
  NoDup (map JobCategory._id (jobCategories db)) ->
  postJob Job_attributes_valid user body newId db = (r, db') ->
  status r = 201 ->
  (exists job, payload r = JobData job /\ Job._id job = newId
               /\ In job (jobs db'))
  /\ (exists c, In c (companies db')
                /\ castObjectId (field "company" body)
                   = Casted (Some (Company._id c))
                /\ In newId (Company.jobs c))
  /\ (exists items, field "categories" body = JArr items
       /\ forall v, In v items ->
          exists k, In k (jobCategories db')
                    /\ castObjectId v = Casted (Some (JobCategory._id k))
                    /\ In newId (JobCategory.jobs k)).
Proof.
  intros Hnd Hrun Hst. rewrite postJob_steps in Hrun.
  destruct (fields_missing user body);
    [inversion Hrun; subst; discriminate |].
  destruct (castObjectId (field "company" body)) as [[co |] |] eqn:Hco;
    try (inversion Hrun; subst; discriminate).
  destruct (findOne (has_id Company._id co) (companies db)) as [c |] eqn:Hc;
    [| inversion Hrun; subst; discriminate].
  destruct (cast_in (field "categories" body)) as [os |] eqn:Hcast;
    [| inversion Hrun; subst; discriminate].
  destruct (num_strict_neq _ _) eqn:Hlen;
    [inversion Hrun; subst; discriminate |].
  destruct (Job_create_outcome (job_inputs user body) newId db)
    as [[job [Hjob Hid]] | [e Hthrow]];
    [| rewrite Hthrow in Hrun; inversion Hrun; subst; discriminate].
  rewrite Hjob in Hrun. inversion Hrun; subst r db'. clear Hrun Hst.
  rewrite Hid.
  split; [| split].
  - exists job. repeat split; [assumption |].
    simpl. apply in_or_app. right. now left.
  - destruct (updateOne_In Company._id co
                (fun c => Company.mk (Company._id c) (Company.name c)
                            (Company.description c) (Company.website c)
                            (Company.location c) (Company.logo c)
                            (push newId (Company.jobs c)) (Company.userId c))
                (companies db) c (fun x => eq_refl) Hc) as [Hin _].
    eexists. split; [exact Hin |]. simpl.
    apply findOne_Some in Hc. destruct Hc as [_ Hc].
    apply oid_eqb_eq in Hc. rewrite Hc. split; [reflexivity | apply push_In].
  - destruct (counted_categories_array _ _ _ Hnd Hcast Hlen) as [items Hitems].
    exists items. split; [assumption |]. intros v Hv.
    rewrite Hitems in Hcast, Hlen. unfold cast_in in Hcast.
    unfold js_length, num_strict_neq in Hlen.
    apply negb_false_iff, Z.eqb_eq in Hlen.
    pose proof (find_in_count JobCategory._id _ os Hnd) as Hcount.
    destruct (castObjectIds_In _ _ _ Hcast Hv) as [o [Hcv Ho]].
    assert (Hres : resolves JobCategory._id (jobCategories db) o = true).
    { apply (filter_length_all (resolves JobCategory._id (jobCategories db)) os);
        [| assumption].
      rewrite (castObjectIds_length _ _ Hcast). lia. }
    destruct o as [x |]; [| discriminate].
    apply resolves_In, in_map_iff in Hres. destruct Hres as [k [Hk Hkin]].
    exists (JobCategory.mk (JobCategory._id k) (JobCategory.name k)
              (push newId (JobCategory.jobs k))).
    split; [| split].
    + simpl.
      apply (updateMany_In (fun c => mem_oid (JobCategory._id c) os)
               (fun c => JobCategory.mk (JobCategory._id c) (JobCategory.name c)
                           (push newId (JobCategory.jobs c)))); [assumption |].
      apply mem_oid_In. now rewrite Hk.
    + simpl. now rewrite Hk.
    + simpl. apply push_In.
Qed.

(** [postJob] rewrites the [jobs] lists of categories and leaves their
    identifiers alone. *)
Lemma postJob_keeps_category_ids (user : string) (body : Body)
  (newId : ObjectId) (db : DB) :
  map JobCategory._id
    (jobCategories (snd (postJob Job_attributes_valid user body newId db)))
  = map JobCategory._id (jobCategories db).
Proof.
  rewrite postJob_steps.
  destruct (fields_missing user body); [reflexivity |].
  destruct (castObjectId (field "company" body)) as [[co |] |];
    try reflexivity.
  destruct (findOne (has_id Company._id co) (companies db)); [| reflexivity].
  destruct (cast_in (field "categories" body)) as [os |]; [| reflexivity].
  destruct (num_strict_neq _ _); [reflexivity |].
  destruct (Job_create_outcome (job_inputs user body) newId db)
    as [[job [-> _]] | [e ->]]; [| reflexivity].
  simpl. now apply updateMany_ids.
Qed.
End JobBoardProperties.

(** ** The identifiers of a collection stay unique *)

(** [createJobCategory] is the one handler that adds a category; with a
    fresh identifier the ids of the collection stay pairwise distinct. *)
Lemma createJobCategory_keeps_ids_unique (body : Body) (newId : ObjectId) (db : DB) :
  NoDup (map JobCategory._id (jobCategories db)) ->
  ~ In newId (map JobCategory._id (jobCategories db)) ->
  NoDup (map JobCategory._id (jobCategories (snd (createJobCategory body newId db)))).
Proof.
  intros Hnd Hfresh. unfold createJobCategory, try_catch. cbv zeta.
  rewrite sanitizeInput_object.
  change (js_get "name" (JObj [("name", field "name" body)]))
    with (field "name" body).
  destruct (truthy (field "name" body)); [| exact Hnd].
  unfold JobCategory_findOne_name, JobCategory_create, required_string,
    required, of_cast.
  change (js_get "name" (JObj [("name", field "name" body)]))
    with (field "name" body).
  destruct (castString (field "name" body)) as [[n |] |]; try exact Hnd.
  run.
  destruct (findOne _ (jobCategories db)); [exact Hnd |].
  destruct (String.eqb n ""); [exact Hnd |].
  simpl. rewrite map_app. now apply NoDup_snoc.
Qed.

(** ** deleteJob *)

Lemma deleteJob_steps (id : string) (db : DB) :
  deleteJob id db =
  if is_hex24 id then
    match findOne (has_id Job._id (toLowerCase id)) (jobs db) with
    | Some _ =>
        (json 200 true "Job deleted successfully" NoData,
         unlink_job (toLowerCase id)
           (set_jobs (deleteOne (has_id Job._id (toLowerCase id)) (jobs db)) db))
    | None => (json 404 false "Job not found" NoData, db)
    end
  else (json 400 false "Invalid Job ID" NoData, db).
Proof.
  unfold deleteJob, try_catch, Job_findByIdAndDelete, JobCategory_pull_job,
    Company_pull_job, of_cast.
  cbn [ObjectId_isValid castObjectId].
  destruct (is_hex24 id); [| reflexivity].
  run.
  destruct (findOne (has_id Job._id (toLowerCase id)) (jobs db)); reflexivity.
Qed.

(** C2: after a job is deleted (200) no company and no category lists its
    id, and the Application collection is the one from before, document
    for document. *)
Theorem deleteJob_unlinks_and_keeps_applications (id : string) (db db' : DB)
  (r : Response) :
  deleteJob id db = (r, db') ->
  status r = 200 ->
  castObjectId (JStr id) = Casted (Some (toLowerCase id))
  /\ (exists job, In job (jobs db) /\ Job._id job = toLowerCase id)
  /\ (forall c, In c (companies db') ->
                ~ In (toLowerCase id) (Company.jobs c))
  /\ (forall k, In k (jobCategories db') ->
                ~ In (toLowerCase id) (JobCategory.jobs k))
  /\ applications db' = applications db.
Proof.
  intros Hrun Hst. rewrite deleteJob_steps in Hrun.
  destruct (is_hex24 id) eqn:Hhex; [| inversion Hrun; subst; discriminate].
  destruct (findOne (has_id Job._id (toLowerCase id)) (jobs db)) as [job |] eqn:Hjob;
    [| inversion Hrun; subst; discriminate].
  inversion Hrun; subst r db'. clear Hrun Hst.
  split; [simpl; now rewrite Hhex |].
  split.
  { exists job. apply findOne_Some in Hjob. destruct Hjob as [Hin Hid].
    split; [assumption | now apply oid_eqb_eq]. }
  split; [| split; [| reflexivity]].
  - intros c Hc. simpl in Hc. apply updateMany_inv in Hc.
    destruct Hc as [d [_ ->]].
    destruct (contains (toLowerCase id) (Company.jobs d)) eqn:E.
    + simpl. apply pull_not_In.
    + intros Hin. apply contains_In in Hin. congruence.
  - intros k Hk. simpl in Hk. apply updateMany_inv in Hk.
    destruct Hk as [d [_ ->]].
    destruct (contains (toLowerCase id) (JobCategory.jobs d)) eqn:E.
    + simpl. apply pull_not_In.
    + intros Hin. apply contains_In in Hin. congruence.
Qed.

Lemma deleteJob_keeps_category_ids (id : string) (db : DB) :
  map JobCategory._id (jobCategories (snd (deleteJob id db)))
  = map JobCategory._id (jobCategories db).
Proof.
  rewrite deleteJob_steps. destruct (is_hex24 id); [| reflexivity].
  destruct (findOne _ (jobs db)); [| reflexivity].
  simpl. now apply updateMany_ids.
Qed.

(** ** getCompanyById *)

(** [ObjectId.isValid({ id })] reads the object through its [id]. *)
Lemma isValid_id_object (id : string) :
  ObjectId_isValid (JObj [("id", JStr id)]) = ObjectId_isValid (JStr id).
Proof. reflexivity. Qed.

Lemma getCompanyById_steps (id : string) (db : DB) :
  getCompanyById id db =
  if ObjectId_isValid (JStr id) then
    match findOne (has_id Company._id (toLowerCase id)) (companies db) with
    | Some company =>
        (json 200 true "Company found successfully" (CompanyData company), db)
    | None => (json 404 false "Company not found" NoData, db)
    end
  else (json 400 false "Invalid Company ID" NoData, db).
Proof.
  unfold getCompanyById, try_catch, Company_findById, of_cast.
  rewrite isValid_id_object. cbn [ObjectId_isValid castObjectId].
  destruct (is_hex24 id); [| reflexivity].
  run.
  destruct (findOne (has_id Company._id (toLowerCase id)) (companies db));
    reflexivity.
Qed.

(** C4: [getCompanyById] answers 400 exactly when the identifier is not a
    valid ObjectId; for a valid one it answers 404 when no company has the
    id and otherwise 200 with a stored company of that id.  It never
    writes. *)
Theorem getCompanyById_outcomes (id : string) (db : DB) :
  let (r, db') := getCompanyById id db in
  db' = db
  /\ (status r = 400 <-> ObjectId_isValid (JStr id) = false)
  /\ (ObjectId_isValid (JStr id) = true ->
      (forall c, In c (companies db) -> Company._id c <> toLowerCase id) ->
      status r = 404 /\ success r = false)
  /\ (ObjectId_isValid (JStr id) = true ->
      (exists c, In c (companies db) /\ Company._id c = toLowerCase id) ->
      exists c, r = json 200 true "Company found successfully" (CompanyData c)
                /\ In c (companies db) /\ Company._id c = toLowerCase id).
Proof.
  rewrite getCompanyById_steps.
  destruct (ObjectId_isValid (JStr id)) eqn:Hvalid.
  - destruct (findOne (has_id Company._id (toLowerCase id)) (companies db))
      as [c |] eqn:Hfind.
    + apply findOne_Some in Hfind. destruct Hfind as [Hin Hid].
      apply oid_eqb_eq in Hid.
      split; [reflexivity |]. split; [simpl; split; discriminate |].
      split.
      * intros _ Hnone. exfalso. now apply (Hnone c).
      * intros _ _. exists c. now repeat split.
    + pose proof (findOne_None _ _ Hfind) as Hnone.
      split; [reflexivity |]. split; [simpl; split; discriminate |].
      split.
      * intros _ _. now split.
      * intros _ [c [Hin Hid]]. specialize (Hnone c Hin).
        unfold has_id in Hnone. rewrite Hid, oid_eqb_refl in Hnone.
        discriminate.
  - split; [reflexivity |]. split; [simpl; now split |].
    split; intros; discriminate.
Qed.

(** ** createCompany *)

Lemma createCompany_steps (user : string) (body : Body) (newId : ObjectId)
  (db : DB) :
  createCompany user body newId db =
  if company_fields_missing body then
    (json 400 false "All fields are required" NoData, db)
  else
    match castString (field "name" body) with
    | CastFailed => (internal_error server_error (CastError "name"), db)
    | Casted n =>
        if is_some match n with
                   | Some n =>
                       findOne (fun c => String.eqb (Company.name c) n)
                         (companies db)
                   | None => None
                   end
        then (json 400 false
                ("Company with name " ++ js_toString (field "name" body)
                 ++ " already exists.") NoData, db)
        else
          match Company_create (company_inputs user body) newId db with
          | (Continue company, db1) =>
              (json 201 true "Company created successfully"
                 (CompanyData company), db1)
          | (Respond r, db1) => (r, db1)
          | (Throw e, db1) => (internal_error server_error e, db1)
          end
    end.
Proof.
  unfold createCompany, try_catch. cbv zeta. rewrite sanitizeInput_object.
  fold (company_inputs user body). fold (company_fields_missing body).
  destruct (company_fields_missing body); [reflexivity |].
  rewrite return_if_false.
  change (js_get "name" (company_inputs user body)) with (field "name" body).
  unfold Company_findOne_name, of_cast.
  destruct (castString (field "name" body)) as [n |]; [| reflexivity].
  unfold bind at 1 2 3. unfold ret at 1 2. unfold get_db. cbv beta iota.
  match goal with
  | |- context [return_if (is_some ?x)] => destruct (is_some x)
  end; [reflexivity |].
  rewrite return_if_false. unfold bind at 1.
  destruct (Company_create (company_inputs user body) newId db)
    as [[c | r | e] db1]; reflexivity.
Qed.

Lemma Company_create_outcome (user : string) (body : Body) (newId : ObjectId)
  (db : DB) :
  (exists c, Company_create (company_inputs user body) newId db
             = (Continue c, set_companies (companies db ++ [c]) db)
             /\ Company._id c = newId
             /\ Company.userId c = [toLowerCase user])
  \/ (exists e, Company_create (company_inputs user body) newId db = (Throw e, db)).
Proof.
  unfold Company_create, required_string, required, optional, required_ids.
  change (js_get "name" (company_inputs user body)) with (field "name" body).
  change (js_get "description" (company_inputs user body))
    with (field "description" body).
  change (js_get "website" (company_inputs user body)) with (field "website" body).
  change (js_get "location" (company_inputs user body))
    with (field "location" body).
  change (js_get "userId" (company_inputs user body)) with (JStr user).
  destruct (castString (field "name" body)) as [[n |] |];
    try (right; eexists; reflexivity).
  run. destruct (String.eqb n ""); [right; eexists; reflexivity |].
  destruct (castString (field "description" body)) as [d |];
    [| right; eexists; reflexivity].
  destruct (castString (field "website" body)) as [w' |];
    [| right; eexists; reflexivity].
  destruct (castString (field "location" body)) as [l |];
    [| right; eexists; reflexivity].
  cbn [castObjectIdArray castObjectIds castObjectId].
  destruct (is_hex24 user); [| right; eexists; reflexivity].
  cbn [all_some]. left. eexists. repeat split.
Qed.

(** C10: a body without a (truthy) [userId] is answered 400; a company that
    is created is owned by the caller's id; and the value the body gives
    for [userId] has no influence on the answer or on the database. *)
Theorem createCompany_owner_is_caller (user : string) (newId : ObjectId) (db : DB) :
  (forall body, truthy (field "userId" body) = false ->
     createCompany user body newId db
     = (json 400 false "All fields are required" NoData, db))
  /\ (forall body r db',
        createCompany user body newId db = (r, db') -> status r = 201 ->
        exists c, payload r = CompanyData c
                  /\ companies db' = companies db ++ [c]
                  /\ Company.userId c = [toLowerCase user])
  /\ (forall body1 body2,
        (forall k, In k ["name"; "description"; "website"; "location"] ->
                   field k body1 = field k body2) ->
        truthy (field "userId" body1) = true ->
        truthy (field "userId" body2) = true ->
        createCompany user body1 newId db = createCompany user body2 newId db).
Proof.
  split; [| split].
  - intros body Hu. rewrite createCompany_steps.
    unfold company_fields_missing. rewrite Hu. simpl.
    now rewrite !orb_true_r.
  - intros body r db' Hrun Hst. rewrite createCompany_steps in Hrun.
    destruct (company_fields_missing body);
      [inversion Hrun; subst; discriminate |].
    destruct (castString (field "name" body)) as [n |];
      [| inversion Hrun; subst; discriminate].
    destruct (is_some _); [inversion Hrun; subst; discriminate |].
    destruct (Company_create_outcome user body newId db)
      as [[c [Hc [_ Hu]]] | [e He]].
    + rewrite Hc in Hrun. inversion Hrun; subst. exists c. now repeat split.
    + rewrite He in Hrun. inversion Hrun; subst. discriminate.
  - intros body1 body2 Hsame H1 H2. rewrite !createCompany_steps.
    unfold company_fields_missing, company_inputs. rewrite H1, H2.
    rewrite (Hsame "name"), (Hsame "description"), (Hsame "website"),
      (Hsame "location") by (simpl; tauto).
    reflexivity.
Qed.

(** ** The setters of the email path are idempotent *)

Lemma lower_char_idem (c : ascii) : lower_char (lower_char c) = lower_char c.
Proof. destruct c as [[] [] [] [] [] [] [] []]; reflexivity. Qed.

Lemma is_space_lower_char (c : ascii) : is_space (lower_char c) = is_space c.
Proof. destruct c as [[] [] [] [] [] [] [] []]; reflexivity. Qed.

Lemma toLowerCase_idem (s : string) : toLowerCase (toLowerCase s) = toLowerCase s.
Proof.
  induction s as [| c s IH]; simpl; [reflexivity |].
  now rewrite lower_char_idem, IH.
Qed.

Lemma trim_start_toLowerCase (s : string) :
  trim_start (toLowerCase s) = toLowerCase (trim_start s).
Proof.
  induction s as [| c s IH]; simpl; [reflexivity |].
  rewrite is_space_lower_char. now destruct (is_space c).
Qed.

Lemma string_rev_onto_toLowerCase (s acc : string) :
  string_rev_onto (toLowerCase s) (toLowerCase acc)
  = toLowerCase (string_rev_onto s acc).
Proof.
  revert acc. induction s as [| c s IH]; intros acc; simpl; [reflexivity |].
  now rewrite <- IH.
Qed.

Lemma string_rev_toLowerCase (s : string) :
  string_rev (toLowerCase s) = toLowerCase (string_rev s).
Proof. apply (string_rev_onto_toLowerCase s EmptyString). Qed.

Lemma trim_toLowerCase (s : string) : trim (toLowerCase s) = toLowerCase (trim s).
Proof.
  unfold trim.
  now rewrite trim_start_toLowerCase, string_rev_toLowerCase,
    trim_start_toLowerCase, string_rev_toLowerCase.
Qed.

Lemma append_assoc (a b c : string) :
  ((a ++ b) ++ c)%string = (a ++ (b ++ c))%string.
Proof. induction a as [| x a IH]; simpl; [reflexivity | now rewrite IH]. Qed.

Lemma string_rev_onto_append (s acc : string) :
  string_rev_onto s acc = (string_rev s ++ acc)%string.
Proof.
  unfold string_rev. revert acc.
  induction s as [| c s IH]; intros acc; simpl; [reflexivity |].
  rewrite IH, (IH (String c EmptyString)).
  now rewrite append_assoc.
Qed.

Lemma append_empty_r (s : string) : (s ++ "")%string = s.
Proof. induction s as [| c s IH]; simpl; [reflexivity | now rewrite IH]. Qed.

Lemma string_rev_cons (c : ascii) (s : string) :
  string_rev (String c s) = (string_rev s ++ String c EmptyString)%string.
Proof. unfold string_rev at 1. simpl. apply string_rev_onto_append. Qed.

Lemma string_rev_append (a b : string) :
  string_rev (a ++ b) = (string_rev b ++ string_rev a)%string.
Proof.
  induction a as [| c a IH]; simpl.
  - now rewrite append_empty_r.
  - now rewrite !string_rev_cons, IH, append_assoc.
Qed.

Lemma string_rev_involutive (s : string) : string_rev (string_rev s) = s.
Proof.
  induction s as [| c s IH]; [reflexivity |].
  now rewrite string_rev_cons, string_rev_append, IH.
Qed.

Lemma trim_start_clean (s : string) : starts_clean (trim_start s).
Proof.
  induction s as [| c s IH]; simpl; [exact I |].
  destruct (is_space c) eqn:E; [exact IH | exact E].
Qed.

Lemma trim_start_of_clean (s : string) : starts_clean s -> trim_start s = s.
Proof. destruct s as [| c s]; simpl; [reflexivity |]. now intros ->. Qed.

Lemma trim_start_suffix (s : string) :
  exists prefix, s = (prefix ++ trim_start s)%string.
Proof.
  induction s as [| c s [prefix IH]]; simpl.
  - now exists EmptyString.
  - destruct (is_space c).
    + exists (String c prefix). simpl. now rewrite <- IH.
    + now exists EmptyString.
Qed.

Lemma starts_clean_append (a b : string) :
  starts_clean (a ++ b) -> starts_clean a.
Proof. destruct a; simpl; [trivial | tauto]. Qed.

Lemma trim_idem (s : string) : trim (trim s) = trim s.
Proof.
  unfold trim.
  set (t := trim_start s).
  set (v := trim_start (string_rev t)).
  assert (Hclean : starts_clean (string_rev v)).
  { destruct (trim_start_suffix (string_rev t)) as [prefix Hp]. fold v in Hp.
    apply (f_equal string_rev) in Hp.
    rewrite string_rev_involutive, string_rev_append in Hp.
    apply (starts_clean_append _ (string_rev prefix)). rewrite <- Hp.
    apply trim_start_clean. }
  rewrite (trim_start_of_clean _ Hclean), string_rev_involutive.
  now rewrite (trim_start_of_clean v (trim_start_clean _)).
Qed.

Lemma email_setters_idem (s : string) :
  email_setters (email_setters s) = email_setters s.
Proof.
  unfold email_setters.
  now rewrite <- trim_toLowerCase, toLowerCase_idem, trim_idem.
Qed.

(** ** createUser *)

Section UserDirectoryProperties.
Variable cloudinary_upload : File -> option string.
Variable bcrypt_hash : string -> string -> string.
Variable profile_cast : JsVal -> CastResult JsVal.

(** C7: a registration whose email equals, case aside, the email of a
    stored user is refused with 400 and the database is left as it was;
    when the request carries all five required fields the refusal is the
    duplicate-email answer. *)
Theorem createUser_duplicate_email (body : Body) (file : option File)
  (salt : string) (newId : ObjectId) (db : DB) (e : string) (u : User.doc) :
  emails_normalised db ->
  field "email" body = JStr e ->
  In u (users db) ->
  toLowerCase e = toLowerCase (User.email u) ->
  let (r, db') :=
    createUser cloudinary_upload bcrypt_hash profile_cast body file salt
      newId db in
  db' = db /\ status r = 400 /\ success r = false
  /\ (user_fields_present body ->
      r = json 400 false "User with this email already exists" NoData).
Proof.
  intros Hnorm He Hu Hcase. unfold createUser, try_catch. cbv zeta.
  assert (Hfound : exists u', findOne
            (fun u0 => String.eqb (User.email u0) (email_setters e))
            (users db) = Some u').
  { apply (findOne_exists _ _ u Hu). apply String.eqb_eq.
    unfold email_setters at 1. rewrite Hcase. apply (Hnorm u Hu). }
  destruct Hfound as [u' Hfound].
  destruct (negb (truthy (field "name" body))
            || negb (truthy (field "email" body))
            || negb (truthy (field "phone" body))
            || negb (truthy (field "password" body))
            || negb (truthy (field "role" body))) eqn:Hmiss.
  - run. repeat split; try reflexivity.
    intros [Hn [Hem [Hp [Hpw Hr]]]].
    rewrite Hn, Hem, Hp, Hpw, Hr in Hmiss. discriminate.
  - rewrite He. unfold User_findOne_email, of_cast. cbn [castString].
    run. rewrite Hfound. repeat split; reflexivity.
Qed.

Lemma User_create_outcome (input : JsVal) (salt : string) (newId : ObjectId)
  (db : DB) :
  (exists u e,
      User_create bcrypt_hash profile_cast input salt newId db
      = (Continue u, set_users (users db ++ [u]) db)
      /\ castString (js_get "email" input) = Casted (Some e)
      /\ User.email u = email_setters e
      /\ existsb (fun u' => String.eqb (User.email u') (User.email u))
           (users db) = false
      /\ User._id u = newId)
  \/ (exists e, User_create bcrypt_hash profile_cast input salt newId db
                = (Throw e, db)).
Proof.
  unfold User_create, required_string, required, of_cast.
  destruct (castString (js_get "name" input)) as [[n |] |];
    try (right; eexists; reflexivity).
  run. destruct (String.eqb (trim n) ""); [right; eexists; reflexivity |].
  destruct (castString (js_get "email" input)) as [[e |] |];
    try (right; eexists; reflexivity).
  destruct (String.eqb (email_setters e) ""
            || (if re_test email_pattern (email_setters e) then false else true));
    [right; eexists; reflexivity |].
  destruct (castString (js_get "phone" input)) as [[ph |] |];
    try (right; eexists; reflexivity).
  destruct (String.eqb ph ""); [right; eexists; reflexivity |].
  destruct (re_test phone_pattern ph); [| right; eexists; reflexivity].
  destruct (castString (js_get "password" input)) as [[pw |] |];
    try (right; eexists; reflexivity).
  destruct (String.eqb pw ""); [right; eexists; reflexivity |].
  destruct (String.length pw <? 6)%nat; [right; eexists; reflexivity |].
  destruct (castString (js_get "role" input)) as [[ro |] |];
    try (right; eexists; reflexivity).
  destruct (String.eqb ro ""); [right; eexists; reflexivity |].
  destruct (existsb (String.eqb ro) ["user"; "recruiter"]);
    [| right; eexists; reflexivity].
  destruct (profile_cast (js_get "profile" input)) as [pr |];
    [| right; eexists; reflexivity].
  destruct (existsb _ (users db)) eqn:Hdup; [right; eexists; reflexivity |].
  left. eexists. exists e. repeat split. exact Hdup.
Qed.

(** What [createUser] can do to the database: nothing, or append one
    user whose email went through the setters and was not stored yet. *)
Lemma createUser_outcome (body : Body) (file : option File) (salt : string)
  (newId : ObjectId) (db : DB) :
  let db' := snd (createUser cloudinary_upload bcrypt_hash profile_cast body
                    file salt newId db) in
  db' = db
  \/ (exists u e, db' = set_users (users db ++ [u]) db
                  /\ User.email u = email_setters e
                  /\ existsb (fun u' => String.eqb (User.email u') (User.email u))
                       (users db) = false
                  /\ User._id u = newId).
Proof.
  unfold createUser, try_catch. cbv zeta.
  match goal with
  | |- context [return_if ?c _] => destruct c
  end; [now left |].
  rewrite return_if_false.
  unfold User_findOne_email, of_cast.
  destruct (castString (field "email" body)) as [e |]; [| now left].
  run.
  match goal with
  | |- context [match ?x with Some _ => true | None => false end] =>
      destruct x
  end; [now left |].
  destruct file as [f |]; [destruct (cloudinary_upload f) as [url |] |];
    try (now left);
    match goal with
    | |- context [User_create _ _ ?i _ _ _] =>
        destruct (User_create_outcome i salt newId db)
          as [[u [e' [Hc [_ [He [Hd Hi]]]]]] | [e' Ht]];
        [rewrite Hc; right; exists u, e'; now repeat split
        | rewrite Ht; now left]
    end.
Qed.

(** [createUser] stores only emails that went through the setters. *)
Lemma createUser_keeps_emails_normalised (body : Body) (file : option File)
  (salt : string) (newId : ObjectId) (db : DB) :
  emails_normalised db ->
  emails_normalised
    (snd (createUser cloudinary_upload bcrypt_hash profile_cast body file
            salt newId db)).
Proof.
  intros Hnorm.
  destruct (createUser_outcome body file salt newId db)
    as [-> | [u [e [-> [He _]]]]]; [assumption |].
  intros u' Hin. simpl in Hin. apply in_app_or in Hin.
  destruct Hin as [Hin | [<- | []]]; [now apply Hnorm |].
  rewrite He. symmetry. apply email_setters_idem.
Qed.

(** X22: [createUser] keeps the emails of the collection pairwise
    distinct: the unique index refuses a second document with a stored
    email. *)
Lemma createUser_keeps_emails_unique (body : Body) (file : option File)
  (salt : string) (newId : ObjectId) (db : DB) :
  NoDup (map User.email (users db)) ->
  NoDup (map User.email
           (users (snd (createUser cloudinary_upload bcrypt_hash profile_cast
                          body file salt newId db)))).
Proof.
  intros Hnd.
  destruct (createUser_outcome body file salt newId db)
    as [-> | [u [e [-> [_ [Hdup _]]]]]]; [assumption |].
  simpl. rewrite map_app. simpl. apply NoDup_snoc; [assumption |].
  intros Hin. apply in_map_iff in Hin. destruct Hin as [u' [Heq Hin']].
  assert (Hex : existsb (fun u0 => String.eqb (User.email u0) (User.email u))
                  (users db) = true).
  { apply existsb_exists. exists u'. split; [assumption |].
    now apply String.eqb_eq. }
  congruence.
Qed.
End UserDirectoryProperties.

(** ** applyJob *)

Lemma applyJob_steps (user jobId : string) (body : Body) (newId : ObjectId)
  (db : DB) :
  applyJob user jobId body newId db =
  match castObjectId (JStr jobId) with
  | CastFailed => (internal_error server_error (CastError "_id"), db)
  | Casted None => (json 404 false "Job not found." NoData, db)
  | Casted (Some j) =>
      match findOne (has_id Job._id j) (jobs db) with
      | None => (json 404 false "Job not found." NoData, db)
      | Some _ =>
          match castObjectId (JStr user) with
          | CastFailed =>
              (internal_error server_error (CastError "applicant"), db)
          | Casted None =>
              try_catch
                (return_if (negb (truthy (field "resume" body)))
                   (json 400 false "Resume is required." NoData) ;;;
                 newApplication <-
                   Application_create
                     (JObj [("resume", field "resume" body);
                            ("coverLetter", field "coverLetter" body);
                            ("job", JStr jobId); ("applicant", JStr user)])
                     newId ;;
                 Job_push_applicant (JStr jobId)
                   (Application._id newApplication) ;;;
                 ret (json 201 true "Application submitted successfully."
                        (ApplicationData newApplication)))
                (internal_error server_error) db
          | Casted (Some a) =>
              match findOne (fun d => oid_eqb (Application.applicant d) a
                                      && oid_eqb (Application.job d) j)
                      (applications db) with
              | Some _ =>
                  (json 400 false "You have already applied for this job."
                     NoData, db)
              | None =>
                  try_catch
                    (return_if (negb (truthy (field "resume" body)))
                       (json 400 false "Resume is required." NoData) ;;;
                     newApplication <-
                       Application_create
                         (JObj [("resume", field "resume" body);
                                ("coverLetter", field "coverLetter" body);
                                ("job", JStr jobId); ("applicant", JStr user)])
                         newId ;;
                     Job_push_applicant (JStr jobId)
                       (Application._id newApplication) ;;;
                     ret (json 201 true "Application submitted successfully."
                            (ApplicationData newApplication)))
                    (internal_error server_error) db
              end
          end
      end
  end.
Proof.
  unfold applyJob, try_catch. cbv zeta. rewrite sanitizeInput_object.
  unfold Job_findById, Application_findOne_pair, of_cast.
  destruct (castObjectId (JStr jobId)) as [[j |] |]; try reflexivity.
  run. destruct (findOne (has_id Job._id j) (jobs db)); [| reflexivity].
  destruct (castObjectId (JStr user)) as [[a |] |]; try reflexivity.
  destruct (findOne _ (applications db)); reflexivity.
Qed.

(** C8, as amended: when an Application of the pair is stored, a further
    [apply] for the pair creates nothing and leaves the count of the pair
    as it was; it is answered with the already-applied 400 while the Job is
    stored, and with 404 once the Job is gone. *)
Theorem applyJob_again (user jobId : string) (body : Body) (newId : ObjectId)
  (db : DB) (a : Application.doc) :
  In a (applications db) ->
  castObjectId (JStr user) = Casted (Some (Application.applicant a)) ->
  castObjectId (JStr jobId) = Casted (Some (Application.job a)) ->
  let (r, db') := applyJob user jobId body newId db in
  db' = db
  /\ pair_count (Application.applicant a) (Application.job a) db'
     = pair_count (Application.applicant a) (Application.job a) db
  /\ ((exists j, In j (jobs db) /\ Job._id j = Application.job a) ->
      r = json 400 false "You have already applied for this job." NoData)
  /\ ((forall j, In j (jobs db) -> Job._id j <> Application.job a) ->
      r = json 404 false "Job not found." NoData).
Proof.
  intros Hin Hu Hj. rewrite applyJob_steps, Hj.
  destruct (findOne (has_id Job._id (Application.job a)) (jobs db))
    as [j |] eqn:Hjob.
  - rewrite Hu.
    destruct (findOne_exists
                (fun d => oid_eqb (Application.applicant d) (Application.applicant a)
                          && oid_eqb (Application.job d) (Application.job a))
                (applications db) a Hin) as [a' Ha'].
    { now rewrite !oid_eqb_refl. }
    rewrite Ha'. repeat split; try reflexivity.
    intros Hnone. exfalso. apply findOne_Some in Hjob.
    destruct Hjob as [Hjin Hjid]. apply oid_eqb_eq in Hjid.
    now apply (Hnone j Hjin).
  - repeat split; try reflexivity.
    intros [j [Hjin Hjid]]. exfalso.
    pose proof (findOne_None _ _ Hjob j Hjin) as Hno.
    unfold has_id in Hno. rewrite Hjid, oid_eqb_refl in Hno. discriminate.
Qed.

Lemma findOne_None_count {D : Type} (matches : D -> bool) (docs : list D) :
  findOne matches docs = None -> findAll matches docs = [].
Proof.
  unfold findOne, findAll. induction docs as [| d docs IH]; simpl; [reflexivity |].
  destruct (matches d); [discriminate | exact IH].
Qed.

Lemma castObjectId_string (s : string) (o : option ObjectId) :
  castObjectId (JStr s) = Casted o -> o = Some (toLowerCase s).
Proof.
  simpl. destruct (is_hex24 s); [| discriminate]. intros H. now inversion H.
Qed.

(** What the tail of [applyJob] does once the job is found and no
    application of the pair is stored. *)
Lemma applyJob_create_outcome (user jobId : string) (body : Body)
  (newId : ObjectId) (db : DB) (a j : ObjectId) (r : Response) (db' : DB) :
  castObjectId (JStr user) = Casted (Some a) ->
  castObjectId (JStr jobId) = Casted (Some j) ->
  try_catch
    (return_if (negb (truthy (field "resume" body)))
       (json 400 false "Resume is required." NoData) ;;;
     newApplication <-
       Application_create
         (JObj [("resume", field "resume" body);
                ("coverLetter", field "coverLetter" body);
                ("job", JStr jobId); ("applicant", JStr user)])
         newId ;;
     Job_push_applicant (JStr jobId) (Application._id newApplication) ;;;
     ret (json 201 true "Application submitted successfully."
            (ApplicationData newApplication)))
    (internal_error server_error) db = (r, db') ->
  status r = 201 ->
  exists app,
    Application.applicant app = a /\ Application.job app = j
    /\ Application._id app = newId
    /\ applications db' = applications db ++ [app]
    /\ jobs db'
       = updateOne (has_id Job._id j)
           (fun x => Job.mk (Job._id x) (Job.attributes x) (Job.company x)
                       (Job.categories x) (Job.postedBy x)
                       (push newId (Job.applicants x)))
           (jobs db).
Proof.
  intros Hu Hj Hrun Hst. unfold try_catch in Hrun.
  destruct (truthy (field "resume" body));
    [| run_in Hrun; inversion Hrun; subst; discriminate].
  unfold Application_create, Job_push_applicant, required_string, required,
    optional, of_cast in Hrun.
  change (js_get "job" (JObj _)) with (JStr jobId) in Hrun.
  change (js_get "applicant" (JObj _)) with (JStr user) in Hrun.
  change (js_get "resume" (JObj _)) with (field "resume" body) in Hrun.
  change (js_get "coverLetter" (JObj _)) with (field "coverLetter" body) in Hrun.
  rewrite Hu, Hj in Hrun. run_in Hrun.
  destruct (castString (field "resume" body)) as [[res |] |];
    try (inversion Hrun; subst; discriminate).
  destruct (String.eqb res "");
    [inversion Hrun; subst; discriminate |].
  destruct (castString (field "coverLetter" body)) as [cl |];
    [| inversion Hrun; subst; discriminate].
  inversion Hrun; subst r db'.
  exists (Application.mk newId j a res "Applied" (option_map trim cl)).
  repeat split; reflexivity.
Qed.

(** X23: two applications in a row: the first one
    succeeds, so no application of the pair was stored before it and one is
    stored after it; the second one is refused and the count stays 1. *)
Lemma applyJob_twice (user jobId : string) (body1 : Body) (id1 : ObjectId)
  (db0 db1 : DB) (r1 : Response) :
  applyJob user jobId body1 id1 db0 = (r1, db1) ->
  status r1 = 201 ->
  pair_count (toLowerCase user) (toLowerCase jobId) db0 = 0%nat
  /\ pair_count (toLowerCase user) (toLowerCase jobId) db1 = 1%nat
  /\ forall body2 id2,
       applyJob user jobId body2 id2 db1
       = (json 400 false "You have already applied for this job." NoData, db1).
Proof.
  intros Hrun Hst. rewrite applyJob_steps in Hrun.
  destruct (castObjectId (JStr jobId)) as [[j |] |] eqn:Hj;
    try (inversion Hrun; subst; discriminate).
  destruct (findOne (has_id Job._id j) (jobs db0)) as [job |] eqn:Hjob;
    [| inversion Hrun; subst; discriminate].
  destruct (castObjectId (JStr user)) as [[a |] |] eqn:Hu;
    try (inversion Hrun; subst; discriminate);
    [| apply castObjectId_string in Hu; discriminate].
  destruct (findOne _ (applications db0)) eqn:Hpair;
    [inversion Hrun; subst; discriminate |].
  destruct (applyJob_create_outcome _ _ _ _ _ a j _ _ Hu Hj Hrun Hst)
    as [app [Ha [Hjb [_ [Happs Hjobs]]]]].
  pose proof (castObjectId_string _ _ Hu) as Ea.
  pose proof (castObjectId_string _ _ Hj) as Ej.
  injection Ea as ->. injection Ej as ->.
  apply findOne_None_count in Hpair.
  assert (Hmatch : oid_eqb (Application.applicant app) (toLowerCase user)
                   && oid_eqb (Application.job app) (toLowerCase jobId) = true).
  { now rewrite Ha, Hjb, !oid_eqb_refl. }
  split; [| split].
  - unfold pair_count. now rewrite Hpair.
  - unfold pair_count, findAll in *. rewrite Happs, filter_app, Hpair.
    simpl. now rewrite Hmatch.
  - intros body2 id2. rewrite applyJob_steps, Hj, Hu, Hjobs.
    destruct (updateOne_In Job._id (toLowerCase jobId)
                (fun x => Job.mk (Job._id x) (Job.attributes x) (Job.company x)
                            (Job.categories x) (Job.postedBy x)
                            (push id1 (Job.applicants x)))
                (jobs db0) job (fun x => eq_refl) Hjob) as [_ Hfind].
    rewrite Hfind.
    destruct (findOne_exists
                (fun d => oid_eqb (Application.applicant d) (toLowerCase user)
                          && oid_eqb (Application.job d) (toLowerCase jobId))
                (applications db1) app) as [a' Ha']; [| assumption |].
    + rewrite Happs. apply in_or_app. right. now left.
    + now rewrite Ha'.
Qed.

(** [applyJob] writes only when it answers 201. *)
Lemma applyJob_writes_only_on_success (user jobId : string) (body : Body)
  (newId : ObjectId) (db : DB) :
  let (r, db') := applyJob user jobId body newId db in
  status r = 201 \/ db' = db.
Proof.
  rewrite applyJob_steps.
  assert (Htail :
    let (r, db') :=
      try_catch
        (return_if (negb (truthy (field "resume" body)))
           (json 400 false "Resume is required." NoData) ;;;
         newApplication <-
           Application_create
             (JObj [("resume", field "resume" body);
                    ("coverLetter", field "coverLetter" body);
                    ("job", JStr jobId); ("applicant", JStr user)])
             newId ;;
         Job_push_applicant (JStr jobId) (Application._id newApplication) ;;;
         ret (json 201 true "Application submitted successfully."
                (ApplicationData newApplication)))
        (internal_error server_error) db in
    status r = 201 \/ db' = db).
  { unfold try_catch.
    destruct (truthy (field "resume" body)); [| run; now right].
    unfold Application_create, Job_push_applicant, required_string, required,
      optional, of_cast.
    change (js_get "job" (JObj _)) with (JStr jobId).
    change (js_get "applicant" (JObj _)) with (JStr user).
    change (js_get "resume" (JObj _)) with (field "resume" body).
    change (js_get "coverLetter" (JObj _)) with (field "coverLetter" body).
    destruct (castObjectId (JStr jobId)) as [[j |] |]; try (run; now right).
    destruct (castObjectId (JStr user)) as [[a |] |]; try (run; now right).
    run.
    destruct (castString (field "resume" body)) as [[res |] |];
      try (now right).
    destruct (String.eqb res ""); [now right |].
    destruct (castString (field "coverLetter" body)); [now left | now right]. }
  destruct (castObjectId (JStr jobId)) as [[j |] |]; try (now right).
  destruct (findOne (has_id Job._id j) (jobs db)); [| now right].
  destruct (castObjectId (JStr user)) as [[a |] |];
    [| exact Htail | now right].
  destruct (findOne _ (applications db)); [now right | exact Htail].
Qed.

(** With a fresh identifier for the created document, [applyJob] keeps the
    ids of the Application collection pairwise distinct. *)
Lemma applyJob_keeps_ids_unique (user jobId : string) (body : Body)
  (newId : ObjectId) (db : DB) :
  NoDup (map Application._id (applications db)) ->
  ~ In newId (map Application._id (applications db)) ->
  NoDup (map Application._id
           (applications (snd (applyJob user jobId body newId db)))).
Proof.
  intros Hnd Hfresh.
  pose proof (applyJob_writes_only_on_success user jobId body newId db) as Hw.
  destruct (applyJob user jobId body newId db) as [r db'] eqn:Hrun.
  destruct Hw as [Hst | ->]; [| exact Hnd].
  rewrite applyJob_steps in Hrun.
  destruct (castObjectId (JStr jobId)) as [[j |] |] eqn:Hj;
    try (inversion Hrun; subst; discriminate).
  destruct (findOne (has_id Job._id j) (jobs db));
    [| inversion Hrun; subst; discriminate].
  destruct (castObjectId (JStr user)) as [[a |] |] eqn:Hu;
    try (inversion Hrun; subst; discriminate);
    [| apply castObjectId_string in Hu; discriminate].
  destruct (findOne _ (applications db));
    [inversion Hrun; subst; discriminate |].
  destruct (applyJob_create_outcome _ _ _ _ _ a j _ _ Hu Hj Hrun Hst)
    as [app [_ [_ [Hid [Happs _]]]]].
  simpl. rewrite Happs, map_app. simpl. rewrite Hid.
  now apply NoDup_snoc.
Qed.

(** ** updateApplicationStatus *)

Lemma includes_In (l : list string) (s : string) :
  includes l (JStr s) = true <-> In s l.
Proof.
  unfold includes. rewrite existsb_exists. split.
  - intros [x [Hin Heq]]. apply String.eqb_eq in Heq. now subst.
  - intros Hin. exists s. split; [assumption | apply String.eqb_refl].
Qed.

(** C9: a status string outside the enumeration is answered 400 and
    nothing is written; for a stored application, addressed by its id, and
    a status of the enumeration the answer is 200 and the stored status is
    the new one, whatever the status was. *)
Theorem updateApplicationStatus_enum (applicationId : string) (body : Body)
  (db : DB) (s : string) :
  field "status" body = JStr s ->
  (~ In s validStatuses ->
   let (r, db') := updateApplicationStatus applicationId body db in
   status r = 400 /\ success r = false /\ db' = db)
  /\ (In s validStatuses ->
      forall a, In a (applications db) ->
      NoDup (map Application._id (applications db)) ->
      castObjectId (JStr applicationId) = Casted (Some (Application._id a)) ->
      let (r, db') := updateApplicationStatus applicationId body db in
      r = json 200 true "Application status updated successfully."
            (ApplicationData (with_status s a))
      /\ findOne (has_id Application._id (Application._id a)) (applications db')
         = Some (with_status s a)
      /\ Application.status (with_status s a) = s
      /\ In (with_status s a) (applications db')).
Proof.
  intros Hs. unfold updateApplicationStatus, try_catch. cbv zeta. rewrite Hs.
  split.
  - intros Hout.
    assert (Hinc : includes validStatuses (JStr s) = false).
    { destruct (includes validStatuses (JStr s)) eqn:E; [| reflexivity].
      apply includes_In in E. contradiction. }
    rewrite Hinc.
    destruct (ObjectId_isValid (JStr applicationId));
      destruct (truthy (JStr s)); run; repeat split; reflexivity.
  - intros Hin a Ha Hnd Hid.
    assert (Hvalid : ObjectId_isValid (JStr applicationId) = true).
    { simpl in *. destruct (is_hex24 applicationId); [reflexivity | discriminate]. }
    assert (Htruthy : truthy (JStr s) = true).
    { simpl in Hin. simpl.
      repeat (destruct Hin as [<- | Hin]; [reflexivity |]). contradiction. }
    pose proof (proj2 (includes_In validStatuses s) Hin) as Hinc.
    rewrite Hvalid, Htruthy, Hinc.
    unfold Application_update_status, of_cast. rewrite Hid.
    cbn [castString]. unfold includes in Hinc.
    pose proof (findOne_unique Application._id _ a Hnd Ha) as Hfind.
    run. rewrite Hinc, Hfind.
    destruct (updateOne_In Application._id (Application._id a) (with_status s)
                (applications db) a (fun x => eq_refl) Hfind) as [Hin' Hfind'].
    repeat split; assumption.
Qed.

(** ** sanitizeInput *)

Lemma sanitizeInput_string (s : string) :
  sanitizeInput (JStr s) = JStr (validator_escape (trim s)).
Proof. reflexivity. Qed.

Lemma sanitizeInput_not_string (v : JsVal) :
  is_string v = false -> sanitizeInput v = v.
Proof. destruct v; try reflexivity. discriminate. Qed.

(** On a value that is neither an array nor an object the function of the
    source and the boundary of the specification agree. *)
Lemma sanitizeInput_agrees_on_leaves (v : JsVal) :
  match v with JArr _ | JObj _ => True | _ => sanitizeInput v = sanitizeDeep v end.
Proof. destruct v; reflexivity. Qed.

(** C5, the divergence: the object [{ name: "  <b>Acme</b>  " }] comes back
    from [sanitizeInput] with its string leaf untouched, where the
    recursive boundary of the specification trims and escapes it. *)
Theorem sanitizeInput_skips_nested_strings :
  sanitizeInput (JObj [("name", JStr "  <b>Acme</b>  ")])
  = JObj [("name", JStr "  <b>Acme</b>  ")]
  /\ sanitizeDeep (JObj [("name", JStr "  <b>Acme</b>  ")])
     = JObj [("name", JStr "&lt;b&gt;Acme&lt;&#x2F;b&gt;")]
  /\ sanitizeInput (JArr [JStr " a "]) = JArr [JStr " a "]
  /\ sanitizeInput (JObj [("name", JStr "  <b>Acme</b>  ")])
     <> sanitizeDeep (JObj [("name", JStr "  <b>Acme</b>  ")]).
Proof. repeat split; try reflexivity. discriminate. Qed.

(** ** The properties on the sample database *)

Lemma db_seed_category_ids_unique :
  NoDup (map JobCategory._id (jobCategories db_seed)).
Proof.
  simpl. repeat constructor; simpl; intuition discriminate.
Defined.

(** C6 at a request without [title]. *)
Lemma postJob_rejects_missing_checked_field_witness :
  postJob Job_attributes_required ann_id job_body_without_title job_id db_seed
  = (json 400 false "All required fields must be provided" NoData, db_seed).
Proof.
  apply (postJob_rejects_missing_checked_field Job_attributes_required ann_id
           job_body_without_title job_id db_seed "title").
  - simpl. tauto.
  - reflexivity.
Defined.

(** C6 as the specification words it fails on [salary], on [requirements] and on
    an empty category list: whatever the schema accepts, a request without
    [salary] and [requirements] is not answered 400 (201 when the schema
    lets the attributes be absent, 500 when it does not), and a request
    whose [categories] is the empty array creates a job. *)
Lemma postJob_missing_salary_not_bad_request :
  truthy (field "salary" job_body_without_salary) = false
  /\ truthy (field "requirements" job_body_without_salary) = false
  /\ (forall valid,
        status (fst (postJob valid ann_id job_body_without_salary job_id db_seed))
        <> 400)
  /\ status (fst (postJob (fun _ => true) ann_id job_body_without_salary
                    job_id db_seed)) = 201
  /\ jobs (snd (postJob (fun _ => true) ann_id job_body_without_salary
                  job_id db_seed)) <> jobs db_seed
  /\ status (fst (postJob Job_attributes_required ann_id
                    (job_body_with (JArr [])) job_id db_seed)) = 201
  /\ jobs (snd (postJob Job_attributes_required ann_id
                  (job_body_with (JArr [])) job_id db_seed)) <> jobs db_seed.
Proof.
  split; [reflexivity |]. split; [reflexivity |]. split.
  - intros valid. rewrite postJob_steps.
    destruct (Job_create_outcome valid (job_inputs ann_id job_body_without_salary)
                job_id db_seed) as [[job [Hjob _]] | [e He]].
    + vm_compute fields_missing. cbv iota.
      change (castObjectId (field "company" job_body_without_salary))
        with (Casted (Some acme_id)).
      cbv iota.
      change (findOne (has_id Company._id acme_id) (companies db_seed))
        with (Some acme).
      cbv iota.
      change (cast_in (field "categories" job_body_without_salary))
        with (Casted [Some engineering_id; Some design_id]).
      cbv iota.
      change (num_strict_neq _ _) with false. cbv iota.
      rewrite Hjob. simpl. discriminate.
    + vm_compute fields_missing. cbv iota.
      change (castObjectId (field "company" job_body_without_salary))
        with (Casted (Some acme_id)).
      cbv iota.
      change (findOne (has_id Company._id acme_id) (companies db_seed))
        with (Some acme).
      cbv iota.
      change (cast_in (field "categories" job_body_without_salary))
        with (Casted [Some engineering_id; Some design_id]).
      cbv iota.
      change (num_strict_neq _ _) with false. cbv iota.
      rewrite He. simpl. discriminate.
  - repeat split; try reflexivity; vm_compute; discriminate.
Qed.

(** C1 at two requests that differ in the second category only: the
    well-formed id of no stored category is answered 400, a text that is
    no ObjectId is answered 500.  Neither writes. *)
Lemma postJob_unresolved_category_witness :
  postJob Job_attributes_required ann_id
    (job_body_with (JArr [JStr engineering_id; JStr absent_id])) job_id db_seed
  = (json 400 false "One or more job categories are invalid" NoData, db_seed)
  /\ postJob Job_attributes_required ann_id
       (job_body_with (JArr [JStr engineering_id; JStr "not-an-id"]))
       job_id db_seed
     = (internal_error server_error (CastError "_id"), db_seed).
Proof.
  split.
  - pose proof (postJob_unresolved_category Job_attributes_required ann_id
                  (job_body_with (JArr [JStr engineering_id; JStr absent_id]))
                  job_id db_seed [JStr engineering_id; JStr absent_id]
                  (JStr absent_id)) as H.
    destruct (postJob Job_attributes_required ann_id
                (job_body_with (JArr [JStr engineering_id; JStr absent_id]))
                job_id db_seed) as [r db'].
    destruct H as (-> & _ & _ & H).
    + exact db_seed_category_ids_unique.
    + reflexivity.
    + simpl. tauto.
    + split; [reflexivity |]. intros o Ho. vm_compute in Ho.
      inversion Ho; subst o. simpl. intuition discriminate.
    + destruct H as [H _].
      * reflexivity.
      * exists acme_id, acme. split; reflexivity.
      * now rewrite (H [Some engineering_id; Some absent_id] eq_refl).
  - pose proof (postJob_unresolved_category Job_attributes_required ann_id
                  (job_body_with (JArr [JStr engineering_id; JStr "not-an-id"]))
                  job_id db_seed [JStr engineering_id; JStr "not-an-id"]
                  (JStr "not-an-id")) as H.
    destruct (postJob Job_attributes_required ann_id
                (job_body_with (JArr [JStr engineering_id; JStr "not-an-id"]))
                job_id db_seed) as [r db'].
    destruct H as (-> & _ & _ & H).
    + exact db_seed_category_ids_unique.
    + reflexivity.
    + simpl. tauto.
    + split; [reflexivity |]. intros o Ho. discriminate Ho.
    + destruct H as [_ H].
      * reflexivity.
      * exists acme_id, acme. split; reflexivity.
      * now rewrite (H (JStr "not-an-id")); [| simpl; tauto | |].
Defined.

(** C3 at the sample request. *)
Lemma postJob_links_company_and_categories_witness :
  (exists job,
      payload (fst (postJob Job_attributes_required ann_id job_body job_id db_seed))
      = JobData job
      /\ Job._id job = job_id /\ In job (jobs db_posted))
  /\ (exists c, In c (companies db_posted)
                /\ castObjectId (field "company" job_body)
                   = Casted (Some (Company._id c))
                /\ In job_id (Company.jobs c))
  /\ (exists items, field "categories" job_body = JArr items
       /\ forall v, In v items ->
          exists k, In k (jobCategories db_posted)
                    /\ castObjectId v = Casted (Some (JobCategory._id k))
                    /\ In job_id (JobCategory.jobs k)).
Proof.
  apply (postJob_links_company_and_categories Job_attributes_required ann_id
           job_body job_id db_seed db_posted
           (fst (postJob Job_attributes_required ann_id job_body job_id db_seed))).
  - exact db_seed_category_ids_unique.
  - reflexivity.
  - reflexivity.
Defined.

(** C2 at the deletion of the sample job, after an application to it. *)
Lemma deleteJob_unlinks_and_keeps_applications_witness :
  castObjectId (JStr job_id) = Casted (Some (toLowerCase job_id))
  /\ (exists job, In job (jobs db_applied) /\ Job._id job = toLowerCase job_id)
  /\ (forall c, In c (companies (snd (deleteJob job_id db_applied))) ->
                ~ In (toLowerCase job_id) (Company.jobs c))
  /\ (forall k, In k (jobCategories (snd (deleteJob job_id db_applied))) ->
                ~ In (toLowerCase job_id) (JobCategory.jobs k))
  /\ applications (snd (deleteJob job_id db_applied)) = applications db_applied.
Proof.
  apply (deleteJob_unlinks_and_keeps_applications job_id db_applied
           (snd (deleteJob job_id db_applied))
           (fst (deleteJob job_id db_applied))).
  - reflexivity.
  - reflexivity.
Defined.

(** C4 at the id of the stored company, written in upper case. *)
Lemma getCompanyById_outcomes_witness :
  exists c,
    fst (getCompanyById "64B7F0C2A1D3E4F5A6B7C8C1" db_seed)
    = json 200 true "Company found successfully" (CompanyData c)
    /\ In c (companies db_seed)
    /\ Company._id c = toLowerCase "64B7F0C2A1D3E4F5A6B7C8C1".
Proof.
  pose proof (getCompanyById_outcomes "64B7F0C2A1D3E4F5A6B7C8C1" db_seed) as H.
  destruct (getCompanyById "64B7F0C2A1D3E4F5A6B7C8C1" db_seed) as [r db'].
  destruct H as [_ [_ [_ H]]]. apply H.
  - reflexivity.
  - exists acme. split; [now left | reflexivity].
Defined.

(** C10 at a body whose [userId] names somebody else. *)
Lemma createCompany_owner_is_caller_witness :
  exists c,
    payload (fst (createCompany ann_id company_body absent_id db_seed))
    = CompanyData c
    /\ companies (snd (createCompany ann_id company_body absent_id db_seed))
       = companies db_seed ++ [c]
    /\ Company.userId c = [toLowerCase ann_id].
Proof.
  apply (proj1 (proj2 (createCompany_owner_is_caller ann_id absent_id db_seed))
           company_body
           (fst (createCompany ann_id company_body absent_id db_seed))
           (snd (createCompany ann_id company_body absent_id db_seed))).
  - reflexivity.
  - reflexivity.
Defined.

(** C7 at a registration that writes Ann's email in another case. *)
Lemma createUser_duplicate_email_witness :
  let (r, db') :=
    createUser upload_ok hash_tagged profile_as_given registration_body None
      "salt" absent_id db_seed in
  db' = db_seed /\ status r = 400 /\ success r = false
  /\ (user_fields_present registration_body ->
      r = json 400 false "User with this email already exists" NoData).
Proof.
  apply (createUser_duplicate_email upload_ok hash_tagged profile_as_given
           registration_body None "salt" absent_id db_seed "ANN@Example.com" ann).
  - intros u [<- | []]. reflexivity.
  - reflexivity.
  - simpl. tauto.
  - reflexivity.
Defined.

(** C8 at a second application of Ann to the sample job. *)
Lemma applyJob_again_witness :
  let a := Application.mk application_id job_id ann_id
             "https://files.example/ann.pdf" "Applied" None in
  let (r, db') := applyJob ann_id job_id application_body absent_id db_applied in
  db' = db_applied
  /\ pair_count (Application.applicant a) (Application.job a) db'
     = pair_count (Application.applicant a) (Application.job a) db_applied
  /\ ((exists j, In j (jobs db_applied) /\ Job._id j = Application.job a) ->
      r = json 400 false "You have already applied for this job." NoData)
  /\ ((forall j, In j (jobs db_applied) -> Job._id j <> Application.job a) ->
      r = json 404 false "Job not found." NoData).
Proof.
  intros a.
  apply (applyJob_again ann_id job_id application_body absent_id db_applied a).
  - vm_compute. tauto.
  - reflexivity.
  - reflexivity.
Defined.

(** C8 as the specification words it fails once the job is deleted: apply (201),
    delete the job (200), apply again.  The application of the pair is
    still stored, and the answer is 404, not the already-applied 400. *)
Lemma applyJob_after_deleteJob_is_not_found :
  let db1 := snd (applyJob ann_id job_id application_body application_id db_posted) in
  let db2 := snd (deleteJob job_id db1) in
  status (fst (applyJob ann_id job_id application_body application_id db_posted))
  = 201
  /\ status (fst (deleteJob job_id db1)) = 200
  /\ pair_count ann_id job_id db2 = 1%nat
  /\ applyJob ann_id job_id application_body absent_id db2
     = (json 404 false "Job not found." NoData, db2).
Proof. repeat split; reflexivity. Qed.

(** C9 at the sample application: an unknown status, then [Offered]. *)
Lemma updateApplicationStatus_enum_witness :
  (let (r, db') :=
     updateApplicationStatus application_id [("status", JStr "Hired")] db_applied in
   status r = 400 /\ success r = false /\ db' = db_applied)
  /\ (let a := Application.mk application_id job_id ann_id
                 "https://files.example/ann.pdf" "Applied" None in
      let (r, db') :=
        updateApplicationStatus application_id [("status", JStr "Offered")]
          db_applied in
      r = json 200 true "Application status updated successfully."
            (ApplicationData (with_status "Offered" a))
      /\ findOne (has_id Application._id (Application._id a)) (applications db')
         = Some (with_status "Offered" a)
      /\ Application.status (with_status "Offered" a) = "Offered"
      /\ In (with_status "Offered" a) (applications db')).
Proof.
  split.
  - apply (proj1 (updateApplicationStatus_enum application_id
                    [("status", JStr "Hired")] db_applied "Hired" eq_refl)).
    simpl. intuition discriminate.
  - intros a.
    apply (proj2 (updateApplicationStatus_enum application_id
                    [("status", JStr "Offered")] db_applied "Offered" eq_refl)).
    + simpl. tauto.
    + vm_compute. tauto.
    + vm_compute. repeat constructor. simpl. tauto.
    + reflexivity.
Defined.

(** * Further properties of the handlers *)

(** ** What [sanitizeInput] leaves in a string *)

Lemma string_forallb_append (p : ascii -> bool) (a b : string) :
  string_forallb p (a ++ b) = string_forallb p a && string_forallb p b.
Proof.
  induction a as [| c a IH]; simpl; [reflexivity |].
  now rewrite IH, andb_assoc.
Qed.

Lemma escape_char_no_markup (c : ascii) :
  string_forallb (fun x => negb (markup_char x)) (escape_char c) = true.
Proof. destruct c as [[] [] [] [] [] [] [] []]; reflexivity. Qed.

(** X1: a string that went through [sanitizeInput] holds no quote, no
    angle bracket, no slash, no backslash and no backtick. *)
Theorem sanitizeInput_string_has_no_markup (s : string) :
  exists t, sanitizeInput (JStr s) = JStr t
            /\ string_forallb (fun c => negb (markup_char c)) t = true.
Proof.
  exists (validator_escape (trim s)). split; [reflexivity |].
  induction (trim s) as [| c r IH]; simpl; [reflexivity |].
  now rewrite string_forallb_append, escape_char_no_markup, IH.
Qed.

(** ** More on lists of documents *)

Lemma findAll_ids_NoDup {D : Type} (id_of : D -> ObjectId) (p : D -> bool)
  (docs : list D) :
  NoDup (map id_of docs) -> NoDup (map id_of (findAll p docs)).
Proof.
  unfold findAll. induction docs as [| d docs IH]; simpl; intros Hnd.
  - constructor.
  - inversion Hnd; subst. destruct (p d); simpl; [| now apply IH].
    constructor; [| now apply IH].
    intros Hin. apply in_map_iff in Hin. destruct Hin as [d' [Heq Hin]].
    apply filter_In in Hin. destruct Hin as [Hin _].
    apply H1. rewrite <- Heq. now apply in_map.
Qed.

Lemma findOne_app_fresh {D : Type} (p : D -> bool) (docs : list D) (d : D) :
  (forall x, In x docs -> p x = false) -> p d = true ->
  findOne p (docs ++ [d]) = Some d.
Proof.
  unfold findOne. intros Hfresh Hd.
  induction docs as [| x docs IH]; simpl; [now rewrite Hd |].
  rewrite (Hfresh x) by now left.
  apply IH. intros y Hy. apply Hfresh. now right.
Qed.

Lemma deleteOne_app_fresh {D : Type} (p : D -> bool) (docs : list D) (d : D) :
  (forall x, In x docs -> p x = false) -> p d = true ->
  deleteOne p (docs ++ [d]) = docs.
Proof.
  intros Hfresh Hd.
  induction docs as [| x docs IH]; simpl; [now rewrite Hd |].
  rewrite (Hfresh x) by now left.
  f_equal. apply IH. intros y Hy. apply Hfresh. now right.
Qed.

Lemma deleteOne_removes {D : Type} (id_of : D -> ObjectId) (o : ObjectId)
  (docs : list D) :
  NoDup (map id_of docs) ->
  forall d, In d (deleteOne (has_id id_of o) docs) -> id_of d <> o.
Proof.
  induction docs as [| x docs IH]; simpl; intros Hnd d Hin; [contradiction |].
  inversion Hnd; subst.
  destruct (has_id id_of o x) eqn:Hx.
  - unfold has_id in Hx. apply oid_eqb_eq in Hx. intros Heq.
    apply H1. rewrite Hx, <- Heq. now apply in_map.
  - destruct Hin as [<- | Hin].
    + intros Heq. unfold has_id in Hx. rewrite Heq, oid_eqb_refl in Hx.
      discriminate.
    + now apply IH.
Qed.

Lemma deleteOne_subset {D : Type} (p : D -> bool) (docs : list D) (d : D) :
  In d (deleteOne p docs) -> In d docs.
Proof.
  induction docs as [| x docs IH]; simpl; [trivial |].
  destruct (p x); [now right |].
  intros [<- | Hin]; [now left | right; now apply IH].
Qed.

Lemma findOne_absent {D : Type} (id_of : D -> ObjectId) (o : ObjectId)
  (docs : list D) :
  (forall d, In d docs -> id_of d <> o) ->
  findOne (has_id id_of o) docs = None.
Proof.
  intros Hno. destruct (findOne (has_id id_of o) docs) as [d |] eqn:Hf;
    [| reflexivity].
  apply findOne_Some in Hf. destruct Hf as [Hin Hid].
  apply oid_eqb_eq in Hid. now apply Hno in Hin.
Qed.

Lemma pull_fresh (o : ObjectId) (l : list ObjectId) :
  ~ In o l -> pull o l = l.
Proof.
  unfold pull. induction l as [| x l IH]; simpl; intros Hin; [reflexivity |].
  destruct (oid_eqb x o) eqn:E.
  - apply oid_eqb_eq in E. subst. exfalso. apply Hin. now left.
  - simpl. f_equal. apply IH. intros H. apply Hin. now right.
Qed.

Lemma pull_push (o : ObjectId) (l : list ObjectId) :
  ~ In o l -> pull o (push o l) = l.
Proof.
  intros Hin. unfold pull, push. rewrite filter_app. simpl.
  rewrite oid_eqb_refl. simpl. rewrite app_nil_r. now apply pull_fresh.
Qed.

Lemma updateMany_fresh {D : Type} (matches : D -> bool) (update : D -> D)
  (docs : list D) :
  (forall d, In d docs -> matches d = false) ->
  updateMany matches update docs = docs.
Proof.
  intros Hno. unfold updateMany. rewrite <- (map_id docs) at 2.
  apply map_ext_in. intros d Hd. now rewrite (Hno d Hd).
Qed.

(** ** postJob, jobById, getJobsByUserID and deleteJob together *)

Section JobBoardFurther.
Variable Job_attributes_valid : JsVal -> bool.

Lemma Job_create_detail (user : string) (body : Body) (newId : ObjectId)
  (db : DB) (job : Job.doc) (db1 : DB) :
  Job_create Job_attributes_valid (job_inputs user body) newId db
  = (Continue job, db1) ->
  db1 = set_jobs (jobs db ++ [job]) db
  /\ Job._id job = newId
  /\ castObjectId (field "company" body) = Casted (Some (Job.company job))
  /\ Job.postedBy job = toLowerCase user
  /\ Job.applicants job = [].
Proof.
  unfold Job_create, required, required_ids.
  change (js_get "company" (job_inputs user body)) with (field "company" body).
  change (js_get "categories" (job_inputs user body))
    with (field "categories" body).
  change (js_get "postedBy" (job_inputs user body)) with (JStr user).
  destruct (castObjectId (field "company" body)) as [[co |] |];
    try (run; discriminate).
  destruct (castObjectIdArray (field "categories" body)) as [l |];
    try (run; discriminate).
  destruct (all_some l) as [cats |]; try (run; discriminate).
  cbn [castObjectId].
  destruct (is_hex24 user); try (run; discriminate).
  run. destruct (Job_attributes_valid (job_inputs user body));
    [| discriminate].
  intros H. inversion H; subst. now repeat split.
Qed.

(** What a 201 of [postJob] tells. *)
Lemma postJob_created (user : string) (body : Body) (newId : ObjectId)
  (db db1 : DB) (r : Response) :
  postJob Job_attributes_valid user body newId db = (r, db1) ->
  status r = 201 ->
  exists co os job,
    castObjectId (field "company" body) = Casted (Some co)
    /\ cast_in (field "categories" body) = Casted os
    /\ r = json 201 true "Job created successfully" (JobData job)
    /\ Job._id job = newId
    /\ Job.company job = co
    /\ Job.postedBy job = toLowerCase user
    /\ Job.applicants job = []
    /\ db1 = link_job co os newId (set_jobs (jobs db ++ [job]) db).
Proof.
  intros Hrun Hst. rewrite postJob_steps in Hrun.
  destruct (fields_missing user body);
    [inversion Hrun; subst; discriminate |].
  destruct (castObjectId (field "company" body)) as [[co |] |] eqn:Hco;
    try (inversion Hrun; subst; discriminate).
  destruct (findOne (has_id Company._id co) (companies db));
    [| inversion Hrun; subst; discriminate].
  destruct (cast_in (field "categories" body)) as [os |];
    [| inversion Hrun; subst; discriminate].
  destruct (num_strict_neq _ _); [inversion Hrun; subst; discriminate |].
  destruct (Job_create Job_attributes_valid (job_inputs user body) newId db)
    as [[job | r' | e] db2] eqn:Hjob;
    try (inversion Hrun; subst; discriminate).
  - destruct (Job_create_detail _ _ _ _ _ _ Hjob)
      as [-> [Hid [Hc [Hp Ha]]]].
    inversion Hrun; subst r db1. rewrite Hco in Hc. injection Hc as Hc.
    exists co, os, job. rewrite Hid. now repeat split.
  - destruct (Job_create_outcome Job_attributes_valid (job_inputs user body)
                newId db) as [[j [Hj _]] | [e Ht]]; congruence.
Qed.

(** X2: a category list that names one category twice is refused: with
    unique ids in the JobCategory collection the query returns fewer
    documents than the list has entries. *)
Theorem postJob_rejects_repeated_category (user : string) (body : Body)
  (newId : ObjectId) (db : DB) (items : list JsVal)
  (os : list (option ObjectId)) :
  NoDup (map JobCategory._id (jobCategories db)) ->
  field "categories" body = JArr items ->
  castObjectIds items = Casted os ->
  ~ NoDup os ->
  let (r, db') := postJob Job_attributes_valid user body newId db in
  db' = db /\ success r = false /\ status r <> 201.
Proof.
  intros Hnd Hcat Hcast Hdup. rewrite postJob_steps.
  destruct (fields_missing user body);
    [repeat split; simpl; discriminate |].
  destruct (castObjectId (field "company" body)) as [[co |] |];
    try (repeat split; simpl; discriminate).
  destruct (findOne (has_id Company._id co) (companies db));
    [| repeat split; simpl; discriminate].
  rewrite Hcat. unfold cast_in. rewrite Hcast.
  assert (Hneq : num_strict_neq
                   (List.length
                      (findAll (fun c => mem_oid (JobCategory._id c) os)
                         (jobCategories db)))
                   (js_length (JArr items)) = true).
  { unfold js_length, num_strict_neq. apply negb_true_iff, Z.eqb_neq.
    intros Heq. apply Nat2Z.inj in Heq. apply Hdup.
    set (found := findAll (fun c => mem_oid (JobCategory._id c) os)
                    (jobCategories db)) in *.
    apply NoDup_incl_NoDup with (l := map Some (map JobCategory._id found)).
    - apply Injective_map_NoDup; [intros a b H; now inversion H |].
      now apply findAll_ids_NoDup.
    - rewrite !length_map, Heq, (castObjectIds_length _ _ Hcast). lia.
    - intros x Hx. apply in_map_iff in Hx. destruct Hx as [o [<- Ho]].
      apply in_map_iff in Ho. destruct Ho as [c [<- Hc]].
      subst found. apply filter_In in Hc. destruct Hc as [_ Hm].
      now apply mem_oid_In. }
  rewrite Hneq. repeat split; simpl; discriminate.
Qed.

Lemma link_job_jobs (co : ObjectId) (os : list (option ObjectId))
  (job : ObjectId) (db : DB) :
  jobs (link_job co os job db) = jobs db.
Proof. reflexivity. Qed.

(** X3: a job that was just posted is found under its id, with the
    document the 201 carried. *)
Theorem jobById_after_postJob (user : string) (body : Body)
  (newId : ObjectId) (db db1 : DB) (r : Response) :
  postJob Job_attributes_valid user body newId db = (r, db1) ->
  status r = 201 ->
  canonical_id newId ->
  (forall j, In j (jobs db) -> Job._id j <> newId) ->
  exists job,
    payload r = JobData job
    /\ jobById newId db1
       = (json 200 true "Job found successfully" (JobData job), db1).
Proof.
  intros Hrun Hst [Hhex Hlow] Hfresh.
  destruct (postJob_created _ _ _ _ _ _ Hrun Hst)
    as [co [os [job [_ [_ [-> [Hid [_ [_ [_ ->]]]]]]]]]].
  exists job. split; [reflexivity |].
  unfold jobById, try_catch, Job_findById, of_cast.
  cbn [ObjectId_isValid castObjectId]. rewrite Hhex, Hlow. run.
  rewrite link_job_jobs. cbn [jobs set_jobs].
  rewrite (findOne_app_fresh (has_id Job._id newId) (jobs db) job).
  - reflexivity.
  - intros x Hx. unfold has_id.
    destruct (oid_eqb (Job._id x) newId) eqn:E; [| reflexivity].
    apply oid_eqb_eq in E. now apply Hfresh in Hx.
  - unfold has_id. rewrite Hid. apply oid_eqb_refl.
Qed.

(** X4: the poster's listing holds the job just posted, and only jobs of
    the poster. *)
Theorem getJobsByUserID_after_postJob (user : string) (body : Body)
  (newId : ObjectId) (db db1 : DB) (r : Response) :
  postJob Job_attributes_valid user body newId db = (r, db1) ->
  status r = 201 ->
  exists job l,
    payload r = JobData job
    /\ getJobsByUserID user db1 = (Listed l, db1)
    /\ list_status l = 200
    /\ list_total l = Some (List.length (list_data l))
    /\ In job (list_data l)
    /\ (forall j, In j (list_data l) ->
                  In j (jobs db1) /\ Job.postedBy j = toLowerCase user).
Proof.
  intros Hrun Hst.
  destruct (postJob_created _ _ _ _ _ _ Hrun Hst)
    as [co [os [job [_ [_ [-> [Hid [_ [Hp [_ ->]]]]]]]]]].
  assert (Hhex : is_hex24 user = true).
  { rewrite postJob_steps in Hrun.
    destruct (fields_missing user body);
      [inversion Hrun; subst; discriminate |].
    destruct (castObjectId (field "company" body)) as [[co' |] |];
      try (inversion Hrun; subst; discriminate).
    destruct (findOne _ (companies db));
      [| inversion Hrun; subst; discriminate].
    destruct (cast_in (field "categories" body)) as [os' |];
      [| inversion Hrun; subst; discriminate].
    destruct (num_strict_neq _ _); [inversion Hrun; subst; discriminate |].
    destruct (is_hex24 user) eqn:E; [reflexivity |].
    exfalso. revert Hrun.
    unfold Job_create, required, required_ids.
    change (js_get "postedBy" (job_inputs user body)) with (JStr user).
    cbn [castObjectId]. rewrite E.
    destruct (castObjectId (js_get "company" (job_inputs user body)))
      as [[c1 |] |]; try (run; intros H; inversion H; subst; discriminate).
    destruct (castObjectIdArray (js_get "categories" (job_inputs user body)))
      as [l1 |]; try (run; intros H; inversion H; subst; discriminate).
    destruct (all_some l1); run; intros H; inversion H; subst; discriminate. }
  set (db1 := link_job co os newId (set_jobs (jobs db ++ [job]) db)).
  set (mine := findAll (fun j => oid_eqb (Job.postedBy j) (toLowerCase user))
                 (jobs db1)).
  assert (Hin : In job mine).
  { subst mine db1. rewrite link_job_jobs. cbn [jobs set_jobs].
    apply filter_In. split; [apply in_or_app; right; now left |].
    rewrite Hp. apply oid_eqb_refl. }
  exists job, (mkListing 200 true (Some "Jobs found successfully.")
                 (Some (List.length mine)) mine).
  split; [reflexivity |]. split.
  - unfold getJobsByUserID, try_catch_answer, Job_find_postedBy, of_cast.
    cbv zeta. cbn [ObjectId_isValid castObjectId]. rewrite Hhex. run.
    fold mine. destruct mine as [| j0 rest]; [contradiction | reflexivity].
  - repeat split; try assumption.
    + subst mine. apply filter_In in H. tauto.
    + subst mine. apply filter_In in H. destruct H as [_ H].
      now apply oid_eqb_eq in H.
Qed.

Lemma unlink_categories_after_link (o : ObjectId) (os : list (option ObjectId))
  (docs : list JobCategory.doc) :
  (forall k, In k docs -> ~ In o (JobCategory.jobs k)) ->
  updateMany (fun c => contains o (JobCategory.jobs c))
    (fun c => JobCategory.mk (JobCategory._id c) (JobCategory.name c)
                (pull o (JobCategory.jobs c)))
    (updateMany (fun c => mem_oid (JobCategory._id c) os)
       (fun c => JobCategory.mk (JobCategory._id c) (JobCategory.name c)
                   (push o (JobCategory.jobs c)))
       docs)
  = docs.
Proof.
  intros Hfresh. unfold updateMany. rewrite map_map.
  rewrite <- (map_id docs) at 2. apply map_ext_in. intros k Hk.
  specialize (Hfresh k Hk).
  destruct (mem_oid (JobCategory._id k) os).
  - cbn [JobCategory.jobs JobCategory._id JobCategory.name].
    rewrite (proj2 (contains_In o (push o (JobCategory.jobs k))) (push_In _ _)).
    rewrite (pull_push _ _ Hfresh). now destruct k.
  - destruct (contains o (JobCategory.jobs k)) eqn:E; [| reflexivity].
    apply contains_In in E. contradiction.
Qed.

Lemma updateMany_cons {D : Type} (matches : D -> bool) (update : D -> D)
  (d : D) (docs : list D) :
  updateMany matches update (d :: docs)
  = (if matches d then update d else d) :: updateMany matches update docs.
Proof. reflexivity. Qed.

Lemma unlink_companies_after_link (o co : ObjectId) (docs : list Company.doc) :
  (forall c, In c docs -> ~ In o (Company.jobs c)) ->
  updateMany (fun c => contains o (Company.jobs c))
    (fun c => Company.mk (Company._id c) (Company.name c)
                (Company.description c) (Company.website c)
                (Company.location c) (Company.logo c)
                (pull o (Company.jobs c)) (Company.userId c))
    (updateOne (has_id Company._id co)
       (fun c => Company.mk (Company._id c) (Company.name c)
                   (Company.description c) (Company.website c)
                   (Company.location c) (Company.logo c)
                   (push o (Company.jobs c)) (Company.userId c))
       docs)
  = docs.
Proof.
  induction docs as [| c docs IH]; intros Hfresh; [reflexivity |].
  assert (Hrest : forall x, In x docs -> ~ In o (Company.jobs x)).
  { intros x Hx. apply Hfresh. now right. }
  assert (Hc : ~ In o (Company.jobs c)) by (apply Hfresh; now left).
  cbn [updateOne]. destruct (has_id Company._id co c);
    rewrite updateMany_cons.
  - cbn [Company.jobs Company._id Company.name Company.description
           Company.website Company.location Company.logo Company.userId].
    rewrite (proj2 (contains_In o (push o (Company.jobs c))) (push_In _ _)).
    rewrite (pull_push _ _ Hc). f_equal; [now destruct c |].
    apply (updateMany_fresh (fun c => contains o (Company.jobs c))).
    intros x Hx. destruct (contains o (Company.jobs x)) eqn:E; [| reflexivity].
    apply contains_In in E. now apply Hrest in Hx.
  - rewrite (IH Hrest).
    destruct (contains o (Company.jobs c)) eqn:E; [| reflexivity].
    apply contains_In in E. contradiction.
Qed.

(** X5: deleting a job right after it was posted takes back what the
    post added: the Job collection, and the [jobs] list of every company
    and of every category, are what they were before the post.  The id is
    a new one, held by no job and by no list.  (The two updates of a
    linked company or category leave a later [updatedAt] in the stored
    document; the statement is about the references.) *)
Theorem deleteJob_undoes_postJob (user : string) (body : Body)
  (newId : ObjectId) (db db1 : DB) (r : Response) :
  postJob Job_attributes_valid user body newId db = (r, db1) ->
  status r = 201 ->
  canonical_id newId ->
  (forall j, In j (jobs db) -> Job._id j <> newId) ->
  (forall c, In c (companies db) -> ~ In newId (Company.jobs c)) ->
  (forall k, In k (jobCategories db) -> ~ In newId (JobCategory.jobs k)) ->
  exists db2,
    deleteJob newId db1
    = (json 200 true "Job deleted successfully" NoData, db2)
    /\ jobs db2 = jobs db
    /\ job_links db2 = job_links db
    /\ applications db2 = applications db
    /\ users db2 = users db.
Proof.
  intros Hrun Hst [Hhex Hlow] Hfresh Hcomp Hcat.
  destruct (postJob_created _ _ _ _ _ _ Hrun Hst)
    as [co [os [job [_ [_ [_ [Hid [_ [_ [_ ->]]]]]]]]]].
  rewrite deleteJob_steps, Hhex, Hlow, link_job_jobs. cbn [jobs set_jobs].
  assert (Hold : forall x, In x (jobs db) -> has_id Job._id newId x = false).
  { intros x Hx. unfold has_id.
    destruct (oid_eqb (Job._id x) newId) eqn:E; [| reflexivity].
    apply oid_eqb_eq in E. now apply Hfresh in Hx. }
  assert (Hnew : has_id Job._id newId job = true).
  { unfold has_id. rewrite Hid. apply oid_eqb_refl. }
  rewrite (findOne_app_fresh _ _ _ Hold Hnew),
    (deleteOne_app_fresh _ _ _ Hold Hnew).
  eexists. split; [reflexivity |].
  unfold job_links, unlink_job, link_job.
  cbn [companies jobCategories jobs users applications set_jobs
         set_jobCategories set_companies].
  rewrite (unlink_categories_after_link _ _ _ Hcat),
    (unlink_companies_after_link _ _ _ Hcomp).
  now repeat split.
Qed.

End JobBoardFurther.

(** X6: once [deleteJob] has answered 200 the id resolves to no job; ids
    are unique in the Job collection. *)
Theorem jobById_after_deleteJob (id : string) (db db' : DB) (r : Response) :
  NoDup (map Job._id (jobs db)) ->
  deleteJob id db = (r, db') ->
  status r = 200 ->
  jobById id db' = (json 404 false "Job not found" NoData, db').
Proof.
  intros Hnd Hrun Hst. rewrite deleteJob_steps in Hrun.
  destruct (is_hex24 id) eqn:Hhex; [| inversion Hrun; subst; discriminate].
  destruct (findOne _ (jobs db)); [| inversion Hrun; subst; discriminate].
  inversion Hrun; subst r db'. clear Hrun Hst.
  unfold jobById, try_catch, Job_findById, of_cast.
  cbn [ObjectId_isValid castObjectId]. rewrite Hhex. run.
  cbn [jobs unlink_job set_companies set_jobCategories set_jobs].
  rewrite (findOne_absent Job._id (toLowerCase id)); [reflexivity |].
  now apply deleteOne_removes.
Qed.

(** ** The update handlers *)

Section UpdateProperties.
Variable Company_cast_update : JsVal -> CastResult (Company.doc -> Company.doc).
Variable Job_cast_update : JsVal -> CastResult (Job.doc -> Job.doc).

Lemma updateOne_length {D : Type} (matches : D -> bool) (update : D -> D)
  (docs : list D) :
  List.length (updateOne matches update docs) = List.length docs.
Proof.
  induction docs as [| d docs IH]; simpl; [reflexivity |].
  destruct (matches d); simpl; [reflexivity | now rewrite IH].
Qed.

Lemma updateOne_others {D : Type} (id_of : D -> ObjectId) (o : ObjectId)
  (update : D -> D) (docs : list D) (d : D) :
  In d docs -> id_of d <> o -> In d (updateOne (has_id id_of o) update docs).
Proof.
  induction docs as [| x docs IH]; simpl; intros Hin Hid; [contradiction |].
  destruct (has_id id_of o x) eqn:Hx.
  - destruct Hin as [<- | Hin]; [| now right].
    unfold has_id in Hx. apply oid_eqb_eq in Hx. contradiction.
  - destruct Hin as [<- | Hin]; [now left | right; now apply IH].
Qed.

(** X7: whatever the patch, [updateJob] writes to the Job collection
    only and keeps its size: the [jobs] lists of companies and categories
    are not brought in line with a changed [company] or [categories]. *)
Theorem updateJob_leaves_back_references (id : string) (body : Body) (db : DB) :
  let (r, db') := updateJob Job_cast_update id body db in
  companies db' = companies db
  /\ jobCategories db' = jobCategories db
  /\ applications db' = applications db
  /\ users db' = users db
  /\ List.length (jobs db') = List.length (jobs db)
  /\ (status r <> 200 -> db' = db).
Proof.
  unfold updateJob, try_catch, findByIdAndUpdate, of_cast. cbv zeta.
  rewrite sanitizeInput_object. cbn [ObjectId_isValid castObjectId].
  destruct (is_hex24 id); [| run; repeat split; reflexivity].
  destruct (Job_cast_update (JObj body)) as [f |];
    [| run; repeat split; reflexivity].
  run. destruct (findOne _ (jobs db)).
  - repeat split; try reflexivity.
    + cbn [jobs set_jobs]. apply updateOne_length.
    + intros H. now contradiction H.
  - repeat split; reflexivity.
Qed.

(** X8: [updateCompany] answers a malformed id with 401 and writes
    nothing; a 200 rewrites the addressed company alone and leaves every
    company of another id, and every other collection, as it was. *)
Theorem updateCompany_outcomes (id : string) (body : Body) (db : DB) :
  let (r, db') := updateCompany Company_cast_update id body db in
  (ObjectId_isValid (JStr id) = false ->
   r = json 401 false "Invalid Company ID" NoData /\ db' = db)
  /\ (status r <> 200 -> db' = db)
  /\ jobs db' = jobs db /\ jobCategories db' = jobCategories db
  /\ users db' = users db /\ applications db' = applications db
  /\ List.length (companies db') = List.length (companies db)
  /\ (forall c, In c (companies db) -> Company._id c <> toLowerCase id ->
                In c (companies db')).
Proof.
  unfold updateCompany, try_catch, findByIdAndUpdate, of_cast. cbv zeta.
  rewrite sanitizeInput_object. cbn [ObjectId_isValid castObjectId].
  destruct (is_hex24 id).
  - destruct (Company_cast_update (JObj body)) as [f |].
    + run. destruct (findOne _ (companies db)).
      * repeat split; try reflexivity; try discriminate.
        -- intros H. now contradiction H.
        -- cbn [companies set_companies]. apply updateOne_length.
        -- intros c Hc Hid. cbn [companies set_companies].
           now apply updateOne_others.
      * repeat split; try reflexivity; try discriminate. tauto.
    + run. repeat split; try reflexivity; try discriminate. tauto.
  - run. repeat split; try reflexivity. tauto.
Qed.

End UpdateProperties.

(** ** The company handlers together *)

Lemma Company_create_detail (user : string) (body : Body) (newId : ObjectId)
  (db : DB) (c : Company.doc) (db1 : DB) :
  Company_create (company_inputs user body) newId db = (Continue c, db1) ->
  db1 = set_companies (companies db ++ [c]) db
  /\ Company._id c = newId
  /\ castString (field "name" body) = Casted (Some (Company.name c))
  /\ Company.userId c = [toLowerCase user]
  /\ Company.jobs c = [].
Proof.
  unfold Company_create, required_string, required, optional, required_ids.
  change (js_get "name" (company_inputs user body)) with (field "name" body).
  change (js_get "description" (company_inputs user body))
    with (field "description" body).
  change (js_get "website" (company_inputs user body)) with (field "website" body).
  change (js_get "location" (company_inputs user body))
    with (field "location" body).
  change (js_get "userId" (company_inputs user body)) with (JStr user).
  destruct (castString (field "name" body)) as [[n |] |];
    try (run; discriminate).
  run. destruct (String.eqb n ""); [discriminate |].
  destruct (castString (field "description" body)) as [d |]; [| discriminate].
  destruct (castString (field "website" body)) as [w' |]; [| discriminate].
  destruct (castString (field "location" body)) as [l |]; [| discriminate].
  cbn [castObjectIdArray castObjectIds castObjectId].
  destruct (is_hex24 user); [| discriminate].
  cbn [all_some]. intros H. inversion H; subst. now repeat split.
Qed.

(** What a 201 of [createCompany] tells. *)
Lemma createCompany_created (user : string) (body : Body) (newId : ObjectId)
  (db db1 : DB) (r : Response) :
  createCompany user body newId db = (r, db1) ->
  status r = 201 ->
  exists c,
    r = json 201 true "Company created successfully" (CompanyData c)
    /\ db1 = set_companies (companies db ++ [c]) db
    /\ Company._id c = newId
    /\ castString (field "name" body) = Casted (Some (Company.name c))
    /\ Company.userId c = [toLowerCase user]
    /\ findOne (fun x => String.eqb (Company.name x) (Company.name c))
         (companies db) = None.
Proof.
  intros Hrun Hst. rewrite createCompany_steps in Hrun.
  destruct (company_fields_missing body);
    [inversion Hrun; subst; discriminate |].
  destruct (castString (field "name" body)) as [n |] eqn:Hn;
    [| inversion Hrun; subst; discriminate].
  destruct (is_some _) eqn:Hfound; [inversion Hrun; subst; discriminate |].
  destruct (Company_create (company_inputs user body) newId db)
    as [[c | r' | e] db2] eqn:Hc;
    try (inversion Hrun; subst; discriminate).
  - destruct (Company_create_detail _ _ _ _ _ _ Hc) as [-> [Hid [Hname [Hu _]]]].
    inversion Hrun; subst r db1. exists c.
    rewrite Hn in Hname. injection Hname as ->.
    repeat split; try assumption; try reflexivity.
    destruct (findOne _ (companies db)); [discriminate | reflexivity].
  - destruct (Company_create_outcome user body newId db)
      as [[c [Hc' _]] | [e He]]; congruence.
Qed.

Lemma createCompany_writes_only_on_success (user : string) (body : Body)
  (newId : ObjectId) (db : DB) :
  let (r, db') := createCompany user body newId db in
  status r = 201 \/ db' = db.
Proof.
  rewrite createCompany_steps.
  destruct (company_fields_missing body); [now right |].
  destruct (castString (field "name" body)); [| now right].
  destruct (is_some _); [now right |].
  destruct (Company_create_outcome user body newId db)
    as [[c [-> _]] | [e ->]]; [now left | now right].
Qed.

Lemma findOne_None_not_In {D : Type} (key : D -> string) (n : string)
  (docs : list D) :
  findOne (fun x => String.eqb (key x) n) docs = None ->
  ~ In n (map key docs).
Proof.
  intros Hf Hin. apply in_map_iff in Hin. destruct Hin as [d [Heq Hin]].
  pose proof (findOne_None _ _ Hf d Hin) as Hno. cbv beta in Hno.
  rewrite Heq, String.eqb_refl in Hno. discriminate.
Qed.

(** X9: [createCompany] keeps the names of the Company collection
    pairwise distinct. *)
Theorem createCompany_keeps_names_unique (user : string) (body : Body)
  (newId : ObjectId) (db : DB) :
  NoDup (map Company.name (companies db)) ->
  NoDup (map Company.name
           (companies (snd (createCompany user body newId db)))).
Proof.
  intros Hnd.
  pose proof (createCompany_writes_only_on_success user body newId db) as Hw.
  destruct (createCompany user body newId db) as [r db'] eqn:Hrun.
  destruct Hw as [Hst | ->]; [| exact Hnd].
  destruct (createCompany_created _ _ _ _ _ _ Hrun Hst)
    as [c [_ [-> [_ [_ [_ Hnone]]]]]].
  cbn [snd companies set_companies]. rewrite map_app. cbn [map].
  apply NoDup_snoc; [assumption |]. now apply findOne_None_not_In.
Qed.

(** X10: a company that was just created is found under its id, with the
    document the 201 carried. *)
Theorem getCompanyById_after_createCompany (user : string) (body : Body)
  (newId : ObjectId) (db db1 : DB) (r : Response) :
  createCompany user body newId db = (r, db1) ->
  status r = 201 ->
  canonical_id newId ->
  (forall c, In c (companies db) -> Company._id c <> newId) ->
  exists c,
    payload r = CompanyData c
    /\ getCompanyById newId db1
       = (json 200 true "Company found successfully" (CompanyData c), db1).
Proof.
  intros Hrun Hst [Hhex Hlow] Hfresh.
  destruct (createCompany_created _ _ _ _ _ _ Hrun Hst)
    as [c [-> [-> [Hid _]]]].
  exists c. split; [reflexivity |].
  rewrite getCompanyById_steps. cbn [ObjectId_isValid]. rewrite Hhex, Hlow.
  cbn [companies set_companies].
  rewrite (findOne_app_fresh (has_id Company._id newId) (companies db) c).
  - reflexivity.
  - intros x Hx. unfold has_id.
    destruct (oid_eqb (Company._id x) newId) eqn:E; [| reflexivity].
    apply oid_eqb_eq in E. now apply Hfresh in Hx.
  - unfold has_id. rewrite Hid. apply oid_eqb_refl.
Qed.

(** X11: after a 201 of [createCompany] the caller's own listing is a 200
    that holds the new company and only companies the caller owns, and the
    general listing is a 200 that ends with it. *)
Theorem listings_after_createCompany (user : string) (body : Body)
  (newId : ObjectId) (db db1 : DB) (r : Response) :
  createCompany user body newId db = (r, db1) ->
  status r = 201 ->
  exists c mine,
    payload r = CompanyData c
    /\ getCompanyByUserId user db1
       = (Listed (mkListing 200 true (Some "Company found successfully")
                    (Some (List.length mine)) mine), db1)
    /\ In c mine
    /\ (forall x, In x mine -> In (toLowerCase user) (Company.userId x))
    /\ getCompanies db1
       = (Listed (mkListing 200 true (Some "Companies found successfully")
                    (Some (S (List.length (companies db))))
                    (companies db ++ [c])), db1).
Proof.
  intros Hrun Hst.
  destruct (createCompany_created _ _ _ _ _ _ Hrun Hst)
    as [c [-> [-> [_ [_ [Hu _]]]]]].
  assert (Hhex : is_hex24 user = true).
  { destruct (Company_create_outcome user body newId db)
      as [[c' [Hc' _]] | [e He]].
    - revert Hc'. unfold Company_create, required_ids.
      change (js_get "userId" (company_inputs user body)) with (JStr user).
      cbn [castObjectIdArray castObjectIds castObjectId].
      destruct (is_hex24 user); [reflexivity |].
      unfold required_string, required, optional.
      destruct (castString (js_get "name" (company_inputs user body)))
        as [[n |] |]; try (run; discriminate).
      run. destruct (String.eqb n ""); [discriminate |].
      destruct (castString (js_get "description" (company_inputs user body)));
        [| discriminate].
      destruct (castString (js_get "website" (company_inputs user body)));
        [| discriminate].
      destruct (castString (js_get "location" (company_inputs user body)));
        discriminate.
    - rewrite createCompany_steps in Hrun.
      destruct (company_fields_missing body);
        [inversion Hrun; subst; discriminate |].
      destruct (castString (field "name" body));
        [| inversion Hrun; subst; discriminate].
      destruct (is_some _); [inversion Hrun; subst; discriminate |].
      rewrite He in Hrun. inversion Hrun; subst; discriminate. }
  set (db1 := set_companies (companies db ++ [c]) db).
  set (mine := findAll (fun x => contains (toLowerCase user) (Company.userId x))
                 (companies db1)).
  exists c, mine. split; [reflexivity |]. split; [| split; [| split]].
  - unfold getCompanyByUserId, try_catch_answer, Company_find_userId, of_cast.
    cbn [castObjectId]. rewrite Hhex. run. reflexivity.
  - subst mine db1. cbn [companies set_companies]. apply filter_In.
    split; [apply in_or_app; right; now left |].
    apply contains_In. rewrite Hu. now left.
  - intros x Hx. subst mine. apply filter_In in Hx. destruct Hx as [_ Hx].
    now apply contains_In.
  - unfold getCompanies, try_catch_answer. run.
    subst db1. cbn [companies set_companies].
    assert (Hall : findAll (fun _ : Company.doc => true) (companies db ++ [c])
                   = companies db ++ [c]).
    { unfold findAll. apply forallb_filter_id. apply forallb_forall.
      reflexivity. }
    rewrite Hall, length_app. cbn [List.length].
    replace (List.length (companies db) + 1)%nat
      with (S (List.length (companies db))) by lia.
    reflexivity.
Qed.

(** X12: [deleteCompany] never touches the Job collection.  A malformed
    id is answered 500 by the [catch], not by the branch written for it.
    After a 200 no company has the id (ids are unique), so every job that
    names the deleted company refers to nothing. *)
Theorem deleteCompany_does_not_cascade (id : string) (db : DB) :
  let (a, db') := deleteCompany id db in
  jobs db' = jobs db
  /\ (ObjectId_isValid (JStr id) = false ->
      a = Failed 500 server_error "error is not defined" /\ db' = db)
  /\ (answer_status a = 200 ->
      NoDup (map Company._id (companies db)) ->
      (forall c, In c (companies db') -> Company._id c <> toLowerCase id)
      /\ (forall j, In j (jobs db') -> Job.company j = toLowerCase id ->
            findOne (has_id Company._id (Job.company j)) (companies db')
            = None)).
Proof.
  unfold deleteCompany, try_catch_answer, Company_findByIdAndDelete, of_cast.
  cbn [ObjectId_isValid castObjectId].
  destruct (is_hex24 id).
  - run. destruct (findOne _ (companies db)).
    + split; [reflexivity |]. split; [discriminate |].
      intros _ Hnd. cbn [companies set_companies].
      assert (Hgone : forall c,
                 In c (deleteOne (has_id Company._id (toLowerCase id))
                         (companies db)) ->
                 Company._id c <> toLowerCase id)
        by now apply deleteOne_removes.
      split; [exact Hgone |].
      intros j _ Hj. rewrite Hj. now apply findOne_absent.
    + split; [reflexivity |]. split; discriminate.
  - run. split; [reflexivity |]. split; [now split | discriminate].
Qed.

(** ** The category handlers together *)

(** What a 201 of [createJobCategory] tells. *)
Lemma createJobCategory_created (body : Body) (newId : ObjectId)
  (db db1 : DB) (r : Response) :
  createJobCategory body newId db = (r, db1) ->
  status r = 201 ->
  exists k,
    r = json 201 true "Job category created successfully" (CategoryData k)
    /\ db1 = set_jobCategories (jobCategories db ++ [k]) db
    /\ JobCategory._id k = newId
    /\ castString (field "name" body) = Casted (Some (JobCategory.name k))
    /\ JobCategory.jobs k = []
    /\ findOne (fun x => String.eqb (JobCategory.name x) (JobCategory.name k))
         (jobCategories db) = None.
Proof.
  unfold createJobCategory, try_catch. cbv zeta. rewrite sanitizeInput_object.
  change (js_get "name" (JObj [("name", field "name" body)]))
    with (field "name" body).
  destruct (truthy (field "name" body));
    [| run; intros H; inversion H; subst; discriminate].
  unfold JobCategory_findOne_name, JobCategory_create, required_string,
    required, of_cast.
  change (js_get "name" (JObj [("name", field "name" body)]))
    with (field "name" body).
  destruct (castString (field "name" body)) as [[n |] |];
    try (run; intros H; inversion H; subst; discriminate).
  - run. destruct (findOne _ (jobCategories db)) eqn:Hf;
      [intros H; inversion H; subst; discriminate |].
    destruct (String.eqb n "");
      [intros H; inversion H; subst; discriminate |].
    intros H _. inversion H; subst r db1.
    exists (JobCategory.mk newId n []). now repeat split.
Qed.

(** [String] of a number: exact up to [2 ^ 53], the shortest digits that
    tell the double beyond, an exponent from [1e21] on. *)
Lemma number_toString_examples :
  number_toString 42 = "42"
  /\ number_toString (-15) = "-15"
  /\ number_toString 9007199254740993 = "9007199254740992"
  /\ number_toString (2 ^ 60) = "1152921504606847000"
  /\ number_toString 123456789012345678901 = "123456789012345680000"
  /\ number_toString 1000000000000000000000 = "1e+21"
  /\ number_toString (2 ^ 70) = "1.1805916207174113e+21"
  /\ number_toString (- 10 ^ 400) = "-Infinity".
Proof. vm_compute. repeat split; reflexivity. Qed.

(** The number [1e21] is stored as ["1e+21"], so its digits, given as a
    string, name another category. *)
Lemma createJobCategory_1e21_then_digits :
  map JobCategory.name
    (jobCategories
       (snd (createJobCategory category_digits_body absent_id
               (snd (createJobCategory category_1e21_body research_id
                       db_seed)))))
  = ["Engineering"; "Design"; "1e+21"; "1000000000000000000000"]
  /\ status (fst (createJobCategory category_digits_body absent_id
                    (snd (createJobCategory category_1e21_body research_id
                            db_seed)))) = 201.
Proof. vm_compute. split; reflexivity. Qed.

(** X13: category names are a key: after a 201, a further
    [createJobCategory] that carries a name which casts to the same text
    is answered 409 and writes nothing. *)
Theorem createJobCategory_twice (body1 body2 : Body) (id1 id2 : ObjectId)
  (db db1 : DB) (r : Response) :
  createJobCategory body1 id1 db = (r, db1) ->
  status r = 201 ->
  truthy (field "name" body2) = true ->
  castString (field "name" body2) = castString (field "name" body1) ->
  let (r2, db2) := createJobCategory body2 id2 db1 in
  status r2 = 409 /\ success r2 = false /\ db2 = db1.
Proof.
  intros Hrun Hst Htruthy Hsame.
  destruct (createJobCategory_created _ _ _ _ _ Hrun Hst)
    as [k [_ [-> [_ [Hname _]]]]].
  unfold createJobCategory, try_catch. cbv zeta. rewrite sanitizeInput_object.
  change (js_get "name" (JObj [("name", field "name" body2)]))
    with (field "name" body2).
  rewrite Htruthy.
  unfold JobCategory_findOne_name, of_cast. rewrite Hsame, Hname. run.
  cbn [jobCategories set_jobCategories].
  destruct (findOne_exists
              (fun c => String.eqb (JobCategory.name c) (JobCategory.name k))
              (jobCategories db ++ [k]) k) as [k' Hk'].
  - apply in_or_app. right. now left.
  - apply String.eqb_refl.
  - rewrite Hk'. now repeat split.
Qed.

(** X14: [deleteJobCategory] never touches the Job collection.  After a
    200 no category has the id (ids are unique), so every job whose
    [categories] names the deleted category refers to nothing there. *)
Theorem deleteJobCategory_does_not_cascade (id : string) (db : DB) :
  let (r, db') := deleteJobCategory id db in
  jobs db' = jobs db /\ companies db' = companies db
  /\ (status r <> 200 -> db' = db)
  /\ (status r = 200 ->
      NoDup (map JobCategory._id (jobCategories db)) ->
      (forall k, In k (jobCategories db') ->
                 JobCategory._id k <> toLowerCase id)
      /\ getJobCategoryById id db'
         = (json 404 false "Job category not found" NoData, db')).
Proof.
  unfold deleteJobCategory, try_catch, JobCategory_findByIdAndDelete, of_cast.
  cbn [ObjectId_isValid castObjectId].
  destruct (is_hex24 id) eqn:Hhex.
  - run. destruct (findOne _ (jobCategories db)).
    + split; [reflexivity |]. split; [reflexivity |].
      split; [intros H; now contradiction H |].
      intros _ Hnd. cbn [jobCategories set_jobCategories].
      assert (Hgone : forall k,
                 In k (deleteOne (has_id JobCategory._id (toLowerCase id))
                         (jobCategories db)) ->
                 JobCategory._id k <> toLowerCase id)
        by now apply deleteOne_removes.
      split; [exact Hgone |].
      unfold getJobCategoryById, try_catch, JobCategory_findById, of_cast.
      cbn [ObjectId_isValid castObjectId]. rewrite Hhex. run.
      cbn [jobCategories set_jobCategories].
      now rewrite (findOne_absent JobCategory._id (toLowerCase id) _ Hgone).
    + split; [reflexivity |]. split; [reflexivity |].
      split; [reflexivity | discriminate].
  - run. split; [reflexivity |]. split; [reflexivity |].
    split; [reflexivity | discriminate].
Qed.

(** ** The application handlers together *)

(** X15: a 201 of [applyJob] stores one application, in the state
    [Applied], that refers to the job and to the caller, and puts its id
    into the [applicants] of that job. *)
Theorem applyJob_links_job_and_application (user jobId : string) (body : Body)
  (newId : ObjectId) (db db1 : DB) (r : Response) :
  applyJob user jobId body newId db = (r, db1) ->
  status r = 201 ->
  exists app job,
    applications db1 = applications db ++ [app]
    /\ Application._id app = newId
    /\ Application.job app = toLowerCase jobId
    /\ Application.applicant app = toLowerCase user
    /\ In job (jobs db1)
    /\ Job._id job = Application.job app
    /\ In newId (Job.applicants job).
Proof.
  intros Hrun Hst. rewrite applyJob_steps in Hrun.
  destruct (castObjectId (JStr jobId)) as [[j |] |] eqn:Hj;
    try (inversion Hrun; subst; discriminate).
  destruct (findOne (has_id Job._id j) (jobs db)) as [job |] eqn:Hjob;
    [| inversion Hrun; subst; discriminate].
  destruct (castObjectId (JStr user)) as [[a |] |] eqn:Hu;
    try (inversion Hrun; subst; discriminate);
    [| apply castObjectId_string in Hu; discriminate].
  destruct (findOne _ (applications db));
    [inversion Hrun; subst; discriminate |].
  destruct (applyJob_create_outcome _ _ _ _ _ a j _ _ Hu Hj Hrun Hst)
    as [app [Ha [Hjb [Hid [Happs Hjobs]]]]].
  pose proof (castObjectId_string _ _ Hu) as Ea.
  pose proof (castObjectId_string _ _ Hj) as Ej.
  injection Ea as ->. injection Ej as ->.
  destruct (updateOne_In Job._id (toLowerCase jobId)
              (fun x => Job.mk (Job._id x) (Job.attributes x) (Job.company x)
                          (Job.categories x) (Job.postedBy x)
                          (push newId (Job.applicants x)))
              (jobs db) job (fun x => eq_refl) Hjob) as [Hin _].
  eexists app, _. rewrite Hjobs.
  split; [assumption |]. split; [assumption |]. split; [assumption |].
  split; [assumption |]. split; [exact Hin |].
  apply findOne_Some in Hjob. destruct Hjob as [_ Hjid].
  apply oid_eqb_eq in Hjid. cbn [Job._id Job.applicants].
  split; [now rewrite Hjb | apply push_In].
Qed.

Lemma getAllApplicants_reads (jobId : string) (db1 db2 : DB) :
  applications db1 = applications db2 -> users db1 = users db2 ->
  fst (getAllApplicants jobId db1) = fst (getAllApplicants jobId db2).
Proof.
  intros Ha Hu.
  unfold getAllApplicants, try_catch_answer, Application_find_by, of_cast.
  cbn [ObjectId_isValid castObjectId].
  destruct (is_hex24 jobId); [| reflexivity].
  run. unfold populate_applicant. rewrite Ha, Hu.
  match goal with
  | |- context [if ?c then _ else _] => destruct c
  end; reflexivity.
Qed.

(** X16: deleting a job changes nothing in what [getAllApplicants]
    answers for it: the applications to a deleted job are still listed. *)
Theorem getAllApplicants_after_deleteJob (id jobId : string) (db : DB) :
  fst (getAllApplicants jobId (snd (deleteJob id db)))
  = fst (getAllApplicants jobId db).
Proof.
  apply getAllApplicants_reads; rewrite deleteJob_steps;
    destruct (is_hex24 id); try reflexivity;
    destruct (findOne _ (jobs db)); reflexivity.
Qed.

(** X17: after [deleteJob] has answered 200, the applicant's own listing
    shows every application to that job with [job: null]; ids are unique
    in the Job collection. *)
Theorem getAppliedJobs_after_deleteJob (id user : string) (db db' : DB)
  (r : Response) (l : Listing AppliedJob) :
  NoDup (map Job._id (jobs db)) ->
  deleteJob id db = (r, db') ->
  status r = 200 ->
  fst (getAppliedJobs user db') = Listed l ->
  forall e, In e (list_data l) ->
    Application.job (applied_application e) = toLowerCase id ->
    applied_job e = None.
Proof.
  intros Hnd Hrun Hst Hlist e He Hjob. rewrite deleteJob_steps in Hrun.
  destruct (is_hex24 id); [| inversion Hrun; subst; discriminate].
  destruct (findOne _ (jobs db)); [| inversion Hrun; subst; discriminate].
  inversion Hrun; subst r db'. clear Hrun Hst.
  revert Hlist.
  unfold getAppliedJobs, try_catch_answer, Application_find_by, of_cast.
  cbv zeta. cbn [castObjectId].
  destruct (is_hex24 user); [| discriminate].
  run.
  match goal with
  | |- context [if ?c then _ else _] => destruct c
  end; [discriminate |].
  cbn [fst]. intros H. injection H as <-. cbn [list_data] in He.
  apply in_map_iff in He. destruct He as [a [<- _]].
  unfold populate_job in *. cbn [applied_job applied_application] in *.
  rewrite Hjob. cbn [jobs unlink_job set_companies set_jobCategories set_jobs].
  rewrite (findOne_absent Job._id (toLowerCase id)); [reflexivity |].
  now apply deleteOne_removes.
Qed.

(** ** createUser and loginUser together *)

Section UserDirectoryFurther.
Variable cloudinary_upload : File -> option string.
Variable bcrypt_hash : string -> string -> string.
Variable profile_cast : JsVal -> CastResult JsVal.
Variable bcrypt_compare : string -> string -> bool.
Variable jwt_sign : ObjectId -> N -> string.
Variable error_message : Exn -> string.

Lemma User_create_detail (input : JsVal) (salt : string) (newId : ObjectId)
  (db db1 : DB) (u : User.doc) :
  User_create bcrypt_hash profile_cast input salt newId db = (Continue u, db1) ->
  db1 = set_users (users db ++ [u]) db
  /\ User._id u = newId
  /\ (exists e, castString (js_get "email" input) = Casted (Some e)
                /\ User.email u = email_setters e)
  /\ (exists pw, castString (js_get "password" input) = Casted (Some pw)
                 /\ User.password u = bcrypt_hash pw salt
                 /\ (6 <= String.length pw)%nat)
  /\ castString (js_get "role" input) = Casted (Some (User.role u))
  /\ In (User.role u) ["user"; "recruiter"]
  /\ re_test phone_pattern (User.phone u) = true
  /\ re_test email_pattern (User.email u) = true
  /\ User.name u <> ""
  /\ (forall x, In x (users db) -> User.email x <> User.email u).
Proof.
  unfold User_create, required_string, required, of_cast.
  destruct (castString (js_get "name" input)) as [[n |] |];
    try (run; discriminate).
  run. destruct (String.eqb (trim n) "") eqn:Hn; [discriminate |].
  destruct (castString (js_get "email" input)) as [[e |] |];
    try discriminate.
  destruct (String.eqb (email_setters e) "") eqn:He0; [discriminate |].
  destruct (re_test email_pattern (email_setters e)) eqn:Hem;
    [| discriminate].
  cbn [orb].
  destruct (castString (js_get "phone" input)) as [[ph |] |];
    try discriminate.
  destruct (String.eqb ph ""); [discriminate |].
  destruct (re_test phone_pattern ph) eqn:Hph; [| discriminate].
  destruct (castString (js_get "password" input)) as [[pw |] |];
    try discriminate.
  destruct (String.eqb pw ""); [discriminate |].
  destruct (String.length pw <? 6)%nat eqn:Hlen; [discriminate |].
  destruct (castString (js_get "role" input)) as [[ro |] |];
    try discriminate.
  destruct (String.eqb ro ""); [discriminate |].
  destruct (existsb (String.eqb ro) ["user"; "recruiter"]) eqn:Hro;
    [| discriminate].
  destruct (profile_cast (js_get "profile" input)) as [pr |];
    [| discriminate].
  destruct (existsb _ (users db)) eqn:Hdup; [discriminate |].
  intros H. inversion H; subst u db1. cbn.
  split; [reflexivity |]. split; [reflexivity |].
  split; [now exists e |].
  split; [exists pw; repeat split; now apply Nat.ltb_ge in Hlen |].
  split; [reflexivity |].
  split.
  { apply existsb_exists in Hro. destruct Hro as [x [Hx Heq]].
    apply String.eqb_eq in Heq. now subst. }
  split; [assumption |]. split; [assumption |].
  split; [now apply String.eqb_neq in Hn |].
  intros x Hx Heq.
  assert (Hex : existsb (fun u' => String.eqb (User.email u') (email_setters e))
                  (users db) = true).
  { apply existsb_exists. exists x. split; [assumption |].
    now apply String.eqb_eq. }
  congruence.
Qed.

(** What a 200 of [createUser] tells. *)
Lemma createUser_created (body : Body) (file : option File) (salt : string)
  (newId : ObjectId) (db db1 : DB) (r : Response) :
  createUser cloudinary_upload bcrypt_hash profile_cast body file salt newId db
  = (r, db1) ->
  status r = 200 ->
  exists u,
    r = json 200 true "User created successfully" (UserData u)
    /\ db1 = set_users (users db ++ [u]) db
    /\ User._id u = newId
    /\ (exists e, castString (field "email" body) = Casted (Some e)
                  /\ User.email u = email_setters e)
    /\ (exists pw, castString (field "password" body) = Casted (Some pw)
                   /\ User.password u = bcrypt_hash pw salt
                   /\ (6 <= String.length pw)%nat)
    /\ castString (field "role" body) = Casted (Some (User.role u))
    /\ In (User.role u) ["user"; "recruiter"]
    /\ re_test phone_pattern (User.phone u) = true
    /\ re_test email_pattern (User.email u) = true
    /\ User.name u <> ""
    /\ (forall x, In x (users db) -> User.email x <> User.email u).
Proof.
  unfold createUser, try_catch. cbv zeta.
  match goal with
  | |- context [return_if ?c _] => destruct c
  end; [run; intros H; inversion H; subst; discriminate |].
  rewrite return_if_false.
  unfold User_findOne_email, of_cast.
  destruct (castString (field "email" body)) as [e |] eqn:Hemail;
    [| run; intros H; inversion H; subst; discriminate].
  run.
  match goal with
  | |- context [match ?x with Some _ => true | None => false end] =>
      destruct x
  end; [intros H; inversion H; subst; discriminate |].
  destruct file as [f |]; [destruct (cloudinary_upload f) as [url |] |];
    try (intros H; inversion H; subst; discriminate);
    match goal with
    | |- context [User_create _ _ ?i _ _ _] =>
        destruct (User_create bcrypt_hash profile_cast i salt newId db)
          as [[u | r' | x] db2] eqn:Hc;
        try (intros H; inversion H; subst; discriminate);
        [ destruct (User_create_detail _ _ _ _ _ _ Hc)
            as [Hdb [Hid [Hem [Hpw [Hro [Hen [Hph [Hep [Hn Hu]]]]]]]]];
          change (js_get "email" (JObj _)) with (field "email" body) in Hem;
          change (js_get "password" (JObj _)) with (field "password" body) in Hpw;
          change (js_get "role" (JObj _)) with (field "role" body) in Hro;
          intros H _; inversion H; subst r db1; exists u;
          rewrite Hemail in Hem; now repeat split
        | destruct (User_create_outcome bcrypt_hash profile_cast i salt newId db)
            as [[u' [e' [Hc' _]]] | [e' He']]; congruence ]
    end.
Qed.

(** X18: every user that [createUser] stores passed the validators of the
    schema: a ten-digit phone, a password of six characters or more
    before hashing, a role of the enumeration, an email of the pattern,
    a name that is not empty, and an email no other user has. *)
Theorem createUser_stores_validated_user (body : Body) (file : option File)
  (salt : string) (newId : ObjectId) (db db1 : DB) (r : Response) :
  createUser cloudinary_upload bcrypt_hash profile_cast body file salt newId db
  = (r, db1) ->
  status r = 200 ->
  exists u,
    payload r = UserData u
    /\ users db1 = users db ++ [u]
    /\ re_test phone_pattern (User.phone u) = true
    /\ (exists pw, castString (field "password" body) = Casted (Some pw)
                   /\ User.password u = bcrypt_hash pw salt
                   /\ (6 <= String.length pw)%nat)
    /\ In (User.role u) ["user"; "recruiter"]
    /\ re_test email_pattern (User.email u) = true
    /\ User.name u <> ""
    /\ (forall x, In x (users db) -> User.email x <> User.email u).
Proof.
  intros Hrun Hst.
  destruct (createUser_created _ _ _ _ _ _ _ Hrun Hst)
    as [u [-> [-> [_ [_ [Hpw [_ [Hro [Hph [Hem [Hn Hu]]]]]]]]]]].
  exists u. now repeat split.
Qed.

(** X19: [loginUser] never writes, answers only 200 or 400, and sets the
    cookie exactly when it answers 200. *)
Theorem loginUser_answers (body : Body) (issued now : N) (db : DB) :
  let (a, db') := loginUser bcrypt_compare jwt_sign error_message body
                    issued now db in
  db' = db
  /\ (status (login_reply a) = 200 \/ status (login_reply a) = 400)
  /\ (is_some (login_cookie a) = true <-> status (login_reply a) = 200).
Proof.
  unfold loginUser, try_catch_login, User_findOne_email, of_cast. cbv zeta.
  match goal with
  | |- context [return_if ?c _] => destruct c
  end; [run; repeat split; try (now right); discriminate |].
  rewrite return_if_false.
  destruct (castString (field "email" body)) as [e |];
    [| run; repeat split; try (now right); discriminate].
  run.
  match goal with
  | |- context [match ?x with Some _ => _ | None => _ end] => destruct x as [u |]
  end; [| repeat split; try (now right); discriminate].
  destruct (field "password" body);
    try (repeat split; try (now right); discriminate).
  destruct (bcrypt_compare s (User.password u));
    [| repeat split; try (now right); discriminate].
  destruct (str_strict_neq (field "role" body) (User.role u));
    repeat split; try (now right); try (now left); discriminate.
Qed.

(** X20: valid credentials with another role than the stored one are
    refused: the answer is the 400 of the role test, without a cookie. *)
Theorem loginUser_wrong_role (body : Body) (issued now : N) (db : DB)
  (e pw ro : string) (u : User.doc) :
  field "email" body = JStr e -> e <> "" ->
  field "password" body = JStr pw -> pw <> "" ->
  field "role" body = JStr ro -> ro <> "" ->
  findOne (fun x => String.eqb (User.email x) (email_setters e)) (users db)
  = Some u ->
  bcrypt_compare pw (User.password u) = true ->
  ro <> User.role u ->
  loginUser bcrypt_compare jwt_sign error_message body issued now db
  = (mkLoginAnswer (json 400 false "Role does not match" NoData) None, db).
Proof.
  intros He Hne Hp Hnp Hr Hnr Hfind Hmatch Hrole.
  unfold loginUser, try_catch_login, User_findOne_email, of_cast. cbv zeta.
  rewrite He, Hp, Hr. cbn [truthy castString].
  apply String.eqb_neq in Hne, Hnp, Hnr. rewrite Hne, Hnp, Hnr.
  cbn [negb orb]. run. rewrite Hfind, Hmatch. cbn [str_strict_neq].
  apply String.eqb_neq in Hrole. now rewrite Hrole.
Qed.


End UserDirectoryFurther.

(** ** The further properties on the sample database *)

Lemma postJob_rejects_repeated_category_witness :
  let (r, db') :=
    postJob Job_attributes_required ann_id job_body_repeated job_id db_seed in
  db' = db_seed /\ success r = false /\ status r <> 201.
Proof.
  apply (postJob_rejects_repeated_category Job_attributes_required ann_id
           job_body_repeated job_id db_seed
           [JStr engineering_id; JStr engineering_id]
           [Some engineering_id; Some engineering_id]).
  - exact db_seed_category_ids_unique.
  - reflexivity.
  - reflexivity.
  - intros H. inversion H as [| x l Hnin Hnd]. apply Hnin. now left.
Defined.

Lemma jobById_after_postJob_witness :
  exists job,
    payload (fst (postJob Job_attributes_required ann_id job_body job_id db_seed))
    = JobData job
    /\ jobById job_id db_posted
       = (json 200 true "Job found successfully" (JobData job), db_posted).
Proof.
  apply (jobById_after_postJob Job_attributes_required ann_id job_body job_id
           db_seed db_posted
           (fst (postJob Job_attributes_required ann_id job_body job_id db_seed))).
  - reflexivity.
  - reflexivity.
  - split; reflexivity.
  - intros j [].
Defined.

Lemma getJobsByUserID_after_postJob_witness :
  exists job l,
    payload (fst (postJob Job_attributes_required ann_id job_body job_id db_seed))
    = JobData job
    /\ getJobsByUserID ann_id db_posted = (Listed l, db_posted)
    /\ list_status l = 200
    /\ list_total l = Some (List.length (list_data l))
    /\ In job (list_data l)
    /\ (forall j, In j (list_data l) ->
                  In j (jobs db_posted) /\ Job.postedBy j = toLowerCase ann_id).
Proof.
  apply (getJobsByUserID_after_postJob Job_attributes_required ann_id job_body
           job_id db_seed db_posted
           (fst (postJob Job_attributes_required ann_id job_body job_id db_seed))).
  - reflexivity.
  - reflexivity.
Defined.

Lemma deleteJob_undoes_postJob_witness :
  exists db2,
    deleteJob job_id db_posted
    = (json 200 true "Job deleted successfully" NoData, db2)
    /\ jobs db2 = jobs db_seed
    /\ job_links db2 = job_links db_seed
    /\ applications db2 = applications db_seed
    /\ users db2 = users db_seed.
Proof.
  apply (deleteJob_undoes_postJob Job_attributes_required ann_id job_body
           job_id db_seed db_posted
           (fst (postJob Job_attributes_required ann_id job_body job_id db_seed))).
  - reflexivity.
  - reflexivity.
  - split; reflexivity.
  - intros j [].
  - intros c [<- | []]. simpl. tauto.
  - intros k [<- | [<- | []]]; simpl; tauto.
Defined.

Lemma jobById_after_deleteJob_witness :
  jobById job_id db_deleted
  = (json 404 false "Job not found" NoData, db_deleted).
Proof.
  apply (jobById_after_deleteJob job_id db_applied db_deleted
           (fst (deleteJob job_id db_applied))).
  - vm_compute. repeat constructor. simpl. tauto.
  - reflexivity.
  - reflexivity.
Defined.

Lemma createCompany_keeps_names_unique_witness :
  NoDup (map Company.name
           (companies (snd (createCompany ann_id company_body absent_id db_seed)))).
Proof.
  apply (createCompany_keeps_names_unique ann_id company_body absent_id db_seed).
  simpl. repeat constructor. simpl. tauto.
Defined.

Lemma getCompanyById_after_createCompany_witness :
  exists c,
    payload (fst (createCompany ann_id company_body absent_id db_seed))
    = CompanyData c
    /\ getCompanyById absent_id
         (snd (createCompany ann_id company_body absent_id db_seed))
       = (json 200 true "Company found successfully" (CompanyData c),
          snd (createCompany ann_id company_body absent_id db_seed)).
Proof.
  apply (getCompanyById_after_createCompany ann_id company_body absent_id
           db_seed
           (snd (createCompany ann_id company_body absent_id db_seed))
           (fst (createCompany ann_id company_body absent_id db_seed))).
  - reflexivity.
  - reflexivity.
  - split; reflexivity.
  - intros c [<- | []]. discriminate.
Defined.

Lemma listings_after_createCompany_witness :
  exists c mine,
    payload (fst (createCompany ann_id company_body absent_id db_seed))
    = CompanyData c
    /\ getCompanyByUserId ann_id
         (snd (createCompany ann_id company_body absent_id db_seed))
       = (Listed (mkListing 200 true (Some "Company found successfully")
                    (Some (List.length mine)) mine),
          snd (createCompany ann_id company_body absent_id db_seed))
    /\ In c mine
    /\ (forall x, In x mine -> In (toLowerCase ann_id) (Company.userId x))
    /\ getCompanies (snd (createCompany ann_id company_body absent_id db_seed))
       = (Listed (mkListing 200 true (Some "Companies found successfully")
                    (Some (S (List.length (companies db_seed))))
                    (companies db_seed ++ [c])),
          snd (createCompany ann_id company_body absent_id db_seed)).
Proof.
  apply (listings_after_createCompany ann_id company_body absent_id db_seed
           (snd (createCompany ann_id company_body absent_id db_seed))
           (fst (createCompany ann_id company_body absent_id db_seed))).
  - reflexivity.
  - reflexivity.
Defined.

Lemma createJobCategory_twice_witness :
  let (r2, db2) :=
    createJobCategory category_text_body absent_id
      (snd (createJobCategory category_number_body research_id db_seed)) in
  status r2 = 409 /\ success r2 = false
  /\ db2 = snd (createJobCategory category_number_body research_id db_seed).
Proof.
  apply (createJobCategory_twice category_number_body category_text_body
           research_id absent_id db_seed
           (snd (createJobCategory category_number_body research_id db_seed))
           (fst (createJobCategory category_number_body research_id db_seed))).
  - reflexivity.
  - reflexivity.
  - reflexivity.
  - reflexivity.
Defined.

Lemma applyJob_links_job_and_application_witness :
  exists app job,
    applications db_applied = applications db_posted ++ [app]
    /\ Application._id app = application_id
    /\ Application.job app = toLowerCase job_id
    /\ Application.applicant app = toLowerCase ann_id
    /\ In job (jobs db_applied)
    /\ Job._id job = Application.job app
    /\ In application_id (Job.applicants job).
Proof.
  apply (applyJob_links_job_and_application ann_id job_id application_body
           application_id db_posted db_applied
           (fst (applyJob ann_id job_id application_body application_id
                   db_posted))).
  - reflexivity.
  - reflexivity.
Defined.

Lemma getAppliedJobs_after_deleteJob_witness :
  applied_job
    (populate_job db_deleted
       (Application.mk application_id job_id ann_id
          "https://files.example/ann.pdf" "Applied" None))
  = None.
Proof.
  apply (getAppliedJobs_after_deleteJob job_id ann_id db_applied db_deleted
           (fst (deleteJob job_id db_applied))
           (mkListing 200 true (Some "Applications fetched successfully.") None
              [populate_job db_deleted
                 (Application.mk application_id job_id ann_id
                    "https://files.example/ann.pdf" "Applied" None)])).
  - vm_compute. repeat constructor. simpl. tauto.
  - reflexivity.
  - reflexivity.
  - reflexivity.
  - now left.
  - reflexivity.
Defined.

Lemma createUser_stores_validated_user_witness :
  exists u,
    payload (fst (createUser upload_ok hash_tagged profile_as_given bob_body
                    None "salt" bob_id db_seed)) = UserData u
    /\ users (snd (createUser upload_ok hash_tagged profile_as_given bob_body
                     None "salt" bob_id db_seed)) = users db_seed ++ [u]
    /\ re_test phone_pattern (User.phone u) = true
    /\ (exists pw, castString (field "password" bob_body) = Casted (Some pw)
                   /\ User.password u = hash_tagged pw "salt"
                   /\ (6 <= String.length pw)%nat)
    /\ In (User.role u) ["user"; "recruiter"]
    /\ re_test email_pattern (User.email u) = true
    /\ User.name u <> ""
    /\ (forall x, In x (users db_seed) -> User.email x <> User.email u).
Proof.
  apply (createUser_stores_validated_user upload_ok hash_tagged
           profile_as_given bob_body None "salt" bob_id db_seed
           (snd (createUser upload_ok hash_tagged profile_as_given bob_body
                   None "salt" bob_id db_seed))
           (fst (createUser upload_ok hash_tagged profile_as_given bob_body
                   None "salt" bob_id db_seed))).
  - reflexivity.
  - reflexivity.
Defined.

Lemma loginUser_wrong_role_witness :
  loginUser compare_tagged sign_tagged message_of ann_login_as_user 0 0 db_seed
  = (mkLoginAnswer (json 400 false "Role does not match" NoData) None, db_seed).
Proof.
  apply (loginUser_wrong_role compare_tagged sign_tagged message_of
           ann_login_as_user 0 0 db_seed "ann@example.com" "Zk1" "user" ann).
  - reflexivity.
  - discriminate.
  - reflexivity.
  - discriminate.
  - reflexivity.
  - discriminate.
  - reflexivity.
  - reflexivity.
  - discriminate.
Defined.


Lemma createUser_keeps_emails_unique_witness :
  NoDup (map User.email
           (users (snd (createUser upload_ok hash_tagged profile_as_given
                          bob_body None "salt" bob_id db_seed)))).
Proof.
  apply (createUser_keeps_emails_unique upload_ok hash_tagged profile_as_given
           bob_body None "salt" bob_id db_seed).
  simpl. repeat constructor. simpl. tauto.
Defined.

Lemma applyJob_twice_witness :
  pair_count (toLowerCase ann_id) (toLowerCase job_id) db_posted = 0%nat
  /\ pair_count (toLowerCase ann_id) (toLowerCase job_id) db_applied = 1%nat
  /\ forall body2 id2,
       applyJob ann_id job_id body2 id2 db_applied
       = (json 400 false "You have already applied for this job." NoData,
          db_applied).
Proof.
  apply (applyJob_twice ann_id job_id application_body application_id db_posted
           db_applied
           (fst (applyJob ann_id job_id application_body application_id
                   db_posted))).
  - reflexivity.
  - reflexivity.
Defined.

Lemma updateCompany_outcomes_witness :
  updateCompany set_description "acme" description_body db_posted
  = (json 401 false "Invalid Company ID" NoData, db_posted)
  /\ In acme (companies
                (snd (updateCompany set_description absent_id description_body
                        db_seed))).
Proof.
  split.
  - pose proof (updateCompany_outcomes set_description "acme" description_body
                  db_posted) as H.
    destruct (updateCompany set_description "acme" description_body db_posted)
      as [r db'].
    destruct H as [H _]. destruct H as [-> ->]; reflexivity.
  - pose proof (updateCompany_outcomes set_description absent_id
                  description_body db_seed) as H.
    destruct (updateCompany set_description absent_id description_body db_seed)
      as [r db'].
    apply H; [now left | discriminate].
Defined.

Lemma deleteCompany_does_not_cascade_witness :
  exists j,
    In j (jobs (snd (deleteCompany acme_id db_posted)))
    /\ Job.company j = acme_id
    /\ findOne (has_id Company._id (Job.company j))
         (companies (snd (deleteCompany acme_id db_posted))) = None.
Proof.
  pose proof (deleteCompany_does_not_cascade acme_id db_posted) as H.
  rewrite (surjective_pairing (deleteCompany acme_id db_posted)) in H.
  destruct H as (_ & _ & H).
  destruct H as [_ H].
  - reflexivity.
  - vm_compute. repeat constructor. simpl. tauto.
  - eexists. split; [left; reflexivity |]. split; [reflexivity |].
    apply H; [left; reflexivity | reflexivity].
Defined.

Lemma deleteJobCategory_does_not_cascade_witness :
  jobs (snd (deleteJobCategory engineering_id db_posted)) = jobs db_posted
  /\ getJobCategoryById engineering_id
       (snd (deleteJobCategory engineering_id db_posted))
     = (json 404 false "Job category not found" NoData,
        snd (deleteJobCategory engineering_id db_posted)).
Proof.
  pose proof (deleteJobCategory_does_not_cascade engineering_id db_posted) as H.
  rewrite (surjective_pairing (deleteJobCategory engineering_id db_posted)) in H.
  destruct H as (Hjobs & _ & _ & H). split; [exact Hjobs |].
  apply H.
  - reflexivity.
  - vm_compute. repeat constructor; simpl; intuition discriminate.
Defined.
